(** * AffiHub: click-to-conversion attribution pipeline

    A shallow embedding of the Django views of the tracking, products and
    users applications, and the properties of the attribution pipeline that
    hold (or fail) on them.

    Conventions of the embedding:
    - a Python [str] that comes from an HTTP header is a [string] of 8-bit
      code points (WSGI decodes headers as ISO-8859-1);
    - a [Decimal] is an exact rational [Q]; equalities between amounts are
      stated with [==];
    - the database is an explicit [Store] threaded through every view;
    - a Python exception raised inside a view is a value of type [exn], and
      each view's [try]/[except] is the function that maps it to a response. *)

From Stdlib Require Import Bool Arith ZArith QArith Lia Lqa List.
From Stdlib Require Import Strings.Ascii Strings.String.
From Stdlib Require Import Numbers.DecimalString Numbers.DecimalNat.
From Stdlib Require Import Sorting.Permutation Sorting.Sorted.
Import ListNotations.

Local Open Scope list_scope.
Local Open Scope string_scope.

(** ** Python built-ins used by the views *)

Module Py.

(** [str.lower] on one code point below 256: the ASCII capitals and the
    Latin-1 capitals (all of 192..222 but the multiplication sign 215) move
    up by 32. *)
Definition lower_char (c : ascii) : ascii :=
  let n := nat_of_ascii c in
  if (65 <=? n)%nat && (n <=? 90)%nat then ascii_of_nat (n + 32)
  else if (192 <=? n)%nat && (n <=? 222)%nat && negb (n =? 215)%nat
       then ascii_of_nat (n + 32)
  else c.

Fixpoint lower (s : string) : string :=
  match s with
  | EmptyString => EmptyString
  | String c s' => String (lower_char c) (lower s')
  end.

(** [pat in s] for two strings. *)
Fixpoint str_in (pat s : string) : bool :=
  prefix pat s ||
  match s with
  | EmptyString => false
  | String _ s' => str_in pat s'
  end.

(** Truth value of a string and of an optional string ([None] is falsy). *)
Definition truthy (s : string) : bool :=
  match s with EmptyString => false | _ => true end.

Definition truthy_opt (o : option string) : bool :=
  match o with None => false | Some s => truthy s end.

(** [str(n)] for a non-negative integer. *)
Definition str_of_nat (n : nat) : string :=
  NilZero.string_of_uint (Nat.to_uint n).

(** [s.split(',')[0]]: the part of [s] before its first comma. *)
Fixpoint before_comma (s : string) : string :=
  match s with
  | EmptyString => EmptyString
  | String c s' =>
      if Ascii.eqb c ","%char then EmptyString else String c (before_comma s')
  end.

(** The double quote, as a text. *)
Definition dquote : string := String (ascii_of_nat 34) EmptyString.

Definition hex_digit (n : nat) : ascii :=
  ascii_of_nat (if (n <? 10)%nat then 48 + n else 87 + n).

(** [repr] escapes one code point below 256: the backslash, the quote in
    use, tab, newline and carriage return by name; the code points that are
    not printable (below 32, 127 to 160, and 173) as [\xNN]. *)
Definition repr_char (quote c : ascii) : string :=
  let n := nat_of_ascii c in
  if (n =? 92)%nat then String c (String c EmptyString)
  else if Ascii.eqb c quote then String (ascii_of_nat 92) (String c EmptyString)
  else if (n =? 9)%nat then String (ascii_of_nat 92) "t"
  else if (n =? 10)%nat then String (ascii_of_nat 92) "n"
  else if (n =? 13)%nat then String (ascii_of_nat 92) "r"
  else if (n <? 32)%nat || ((127 <=? n)%nat && (n <=? 160)%nat)
          || (n =? 173)%nat
  then String (ascii_of_nat 92)
         (String "x"%char
            (String (hex_digit (n / 16))
               (String (hex_digit (n mod 16)) EmptyString)))
  else String c EmptyString.

Fixpoint repr_body (quote : ascii) (s : string) : string :=
  match s with
  | EmptyString => EmptyString
  | String c s' => repr_char quote c ++ repr_body quote s'
  end.

(** [repr(s)]: between double quotes when [s] has a single quote and no
    double quote, between single quotes otherwise. *)
Definition repr (s : string) : string :=
  let quote :=
    if str_in "'" s && negb (str_in dquote s) then ascii_of_nat 34
    else "'"%char in
  String quote (repr_body quote s ++ String quote EmptyString).

(** The substring relation that [str_in] decides. *)
Definition Contains (pat s : string) : Prop :=
  exists a b, s = a ++ pat ++ b.

End Py.

(** ** tracking/views.py: device classification *)

Inductive DeviceType : Type := mobile | tablet | desktop | unknown.

Definition mobile_patterns : list string :=
  [ "mobile"; "android"; "iphone"; "ipod"; "blackberry";
    "windows phone"; "palm"; "symbian" ].

Definition tablet_patterns : list string := [ "ipad"; "tablet"; "kindle" ].

(** [detect_device_type(user_agent)]; [None] is Python's [None]. *)
Definition detect_device_type (user_agent : option string) : DeviceType :=
  match user_agent with
  | None => unknown
  | Some ua =>
      if negb (Py.truthy ua) then unknown
      else
        let ua := Py.lower ua in
        if existsb (fun pattern => Py.str_in pattern ua) tablet_patterns
        then tablet
        else if existsb (fun pattern => Py.str_in pattern ua) mobile_patterns
        then mobile
        else desktop
  end.

(** ** users/models.py *)

Module User.

Record t : Type := mk {
  id : nat;
  username : string;
  role : string;
  is_superuser : bool
}.

(** The [is_affiliate] and [is_merchant] properties. *)
Definition is_affiliate (u : t) : bool := String.eqb (role u) "affiliate".
Definition is_merchant (u : t) : bool := String.eqb (role u) "merchant".

(** [u1 != u2] on model instances compares primary keys. *)
Definition neq (u : t) (pk : nat) : bool := negb (Nat.eqb (id u) pk).

End User.

(** ** products/models.py *)

Module Product.

Record t : Type := mk {
  id : nat;
  name : string;
  price : Q;
  merchant : nat;
  commission_rate : Q;
  external_url : option string;
  is_active : bool
}.

(** The [commission_amount] property. *)
Definition commission_amount (p : t) : Q :=
  (price p * commission_rate p) / 100.

End Product.

(** ** The tracking models, as the views and serializers use them *)

Module AffiliateLink.

Record t : Type := mk {
  id : nat;
  code : string;
  affiliate : nat;
  product : nat;
  custom_slug : option string;
  landing_url : option string;
  is_active : bool;
  expires_at : option Z
}.

End AffiliateLink.

Module Click.

Record t : Type := mk {
  id : nat;
  affiliate_link : nat;
  ip_address : option string;
  user_agent : string;
  referrer : string;
  device_type : DeviceType;
  timestamp : Z
}.

End Click.

(** A value of the request body ([request.data]). *)
Inductive jval : Type :=
| JNull
| JBool (b : bool)
| JNum (q : Q)
| JStr (s : string).

Module Conversion.

Record t : Type := mk {
  id : nat;
  affiliate_link : nat;
  click : option nat;
  order_id : jval;
  amount : Q;
  commission_amount : Q;
  currency : option string;
  timestamp : Z;
  verified : bool;
  notes : jval
}.

End Conversion.

(** ** The database *)

Record Store : Type := mkStore {
  products : list Product.t;
  links : list AffiliateLink.t;
  clicks : list Click.t;
  conversions : list Conversion.t
}.

Definition set_products (ps : list Product.t) (s : Store) : Store :=
  mkStore ps (links s) (clicks s) (conversions s).
Definition set_links (ls : list AffiliateLink.t) (s : Store) : Store :=
  mkStore (products s) ls (clicks s) (conversions s).
Definition set_clicks (cs : list Click.t) (s : Store) : Store :=
  mkStore (products s) (links s) cs (conversions s).
Definition set_conversions (cs : list Conversion.t) (s : Store) : Store :=
  mkStore (products s) (links s) (clicks s) cs.

(** The primary key the database gives the next row of a table. *)
Definition next_id (ids : list nat) : nat := S (list_max ids).

(** ** Exceptions, and the monad of a view body

    A view body runs on the store and either returns or raises; the store
    it leaves behind is kept in both cases, since nothing rolls a request
    back. *)

Inductive exn : Type :=
| Http404 (msg : string)
| AffiliateLink_DoesNotExist
| AffiliateLink_MultipleObjectsReturned
| Product_DoesNotExist
| DatabaseError (msg : string)
| IntegrityError (msg : string)
| ValueError (msg : string)
| RedirectException (msg : string).

(** [str(e)] *)
Definition exn_str (e : exn) : string :=
  match e with
  | Http404 msg => msg
  | AffiliateLink_DoesNotExist => "AffiliateLink matching query does not exist."
  | AffiliateLink_MultipleObjectsReturned =>
      "get() returned more than one AffiliateLink"
  | Product_DoesNotExist => "Product matching query does not exist."
  | DatabaseError msg => msg
  | IntegrityError msg => msg
  | ValueError msg => msg
  | RedirectException msg => msg
  end.

Inductive result (A : Type) : Type :=
| Ok (a : A)
| Raise (e : exn).
Arguments Ok {A} a.
Arguments Raise {A} e.

Definition M (A : Type) : Type := Store -> result A * Store.

Definition ret {A} (a : A) : M A := fun s => (Ok a, s).
Definition raise {A} (e : exn) : M A := fun s => (Raise e, s).
Definition bind {A B} (m : M A) (k : A -> M B) : M B :=
  fun s => match m s with
           | (Ok a, s') => k a s'
           | (Raise e, s') => (Raise e, s')
           end.
Definition get_store : M Store := fun s => (Ok s, s).
Definition put_store (s' : Store) : M unit := fun _ => (Ok tt, s').

Notation "x <- c1 ;; c2" := (bind c1 (fun x => c2))
  (at level 61, c1 at next level, right associativity).
Notation "c1 ;;; c2" := (bind c1 (fun _ => c2))
  (at level 61, right associativity).

(** ** Responses *)

(** [redirect(url)] answers 302; [HttpResponse(body, status=...)] the rest. *)
Inductive HttpResponse : Type :=
| HttpResponseRedirect (url : string)
| HttpResponseStatus (body : string) (status : nat).

Definition status_code (r : HttpResponse) : nat :=
  match r with
  | HttpResponseRedirect _ => 302
  | HttpResponseStatus _ st => st
  end.

(** What [django.shortcuts.redirect(to)] does with a [str]: it answers a
    302 whose Location it builds from [to] (which it first tries as a URL
    name of the project), or it raises: [NoReverseMatch] for a text that is
    no URL name and has neither a slash nor a dot, [DisallowedRedirect] for a
    scheme other than http, https and ftp. The outcome depends on the URL
    configuration of the whole project and on Django, so the click view takes
    the function as an argument. *)
Inductive redirect_outcome : Type :=
| Redirected (location : string)
| RedirectRaises (msg : string).

(** ** Query-set primitives *)

(** [AffiliateLink.objects.get(code=code, is_active=True)] *)
Definition AffiliateLink_get (code : string) : M AffiliateLink.t :=
  s <- get_store ;;
  match filter (fun l => String.eqb (AffiliateLink.code l) code
                         && AffiliateLink.is_active l) (links s) with
  | [] => raise AffiliateLink_DoesNotExist
  | [l] => ret l
  | _ => raise AffiliateLink_MultipleObjectsReturned
  end.

(** [django.shortcuts.get_object_or_404]: the model's [DoesNotExist] becomes
    an [Http404]. *)
Definition get_object_or_404 (code : string) : M AffiliateLink.t :=
  fun s => match AffiliateLink_get code s with
           | (Raise AffiliateLink_DoesNotExist, s') =>
               (Raise (Http404 "No AffiliateLink matches the given query."), s')
           | r => r
           end.

(** Following the foreign key [link.product]. *)
Definition link_product (l : AffiliateLink.t) : M Product.t :=
  s <- get_store ;;
  match find (fun p => Nat.eqb (Product.id p) (AffiliateLink.product l))
             (products s) with
  | Some p => ret p
  | None => raise Product_DoesNotExist
  end.

(** [Click.objects.create(...)]. [fault] is the storage layer's answer to the
    insert: [Some msg] when the write fails with a database error. *)
Definition Click_objects_create (now : Z) (fault : option string)
    (link : AffiliateLink.t) (ip_address : option string)
    (user_agent referrer : string) (device_type : DeviceType) : M Click.t :=
  match fault with
  | Some msg => raise (DatabaseError msg)
  | None =>
      s <- get_store ;;
      let c := Click.mk (next_id (map Click.id (clicks s)))
                 (AffiliateLink.id link) ip_address user_agent referrer
                 device_type now in
      put_store (set_clicks (clicks s ++ [c])%list s) ;;;
      ret c
  end.

(** ** tracking/views.py: the click endpoint *)

Record Request : Type := mkRequest {
  HTTP_X_FORWARDED_FOR : option string;
  REMOTE_ADDR : option string;
  HTTP_USER_AGENT : option string;
  HTTP_REFERER : option string
}.

Definition get_client_ip (request : Request) : option string :=
  let x_forwarded_for := HTTP_X_FORWARDED_FOR request in
  if Py.truthy_opt x_forwarded_for
  then option_map Py.before_comma x_forwarded_for
  else REMOTE_ADDR request.

(** [link.expires_at and timezone.now() > link.expires_at] *)
Definition has_expired (now : Z) (link : AffiliateLink.t) : bool :=
  match AffiliateLink.expires_at link with
  | None => false
  | Some t => (t <? now)%Z
  end.

(** The redirect target: lines 297-304 of tracking/views.py. *)
Definition redirect_url_of (link : AffiliateLink.t) : M string :=
  match AffiliateLink.landing_url link with
  | Some u =>
      if Py.truthy u then ret u
      else
        p <- link_product link ;;
        if Py.truthy_opt (Product.external_url p)
        then ret (match Product.external_url p with Some e => e | None => "" end)
        else ret ("/api/products/" ++ Py.str_of_nat (Product.id p) ++ "/")
  | None =>
      p <- link_product link ;;
      if Py.truthy_opt (Product.external_url p)
      then ret (match Product.external_url p with Some e => e | None => "" end)
      else ret ("/api/products/" ++ Py.str_of_nat (Product.id p) ++ "/")
  end.

(** The [try] block of [track_click]. *)
Definition track_click_try (redirect : string -> redirect_outcome) (now : Z)
    (fault : option string) (request : Request) (code : string)
  : M HttpResponse :=
  link <- get_object_or_404 code ;;
  if has_expired now link
  then ret (HttpResponseStatus "This affiliate link has expired." 410)
  else
    let ip_address := get_client_ip request in
    let user_agent :=
      match HTTP_USER_AGENT request with Some ua => ua | None => "" end in
    let referrer :=
      match HTTP_REFERER request with Some r => r | None => "" end in
    let device_type := detect_device_type (Some user_agent) in
    Click_objects_create now fault link ip_address user_agent referrer
      device_type ;;;
    redirect_url <- redirect_url_of link ;;
    match redirect redirect_url with
    | Redirected location => ret (HttpResponseRedirect location)
    | RedirectRaises msg => raise (RedirectException msg)
    end.

(** The two [except] clauses of [track_click]. *)
Definition track_click_except (e : exn) : HttpResponse :=
  match e with
  | AffiliateLink_DoesNotExist =>
      HttpResponseStatus "Invalid affiliate link." 404
  | e => HttpResponseStatus ("Error processing click: " ++ exn_str e) 500
  end.

(** [track_click(request, code)] *)
Definition track_click (redirect : string -> redirect_outcome) (now : Z)
    (fault : option string) (request : Request) (code : string) (s : Store)
  : HttpResponse * Store :=
  match track_click_try redirect now fault request code s with
  | (Ok response, s') => (response, s')
  | (Raise e, s') => (track_click_except e, s')
  end.

(** ** tracking/urls.py: [path('click/<uuid:code>/', track_click)] *)

Definition is_hex (c : ascii) : bool :=
  let n := nat_of_ascii c in
  ((48 <=? n)%nat && (n <=? 57)%nat) || ((97 <=? n)%nat && (n <=? 102)%nat).

(** Reads [n] characters of [[0-9a-f]] and returns the rest. *)
Fixpoint hex_run (n : nat) (s : string) : option string :=
  match n with
  | O => Some s
  | S n' =>
      match s with
      | String c s' => if is_hex c then hex_run n' s' else None
      | EmptyString => None
      end
  end.

Definition dash (s : string) : option string :=
  match s with
  | String c s' => if Ascii.eqb c "-"%char then Some s' else None
  | EmptyString => None
  end.

Definition and_then {A B} (o : option A) (f : A -> option B) : option B :=
  match o with Some a => f a | None => None end.

(** The [uuid] path converter:
    [[0-9a-f]{8}-[0-9a-f]{4}-[0-9a-f]{4}-[0-9a-f]{4}-[0-9a-f]{12}]. *)
Definition uuid_converter (s : string) : bool :=
  match
    and_then (and_then (and_then (and_then (and_then (and_then (and_then
      (and_then (hex_run 8 s) dash) (hex_run 4)) dash) (hex_run 4)) dash)
      (hex_run 4)) dash) (hex_run 12)
  with
  | Some EmptyString => true
  | _ => false
  end.

(** A GET on [click/<segment>/]: the resolver answers 404 itself when the
    segment is not a UUID, and calls the view otherwise. *)
Definition click_endpoint (redirect : string -> redirect_outcome) (now : Z)
    (fault : option string) (request : Request) (segment : string) (s : Store)
  : HttpResponse * Store :=
  if uuid_converter segment
  then track_click redirect now fault request segment s
  else (HttpResponseStatus "Not Found" 404, s).

(** ** Responses of the REST views *)

(** [raise permissions.PermissionDenied(...)]: the module
    [rest_framework.permissions] has no such name, so the statement raises
    [AttributeError] with this message; neither the view nor the framework
    handles it, and the request is answered 500. *)
Definition no_PermissionDenied : string :=
  "module 'rest_framework.permissions' has no attribute 'PermissionDenied'".

(** [Response(data, status=...)]: either a payload or an error message. *)
Inductive ApiResponse (A : Type) : Type :=
| ApiData (data : A) (status : nat)
| ApiError (error : string) (status : nat).
Arguments ApiData {A} data status.
Arguments ApiError {A} error status.

Definition api_status {A} (r : ApiResponse A) : nat :=
  match r with ApiData _ st => st | ApiError _ st => st end.

(** ** [request.data] *)

Definition dict : Type := list (string * jval).

(** [d.get(key)] *)
Fixpoint dict_get (d : dict) (key : string) : option jval :=
  match d with
  | [] => None
  | (k, v) :: d' => if String.eqb k key then Some v else dict_get d' key
  end.

(** [d.get(key, default)] *)
Definition dict_get_default (d : dict) (key : string) (default : jval) : jval :=
  match dict_get d key with Some v => v | None => default end.

(** [not v] for a value of the body ([None] when the key is missing). *)
Definition jval_not (v : option jval) : bool :=
  match v with
  | None => true
  | Some JNull => true
  | Some (JBool b) => negb b
  | Some (JNum q) => Qeq_bool q 0
  | Some (JStr s) => negb (Py.truthy s)
  end.

(** ** tracking/serializers.py: the fields a request can write *)

Definition ConversionSerializer_fields : list string :=
  [ "id"; "affiliate_link"; "affiliate_link_info"; "click"; "click_info";
    "order_id"; "amount"; "commission_amount"; "commission_rate";
    "currency"; "timestamp"; "verified"; "notes" ].

(** [Meta.read_only_fields], and the fields declared [read_only=True] or as
    [ReadOnlyField] in the class body. *)
Definition ConversionSerializer_read_only_fields : list string :=
  [ "id"; "timestamp"; "commission_amount" ].
Definition ConversionSerializer_declared_read_only : list string :=
  [ "affiliate_link_info"; "click_info"; "commission_rate" ].

Definition ConversionCreateSerializer_fields : list string :=
  [ "affiliate_link"; "click"; "order_id"; "amount"; "currency"; "notes" ].

Definition str_mem (x : string) (l : list string) : bool :=
  existsb (String.eqb x) l.

(** The keys of the body that reach [validated_data]: those of a declared,
    writable field. *)
Definition writable_data (fields read_only : list string) (data : dict) : dict :=
  filter (fun kv => str_mem (fst kv) fields && negb (str_mem (fst kv) read_only))
         data.

Definition ConversionSerializer_validated_keys (data : dict) : list string :=
  map fst (writable_data ConversionSerializer_fields
             (ConversionSerializer_read_only_fields
              ++ ConversionSerializer_declared_read_only)%list data).

Definition ConversionCreateSerializer_validated_keys (data : dict)
  : list string :=
  map fst (writable_data ConversionCreateSerializer_fields [] data).

(** ** tracking/views.py: recording a conversion *)

(** Modelled from the spec: [Conversion.objects.create] with the model's
    [save] (tracking/models.py is not among the sources). The spec's data
    model and conversion flow give: commission_amount is derived at creation
    as amount x link.product.commission_rate / 100 and stored; verified
    defaults to false; the timestamp is assigned by the server; the click
    reference is optional; the currency, when the caller gives none, is the
    model's default ([None] here). [fault] is the storage layer's answer to
    the insert, as for clicks. *)
Definition Conversion_objects_create (now : Z) (fault : option string)
    (link : AffiliateLink.t) (amount : Q) (order_id notes : jval)
  : M Conversion.t :=
  p <- link_product link ;;
  match fault with
  | Some msg => raise (DatabaseError msg)
  | None =>
      s <- get_store ;;
      let c := Conversion.mk (next_id (map Conversion.id (conversions s)))
                 (AffiliateLink.id link) None order_id amount
                 (amount * Product.commission_rate p / 100)
                 None now false notes in
      put_store (set_conversions (conversions s ++ [c])%list s) ;;;
      ret c
  end.

Section RecordConversion.

(** Python's [float] on a [str]: the number it denotes, or [None] where
    [float] raises [ValueError]. *)
Variable py_float : string -> option Q.

(** [float(v)] on a value of the body that is not falsy. *)
Definition jval_float (v : jval) : M Q :=
  match v with
  | JNull => raise (ValueError "float() argument must be a string or a number")
  | JBool b => ret (if b then 1 else 0)
  | JNum q => ret q
  | JStr s =>
      match py_float s with
      | Some q => ret q
      | None =>
          raise (ValueError ("could not convert string to float: "
                             ++ Py.repr s))
      end
  end.

(** The [try] block of [record_conversion]. *)
Definition record_conversion_try (now : Z) (fault : option string)
    (user : User.t) (data : dict) (code : string)
  : M (ApiResponse Conversion.t) :=
  link <- get_object_or_404 code ;;
  p <- link_product link ;;
  if User.neq user (Product.merchant p) && negb (User.is_superuser user)
  then ret (ApiError "Only the product merchant can record conversions" 403)
  else
    let amount := dict_get data "amount" in
    let order_id := dict_get_default data "order_id" (JStr "") in
    let notes := dict_get_default data "notes" (JStr "") in
    if jval_not amount
    then ret (ApiError "Valid amount is required" 400)
    else
      a <- jval_float (match amount with Some v => v | None => JNull end) ;;
      if Qle_bool a 0
      then ret (ApiError "Valid amount is required" 400)
      else
        conversion <- Conversion_objects_create now fault link a
                        order_id notes ;;
        ret (ApiData conversion 201).

(** [record_conversion(request, code)] with its two [except] clauses. *)
Definition record_conversion (now : Z) (fault : option string)
    (user : User.t) (data : dict) (code : string) (s : Store)
  : ApiResponse Conversion.t * Store :=
  match record_conversion_try now fault user data code s with
  | (Ok response, s') => (response, s')
  | (Raise AffiliateLink_DoesNotExist, s') =>
      (ApiError "Invalid affiliate link" 404, s')
  | (Raise e, s') =>
      (ApiError ("Error recording conversion: " ++ exn_str e) 500, s')
  end.

End RecordConversion.

(** ** products/views.py and products/serializers.py: editing a product *)

(** The body of a PATCH on a product: the fields of
    [ProductUpdateSerializer] that the store keeps, each optional. The texts
    are ones their fields accept (length, URL syntax) and the numbers have
    the digits their fields allow; the bounds on the numbers are checked
    below. *)
Record ProductUpdate : Type := mkProductUpdate {
  new_name : option string;
  new_price : option Q;
  new_commission_rate : option Q;
  new_external_url : option (option string);
  new_is_active : option bool
}.

(** [validate_commission_rate] and [validate_price]. *)
Definition validate_commission_rate (value : Q) : option string :=
  if Qlt_le_dec value 0 then
    Some "Commission rate must be between 0 and 100 percent."
  else if Qlt_le_dec 100 value then
    Some "Commission rate must be between 0 and 100 percent."
  else None.

Definition validate_price (value : Q) : option string :=
  if Qle_bool value 0 then Some "Price must be greater than 0." else None.

Definition or_else {A} (o : option A) (d : A) : A :=
  match o with Some a => a | None => d end.

(** The double nearest to 0.01, the limit of [MinValueValidator(0.01)] on the
    model's price: 5764607523034235 / 2^59, a little above 1/100. *)
Definition float_0_01 : Q := 5764607523034235 # 576460752303423488.

(** The validators the serializer fields inherit from the model fields:
    they run before the [validate_...] methods, and compare the decimal
    exactly with their limit, a float. *)
Definition price_field (value : Q) : option string :=
  if Qlt_le_dec value float_0_01
  then Some "Ensure this value is greater than or equal to 0.01."
  else None.

Definition commission_rate_field (value : Q) : option string :=
  if Qlt_le_dec value 0
  then Some "Ensure this value is greater than or equal to 0.0."
  else if Qlt_le_dec 100 value
  then Some "Ensure this value is less than or equal to 100.0."
  else None.

(** A field of the body: its validators, then its [validate_...] method. *)
Definition check_field (value : option Q) (field method : Q -> option string)
  : option string :=
  match value with
  | None => None
  | Some v =>
      match field v with
      | Some msg => Some msg
      | None => method v
      end
  end.

(** [get_object] over [ProductViewSet.get_queryset], for a detail request
    whose query string holds at most the parameter [all]: a merchant only
    reaches their own products, unless [all] is given and not empty. *)
Definition ProductViewSet_get_object (user : User.t) (all : option string)
    (pk : nat) (s : Store) : option Product.t :=
  find (fun p => Nat.eqb (Product.id p) pk)
       (if User.is_merchant user && negb (Py.truthy_opt all)
        then filter (fun p => Nat.eqb (Product.merchant p) (User.id user))
                    (products s)
        else products s).

Definition apply_update (u : ProductUpdate) (p : Product.t) : Product.t :=
  Product.mk (Product.id p)
    (or_else (new_name u) (Product.name p))
    (or_else (new_price u) (Product.price p))
    (Product.merchant p)
    (or_else (new_commission_rate u) (Product.commission_rate p))
    (or_else (new_external_url u) (Product.external_url p))
    (or_else (new_is_active u) (Product.is_active p)).

(** [ProductViewSet.partial_update]: the object is looked up, the serializer
    validates, [perform_update] tests the owner, where it breaks on
    [permissions.PermissionDenied] for anybody else, and saves. The answer
    to a rejected body carries the error of its first rejected field. *)
Definition ProductViewSet_update (user : User.t) (all : option string)
    (pk : nat) (u : ProductUpdate) (s : Store)
  : ApiResponse Product.t * Store :=
  match ProductViewSet_get_object user all pk s with
  | None => (ApiError "Not found." 404, s)
  | Some p =>
      match check_field (new_price u) price_field validate_price with
      | Some msg => (ApiError msg 400, s)
      | None =>
          match check_field (new_commission_rate u) commission_rate_field
                  validate_commission_rate with
          | Some msg => (ApiError msg 400, s)
          | None =>
              if User.neq user (Product.merchant p)
                 && negb (User.is_superuser user)
              then (ApiError no_PermissionDenied 500, s)
              else
                let p' := apply_update u p in
                (ApiData p' 200,
                 set_products
                   (map (fun x => if Nat.eqb (Product.id x) pk then p' else x)
                        (products s)) s)
          end
      end
  end.

(** ** tracking/serializers.py and tracking/views.py: managing links *)

(** The error of a related field whose primary key matches no row. *)
Definition invalid_pk (pk : nat) : string :=
  "Invalid pk " ++ Py.dquote ++ Py.str_of_nat pk ++ Py.dquote
  ++ " - object does not exist.".

(** The body of a POST on the links collection
    ([AffiliateLinkCreateSerializer.Meta.fields]). *)
Record LinkCreate : Type := mkLinkCreate {
  lc_product : nat;
  lc_custom_slug : option string;
  lc_landing_url : option string;
  lc_expires_at : option Z
}.

(** The body of a PATCH on a link: the writable fields of
    [AffiliateLinkSerializer], each optional. *)
Record LinkUpdate : Type := mkLinkUpdate {
  lu_affiliate : option nat;
  lu_product : option nat;
  lu_custom_slug : option (option string);
  lu_landing_url : option (option string);
  lu_is_active : option bool;
  lu_expires_at : option (option Z)
}.

Definition same_pair (affiliate product : nat) (l : AffiliateLink.t) : bool :=
  Nat.eqb (AffiliateLink.affiliate l) affiliate
  && Nat.eqb (AffiliateLink.product l) product.

(** Modelled from the spec: the uniqueness constraints of the storage layer
    on links (tracking/models.py is not among the sources): the code is
    globally unique, and there is at most one link per (affiliate, product)
    pair. A write of row [l] violates them when another row has its code or
    its pair. *)
Definition violates_unique (l : AffiliateLink.t) (ls : list AffiliateLink.t)
  : bool :=
  existsb (fun x => negb (Nat.eqb (AffiliateLink.id x) (AffiliateLink.id l))
                    && (String.eqb (AffiliateLink.code x) (AffiliateLink.code l)
                        || same_pair (AffiliateLink.affiliate l)
                             (AffiliateLink.product l) x)) ls.

(** Modelled from the spec: [AffiliateLink.objects.create] (tracking/models.py
    is not among the sources). The code is generated on the server
    ([fresh_code] is the generator's draw) and the link is stored active. *)
Definition AffiliateLink_objects_create (fresh_code : string)
    (affiliate : nat) (rq : LinkCreate) : M AffiliateLink.t :=
  s <- get_store ;;
  let l := AffiliateLink.mk (next_id (map AffiliateLink.id (links s)))
             fresh_code affiliate (lc_product rq) (lc_custom_slug rq)
             (lc_landing_url rq) true (lc_expires_at rq) in
  if violates_unique l (links s)
  then raise (IntegrityError "UNIQUE constraint failed")
  else put_store (set_links (links s ++ [l])%list s) ;;; ret l.

(** [AffiliateLinkCreateSerializer.validate]: the duplicate check
    [AffiliateLink.objects.filter(affiliate=..., product=...).exists()]. *)
Definition AffiliateLinkCreateSerializer_validate (affiliate product : nat)
    (s : Store) : option string :=
  if existsb (same_pair affiliate product) (links s)
  then Some "You already have an affiliate link for this product."
  else None.

(** [AffiliateLinkViewSet.create]: the serializer validates the product
    field (primary key, then [validate_product]), then the whole body
    ([validate]); [perform_create] checks the role and saves. *)
Definition AffiliateLinkViewSet_create (fresh_code : string) (user : User.t)
    (rq : LinkCreate) (s : Store) : ApiResponse AffiliateLink.t * Store :=
  match find (fun p => Nat.eqb (Product.id p) (lc_product rq)) (products s) with
  | None => (ApiError (invalid_pk (lc_product rq)) 400, s)
  | Some p =>
      if negb (Product.is_active p)
      then (ApiError "Cannot create links for inactive products." 400, s)
      else
        match AffiliateLinkCreateSerializer_validate (User.id user)
                (lc_product rq) s with
        | Some msg => (ApiError msg 400, s)
        | None =>
            if negb (User.is_affiliate user)
            then (ApiError no_PermissionDenied 500, s)
            else
              match AffiliateLink_objects_create fresh_code (User.id user)
                      rq s with
              | (Ok l, s') => (ApiData l 201, s')
              | (Raise e, s') => (ApiError (exn_str e) 500, s')
              end
        end
  end.

(** [get_object] over [AffiliateLinkViewSet.get_queryset]: an affiliate only
    reaches their own links. *)
Definition AffiliateLinkViewSet_get_object (user : User.t) (pk : nat)
    (s : Store) : option AffiliateLink.t :=
  find (fun l => Nat.eqb (AffiliateLink.id l) pk)
       (if User.is_affiliate user
        then filter (fun l => Nat.eqb (AffiliateLink.affiliate l) (User.id user))
                    (links s)
        else links s).

Definition apply_link_update (u : LinkUpdate) (l : AffiliateLink.t)
  : AffiliateLink.t :=
  AffiliateLink.mk (AffiliateLink.id l) (AffiliateLink.code l)
    (or_else (lu_affiliate u) (AffiliateLink.affiliate l))
    (or_else (lu_product u) (AffiliateLink.product l))
    (or_else (lu_custom_slug u) (AffiliateLink.custom_slug l))
    (or_else (lu_landing_url u) (AffiliateLink.landing_url l))
    (or_else (lu_is_active u) (AffiliateLink.is_active l))
    (or_else (lu_expires_at u) (AffiliateLink.expires_at l)).

Definition replace_link (l' : AffiliateLink.t) (ls : list AffiliateLink.t)
  : list AffiliateLink.t :=
  map (fun x => if Nat.eqb (AffiliateLink.id x) (AffiliateLink.id l')
                then l' else x) ls.

(** The relational field [product] of [AffiliateLinkSerializer]: a primary
    key that is given must be that of a stored product. *)
Definition product_field (pk : option nat) (s : Store) : option string :=
  match pk with
  | None => None
  | Some k =>
      if existsb (fun p => Nat.eqb (Product.id p) k) (products s)
      then None
      else Some (invalid_pk k)
  end.

(** [AffiliateLinkViewSet.partial_update]: [get_object], the validation of
    the body (400), then [perform_update], whose [raise] is an
    [AttributeError] (500); the save goes through the storage constraints.
    The users are not part of the store: the affiliate key of a body is
    taken to be that of a user. *)
Definition AffiliateLinkViewSet_update (user : User.t) (pk : nat)
    (u : LinkUpdate) (s : Store) : ApiResponse AffiliateLink.t * Store :=
  match AffiliateLinkViewSet_get_object user pk s with
  | None => (ApiError "Not found." 404, s)
  | Some l =>
      match product_field (lu_product u) s with
      | Some msg => (ApiError msg 400, s)
      | None =>
          if negb (Nat.eqb (AffiliateLink.affiliate l) (User.id user))
             && negb (User.is_superuser user)
          then (ApiError no_PermissionDenied 500, s)
          else
            let l' := apply_link_update u l in
            if violates_unique l' (links s)
            then (ApiError "UNIQUE constraint failed" 500, s)
            else (ApiData l' 200, set_links (replace_link l' (links s)) s)
      end
  end.

(** [AffiliateLinkViewSet.destroy] with [perform_destroy].
    Modelled from the spec: deleting a link cascades to its clicks and
    conversions (the foreign keys are declared in tracking/models.py, which
    is not among the sources). *)
Definition AffiliateLinkViewSet_destroy (user : User.t) (pk : nat) (s : Store)
  : ApiResponse unit * Store :=
  match AffiliateLinkViewSet_get_object user pk s with
  | None => (ApiError "Not found." 404, s)
  | Some l =>
      if negb (Nat.eqb (AffiliateLink.affiliate l) (User.id user))
         && negb (User.is_superuser user)
      then (ApiError no_PermissionDenied 500, s)
      else
        (ApiData tt 204,
         mkStore (products s)
           (filter (fun x => negb (Nat.eqb (AffiliateLink.id x) pk)) (links s))
           (filter (fun c => negb (Nat.eqb (Click.affiliate_link c) pk))
                   (clicks s))
           (filter (fun c => negb (Nat.eqb (Conversion.affiliate_link c) pk))
                   (conversions s)))
  end.

(** tracking/admin.py: [activate_links] and [deactivate_links] are
    [queryset.update(is_active=...)] on the selected rows. *)
Definition admin_set_active (selected : list nat) (active : bool) (s : Store)
  : Store :=
  set_links
    (map (fun l =>
            if existsb (Nat.eqb (AffiliateLink.id l)) selected
            then AffiliateLink.mk (AffiliateLink.id l) (AffiliateLink.code l)
                   (AffiliateLink.affiliate l) (AffiliateLink.product l)
                   (AffiliateLink.custom_slug l) (AffiliateLink.landing_url l)
                   active (AffiliateLink.expires_at l)
            else l) (links s)) s.

(** ** The requests the store goes through *)

Inductive Event : Type :=
| EvClick (redirect : string -> redirect_outcome) (now : Z)
    (fault : option string) (request : Request) (segment : string)
| EvConversion (now : Z) (fault : option string) (user : User.t)
    (data : dict) (code : string)
| EvProductUpdate (user : User.t) (all : option string) (pk : nat)
    (u : ProductUpdate)
| EvLinkCreate (fresh_code : string) (user : User.t) (rq : LinkCreate)
| EvLinkUpdate (user : User.t) (pk : nat) (u : LinkUpdate)
| EvLinkDestroy (user : User.t) (pk : nat)
| EvAdminSetActive (selected : list nat) (active : bool).

Definition handle (py_float : string -> option Q) (e : Event) (s : Store)
  : Store :=
  match e with
  | EvClick redirect now fault request segment =>
      snd (click_endpoint redirect now fault request segment s)
  | EvConversion now fault user data code =>
      snd (record_conversion py_float now fault user data code s)
  | EvProductUpdate user all pk u =>
      snd (ProductViewSet_update user all pk u s)
  | EvLinkCreate fresh_code user rq =>
      snd (AffiliateLinkViewSet_create fresh_code user rq s)
  | EvLinkUpdate user pk u => snd (AffiliateLinkViewSet_update user pk u s)
  | EvLinkDestroy user pk => snd (AffiliateLinkViewSet_destroy user pk s)
  | EvAdminSetActive selected active => admin_set_active selected active s
  end.

Definition run (py_float : string -> option Q) (es : list Event) (s : Store)
  : Store :=
  fold_left (fun st e => handle py_float e st) es s.

Definition deletes_history (e : Event) : bool :=
  match e with EvLinkDestroy _ _ => true | _ => false end.

Definition empty_store : Store := mkStore [] [] [] [].

(** ** tracking/views.py: listing conversions *)

(** The query parameters of the conversions list, already parsed: the link
    id as a number, the dates as timestamps; [verified] is kept as the text
    the view lower-cases. A missing or empty parameter is [None]. *)
Record ConversionQuery : Type := mkConversionQuery {
  q_affiliate_link : option nat;
  q_verified : option string;
  q_start_date : option Z;
  q_end_date : option Z
}.

Definition no_query : ConversionQuery := mkConversionQuery None None None None.

(** The join [affiliate_link__affiliate = user]. *)
Definition conversion_of_affiliate (s : Store) (uid : nat) (c : Conversion.t)
  : bool :=
  match find (fun l => Nat.eqb (AffiliateLink.id l) (Conversion.affiliate_link c))
             (links s) with
  | Some l => Nat.eqb (AffiliateLink.affiliate l) uid
  | None => false
  end.

(** The join [affiliate_link__product__merchant = user]. *)
Definition conversion_of_merchant (s : Store) (uid : nat) (c : Conversion.t)
  : bool :=
  match find (fun l => Nat.eqb (AffiliateLink.id l) (Conversion.affiliate_link c))
             (links s) with
  | Some l =>
      match find (fun p => Nat.eqb (Product.id p) (AffiliateLink.product l))
                 (products s) with
      | Some p => Nat.eqb (Product.merchant p) uid
      | None => false
      end
  | None => false
  end.

(** [order_by('-timestamp')]: a stable insertion sort, latest first. *)
Fixpoint insert_desc (c : Conversion.t) (l : list Conversion.t)
  : list Conversion.t :=
  match l with
  | [] => [c]
  | x :: l' =>
      if (Conversion.timestamp x <? Conversion.timestamp c)%Z
      then c :: x :: l'
      else x :: insert_desc c l'
  end.

Fixpoint order_by_timestamp_desc (l : list Conversion.t) : list Conversion.t :=
  match l with
  | [] => []
  | c :: l' => insert_desc c (order_by_timestamp_desc l')
  end.

(** The filters of [get_queryset] that come from the query parameters. *)
Definition apply_query (q : ConversionQuery) (qs : list Conversion.t)
  : list Conversion.t :=
  let qs :=
    match q_affiliate_link q with
    | Some pk => filter (fun c => Nat.eqb (Conversion.affiliate_link c) pk) qs
    | None => qs
    end in
  let qs :=
    match q_verified q with
    | Some v =>
        filter (fun c => Bool.eqb (Conversion.verified c)
                           (String.eqb (Py.lower v) "true")) qs
    | None => qs
    end in
  let qs :=
    match q_start_date q with
    | Some d => filter (fun c => (d <=? Conversion.timestamp c)%Z) qs
    | None => qs
    end in
  match q_end_date q with
  | Some d => filter (fun c => (Conversion.timestamp c <=? d)%Z) qs
  | None => qs
  end.

(** [ConversionViewSet.get_queryset] *)
Definition ConversionViewSet_get_queryset (user : User.t)
    (q : ConversionQuery) (s : Store) : list Conversion.t :=
  let queryset := conversions s in
  let queryset :=
    if User.is_affiliate user
    then filter (conversion_of_affiliate s (User.id user)) queryset
    else if User.is_merchant user
    then filter (conversion_of_merchant s (User.id user)) queryset
    else queryset in
  order_by_timestamp_desc (apply_query q queryset).

(** ** products/models.py: the counters of a product *)

(** [product.affiliate_links.all()], [link.clicks.all()] and
    [link.conversions.all()]. *)
Definition affiliate_links_of (s : Store) (p : Product.t)
  : list AffiliateLink.t :=
  filter (fun l => Nat.eqb (AffiliateLink.product l) (Product.id p)) (links s).

Definition clicks_of (s : Store) (l : AffiliateLink.t) : list Click.t :=
  filter (fun c => Nat.eqb (Click.affiliate_link c) (AffiliateLink.id l))
         (clicks s).

Definition conversions_of (s : Store) (l : AffiliateLink.t)
  : list Conversion.t :=
  filter (fun c => Nat.eqb (Conversion.affiliate_link c) (AffiliateLink.id l))
         (conversions s).

(** products/models.py: the three counters of a product. *)
Definition get_affiliate_links_count (s : Store) (p : Product.t) : nat :=
  List.length (affiliate_links_of s p).

Definition get_total_clicks (s : Store) (p : Product.t) : nat :=
  list_sum (map (fun l => List.length (clicks_of s l)) (affiliate_links_of s p)).

Definition get_total_conversions (s : Store) (p : Product.t) : nat :=
  list_sum (map (fun l => List.length (conversions_of s l))
                (affiliate_links_of s p)).

(** ** products/views.py: overall statistics *)

Record Stats : Type := mkStats {
  total_products : nat;
  active_products : nat;
  average_price : Q;
  average_commission_rate : Q
}.

(** [queryset.aggregate(Sum(field))[...] or 0]: the sum, and 0 for an empty
    query set (where the aggregate is [None]). *)
Definition Sum_or_0 (field : Product.t -> Q) (queryset : list Product.t) : Q :=
  fold_right (fun p acc => field p + acc) 0 queryset.

(** The statistics computed on a cache miss. *)
Definition compute_stats (user : User.t) (s : Store) : Stats :=
  let queryset :=
    if User.is_merchant user
    then filter (fun p => Nat.eqb (Product.merchant p) (User.id user))
                (products s)
    else filter Product.is_active (products s) in
  let total := List.length queryset in
  let avg_commission := Sum_or_0 Product.commission_rate queryset in
  mkStats total
    (List.length (filter Product.is_active queryset))
    (Sum_or_0 Product.price queryset)
    (if (0 <? total)%nat
     then avg_commission / inject_Z (Z.of_nat total)
     else avg_commission).

(** The cache entries [product_stats_<user id>] of Django's local-memory
    cache, each with the time, in seconds, at which it expires. *)
Definition StatsCache : Type := list (nat * (Z * Stats)).

(** [cache.get(cache_key)] at the time [now]: the value of the key, and
    [None] when there is no entry or when it has expired
    ([exp <= time.time()]). *)
Definition cache_get (cache : StatsCache) (now : Z) (uid : nat)
    : option Stats :=
  match find (fun kv => Nat.eqb (fst kv) uid) cache with
  | Some (_, (exp, stats)) => if (exp <=? now)%Z then None else Some stats
  | None => None
  end.

(** [cache.set(cache_key, value, timeout)] at the time [now]: the entry of
    the key is replaced, and expires [timeout] seconds later. *)
Definition cache_set (cache : StatsCache) (now : Z) (uid : nat)
    (value : Stats) (timeout : Z) : StatsCache :=
  (uid, ((now + timeout)%Z, value))
    :: filter (fun kv => negb (Nat.eqb (fst kv) uid)) cache.

(** [ProductViewSet.stats]: the cached statistics when there are some, the
    computed ones, then cached for 30 minutes, otherwise. *)
Definition ProductViewSet_stats (cache : StatsCache) (now : Z)
    (user : User.t) (s : Store) : Stats * StatsCache :=
  match cache_get cache now (User.id user) with
  | Some cached_stats => (cached_stats, cache)
  | None =>
      let stats := compute_stats user s in
      (stats, cache_set cache now (User.id user) stats 1800)
  end.

(** ** Sample data *)

Module Sample.

Definition merchant : User.t := User.mk 1 "acme" "merchant" false.
Definition affiliate : User.t := User.mk 2 "alice" "affiliate" false.
Definition staff : User.t := User.mk 3 "root" "" true.

Definition widget : Product.t :=
  Product.mk 7 "Widget" 50 1 10 (Some "https://shop.example/widget") true.

Definition code : string := "123e4567-e89b-42d3-a456-426614174000".
Definition unknown_code : string := "00000000-0000-4000-8000-000000000000".

Definition link : AffiliateLink.t :=
  AffiliateLink.mk 1 code 2 7 None None true None.

Definition inactive_link : AffiliateLink.t :=
  AffiliateLink.mk 1 code 2 7 None None false None.

Definition expired_link : AffiliateLink.t :=
  AffiliateLink.mk 1 code 2 7 None None true (Some 100%Z).

Definition store : Store := mkStore [widget] [link] [] [].

(** The same catalog with a product that has no external URL, and with one
    whose external URL has the scheme ftps, which a URL field accepts. *)
Definition plain_widget : Product.t :=
  Product.mk 7 "Widget" 50 1 10 None true.
Definition ftps_widget : Product.t :=
  Product.mk 7 "Widget" 50 1 10 (Some "ftps://files.example/widget") true.
Definition store_plain : Store := mkStore [plain_widget] [link] [] [].
Definition store_ftps : Store := mkStore [ftps_widget] [link] [] [].
Definition store_inactive : Store := mkStore [widget] [inactive_link] [] [].
Definition store_expired : Store := mkStore [widget] [expired_link] [] [].

Definition conversion : Conversion.t :=
  Conversion.mk 1 1 None (JStr "A-1001") 50 5 None 10%Z false (JStr "").

Definition store_converted : Store :=
  mkStore [widget] [link] [] [conversion].

Definition request : Request :=
  mkRequest None (Some "203.0.113.9")
    (Some "Mozilla/5.0 (iPhone; CPU iPhone OS 17_0 like Mac OS X)") None.

(** Django's [redirect] on the targets of the samples: an http, https or
    ftp URL and an absolute path are no URL names and are redirected to as
    they are; any other text is refused. *)
Definition redirect (to : string) : redirect_outcome :=
  if prefix "https://" to || prefix "http://" to || prefix "ftp://" to
     || prefix "/" to
  then Redirected to
  else RedirectRaises ("Unsafe redirect to URL: " ++ to).

(** The samples send the amount as a number, so the reader of amounts
    sent as text is never consulted; this one rejects every text. *)
Definition py_float (s : string) : option Q := None.

End Sample.

(** ** The invariant of the link registry *)

Definition link_pair (l : AffiliateLink.t) : nat * nat :=
  (AffiliateLink.affiliate l, AffiliateLink.product l).

(** Primary keys are unique, and so are (affiliate, product) pairs. *)
Definition links_ok (s : Store) : Prop :=
  NoDup (map AffiliateLink.id (links s)) /\ NoDup (map link_pair (links s)).

(** The links, active or not, of one (affiliate, product) pair. *)
Definition links_of_pair (affiliate product : nat) (s : Store)
  : list AffiliateLink.t :=
  filter (same_pair affiliate product) (links s).

(** ** The explicit mean the spec asks for *)

Definition Qsum (l : list Q) : Q := fold_left Qplus l 0.

Definition mean (l : list Q) : Q :=
  Qsum l / inject_Z (Z.of_nat (List.length l)).

(** The products the statistics of a user range over. *)
Definition stats_queryset (user : User.t) (s : Store) : list Product.t :=
  if User.is_merchant user
  then filter (fun p => Nat.eqb (Product.merchant p) (User.id user))
              (products s)
  else filter Product.is_active (products s).

(** ** Frames

    A computation keeps a relation [R] on stores when the store it leaves is
    always [R]-related to the one it started from. *)
Definition keeps (R : Store -> Store -> Prop) {A} (m : M A) : Prop :=
  forall s, R s (snd (m s)).

(** The store relations the requests are checked against: everything but
    the clicks is unchanged; everything but the conversions is unchanged and
    conversions are only appended. *)
Definition same_but_clicks (s s' : Store) : Prop :=
  products s' = products s /\ links s' = links s
  /\ conversions s' = conversions s.

Definition conversions_appended (s s' : Store) : Prop :=
  products s' = products s /\ links s' = links s
  /\ exists extra, conversions s' = (conversions s ++ extra)%list.

(** ** tracking/views.py: listing clicks *)

(** The query parameters of the clicks list, already parsed. *)
Record ClickQuery : Type := mkClickQuery {
  cq_affiliate_link : option nat;
  cq_start_date : option Z;
  cq_end_date : option Z
}.

Definition no_click_query : ClickQuery := mkClickQuery None None None.

(** The join [affiliate_link__affiliate = user] on clicks. *)
Definition click_of_affiliate (s : Store) (uid : nat) (c : Click.t) : bool :=
  match find (fun l => Nat.eqb (AffiliateLink.id l) (Click.affiliate_link c))
             (links s) with
  | Some l => Nat.eqb (AffiliateLink.affiliate l) uid
  | None => false
  end.

(** [order_by] with a descending key: [before c x] says that [c] sorts
    strictly before [x]. *)
Fixpoint insert_before {A} (before : A -> A -> bool) (c : A) (l : list A)
  : list A :=
  match l with
  | [] => [c]
  | x :: l' =>
      if before c x then c :: x :: l' else x :: insert_before before c l'
  end.

Fixpoint order_by {A} (before : A -> A -> bool) (l : list A) : list A :=
  match l with
  | [] => []
  | c :: l' => insert_before before c (order_by before l')
  end.

Definition click_before (c x : Click.t) : bool :=
  (Click.timestamp x <? Click.timestamp c)%Z.

(** [ClickViewSet.get_queryset] *)
Definition ClickViewSet_get_queryset (user : User.t) (q : ClickQuery)
    (s : Store) : list Click.t :=
  let queryset := clicks s in
  let queryset :=
    if User.is_affiliate user
    then filter (click_of_affiliate s (User.id user)) queryset
    else queryset in
  let queryset :=
    match cq_affiliate_link q with
    | Some pk => filter (fun c => Nat.eqb (Click.affiliate_link c) pk) queryset
    | None => queryset
    end in
  let queryset :=
    match cq_start_date q with
    | Some d => filter (fun c => (d <=? Click.timestamp c)%Z) queryset
    | None => queryset
    end in
  let queryset :=
    match cq_end_date q with
    | Some d => filter (fun c => (Click.timestamp c <=? d)%Z) queryset
    | None => queryset
    end in
  order_by click_before queryset.

(** ** tracking/serializers.py and tracking/views.py: the checks of
    [ConversionViewSet.create] *)

(** The body of a POST on the conversions collection
    ([ConversionCreateSerializer.Meta.fields]). *)
Record ConversionCreate : Type := mkConversionCreate {
  cc_affiliate_link : nat;
  cc_click : option nat;
  cc_order_id : string;
  cc_amount : Q;
  cc_currency : option string;
  cc_notes : string
}.

(** [validate_amount] *)
Definition validate_amount (value : Q) : option string :=
  if Qle_bool value 0
  then Some "Conversion amount must be greater than 0."
  else None.

(** [validate_affiliate_link] *)
Definition validate_affiliate_link (value : AffiliateLink.t) : option string :=
  if negb (AffiliateLink.is_active value)
  then Some "Cannot create conversions for inactive affiliate links."
  else None.

(** The relational field [affiliate_link]: the primary key must be that
    of a stored link, which [validate_affiliate_link] then checks. *)
Definition affiliate_link_field (pk : nat) (s : Store)
    : AffiliateLink.t + string :=
  match find (fun l => Nat.eqb (AffiliateLink.id l) pk) (links s) with
  | None => inr (invalid_pk pk)
  | Some link =>
      match validate_affiliate_link link with
      | Some msg => inr msg
      | None => inl link
      end
  end.

(** The optional relational field [click]: a primary key that is given
    must be that of a stored click. *)
Definition click_field (pk : option nat) (s : Store) : option string :=
  match pk with
  | None => None
  | Some k =>
      if existsb (fun c => Nat.eqb (Click.id c) k) (clicks s)
      then None
      else Some (invalid_pk k)
  end.

(** The errors of [ConversionCreateSerializer], one per rejected field, in
    the order of [Meta.fields]. The body is typed: its amount is a decimal
    and its texts are within the lengths of the columns, so that the
    relational fields and the two [validate_<field>] methods are the checks
    that remain. *)
Definition ConversionCreateSerializer_errors (rq : ConversionCreate)
    (s : Store) : list (string * string) :=
  (match affiliate_link_field (cc_affiliate_link rq) s with
   | inr msg => [("affiliate_link", msg)]
   | inl _ => []
   end
   ++ match click_field (cc_click rq) s with
      | Some msg => [("click", msg)]
      | None => []
      end
   ++ match validate_amount (cc_amount rq) with
      | Some msg => [("amount", msg)]
      | None => []
      end)%list.

(** What stops a creation: the errors of the fields (400), or an exception
    nothing catches (500). *)
Inductive CreateRefusal : Type :=
| Refused400 (errors : list (string * string))
| Raised500 (msg : string).

(** What stops [ConversionViewSet.create] before [serializer.save()]: the
    fields the serializer rejects (400), then the test of [perform_create],
    whose [raise permissions.PermissionDenied(...)] is an [AttributeError],
    the module having no such name (500); [None] when the request goes on to
    the save. The foreign key [affiliate_link.product] is followed only for
    a merchant. *)
Definition ConversionViewSet_create_refusal (user : User.t)
    (rq : ConversionCreate) (s : Store) : option CreateRefusal :=
  match ConversionCreateSerializer_errors rq s,
        affiliate_link_field (cc_affiliate_link rq) s with
  | [], inl link =>
      if User.is_merchant user
      then
        match find (fun p => Nat.eqb (Product.id p)
                               (AffiliateLink.product link))
                   (products s) with
        | Some p =>
            if User.neq user (Product.merchant p)
            then Some (Raised500 no_PermissionDenied)
            else None
        | None => Some (Raised500 "Product matching query does not exist.")
        end
      else None
  | errors, _ => Some (Refused400 errors)
  end.

(** ** users/serializers.py: the role of a new account *)

Definition ROLE_CHOICES : list (string * string) :=
  [ ("affiliate", "Affiliate"); ("merchant", "Merchant") ].

(** [UserCreateSerializer.validate_role]: the value, or the error. *)
Definition validate_role (value : string) : string + string :=
  let valid_roles := map fst ROLE_CHOICES in
  if negb (str_mem value valid_roles)
  then inr ("Role must be one of: " ++ String.concat ", " valid_roles)
  else inl value.

(** The field [role] of [UserCreateSerializer]: the model column has
    choices and neither a default nor [blank], so that the serializer
    builds a required choice field, which runs before [validate_role].
    [None] is a body without the key. *)
Definition role_field (data : option string) : string + string :=
  match data with
  | None => inr "This field is required."
  | Some value =>
      if str_mem value (map fst ROLE_CHOICES)
      then inl value
      else inr (Py.dquote ++ value ++ Py.dquote ++ " is not a valid choice.")
  end.

(** What registration makes of the role of a body: the field, then the
    method. *)
Definition UserCreateSerializer_role (data : option string)
    : string + string :=
  match role_field data with
  | inl value => validate_role value
  | inr msg => inr msg
  end.

(** ** products/views.py: the product lists *)

Definition rate_before (c x : Product.t) : bool :=
  if Qlt_le_dec (Product.commission_rate x) (Product.commission_rate c)
  then true else false.

(** [ProductViewSet.high_commission]; [min_rate] is the query parameter,
    already parsed, and 15.0 when it is missing. *)
Definition ProductViewSet_high_commission (min_rate : option Q) (s : Store)
  : list Product.t :=
  let min_rate := or_else min_rate 15 in
  order_by rate_before
    (filter (fun p => Product.is_active p
                      && Qle_bool min_rate (Product.commission_rate p))
            (products s)).

(** The annotation [links_count = Count('affiliate_links')]. *)
Definition links_count (s : Store) (p : Product.t) : nat :=
  List.length (affiliate_links_of s p).

Definition popular_before (s : Store) (c x : Product.t) : bool :=
  (links_count s x <? links_count s c)%nat.

(** [ProductViewSet.popular]: the cached list when there is one
    ([popular_products]), the ten active products with the most links
    otherwise, which are then cached. *)
Definition ProductViewSet_popular (cache : option (list Product.t))
    (s : Store) : list Product.t * option (list Product.t) :=
  match cache with
  | Some cached_products => (cached_products, cache)
  | None =>
      let products :=
        firstn 10 (order_by (popular_before s)
                            (filter Product.is_active (products s))) in
      (products, Some products)
  end.

(** ** The constraints of the catalog *)

(** The bounds the product serializers enforce: a positive price and a
    commission rate between 0 and 100. *)
Definition product_valid (p : Product.t) : Prop :=
  0 < Product.price p
  /\ 0 <= Product.commission_rate p /\ Product.commission_rate p <= 100.

Definition products_valid (s : Store) : Prop :=
  Forall product_valid (products s).

(** Conversions and clicks that belong to a product, through their link. *)
Definition targets_product (s : Store) (p : Product.t) (link_id : nat) : bool :=
  existsb (fun l => Nat.eqb link_id (AffiliateLink.id l))
          (affiliate_links_of s p).

(** ** The cases of the click view *)

(** The click a request writes when the insert goes through. *)
Definition click_of_request (now : Z) (request : Request)
    (l : AffiliateLink.t) (s : Store) : Click.t :=
  Click.mk (next_id (map Click.id (clicks s))) (AffiliateLink.id l)
    (get_client_ip request)
    (or_else (HTTP_USER_AGENT request) "")
    (or_else (HTTP_REFERER request) "")
    (detect_device_type (Some (or_else (HTTP_USER_AGENT request) "")))
    now.

(** The outcomes of [track_click], by the path taken through the view. *)
Inductive track_click_case (redirect : string -> redirect_outcome) (now : Z)
    (fault : option string) (request : Request) (code : string) (s : Store)
  : HttpResponse * Store -> Prop :=
| case_unresolved body :
    (forall l, filter (fun x => String.eqb (AffiliateLink.code x) code
                                && AffiliateLink.is_active x) (links s)
               <> [l]) ->
    track_click_case redirect now fault request code s
      (HttpResponseStatus body 500, s)
| case_expired l :
    filter (fun x => String.eqb (AffiliateLink.code x) code
                     && AffiliateLink.is_active x) (links s) = [l] ->
    has_expired now l = true ->
    track_click_case redirect now fault request code s
      (HttpResponseStatus "This affiliate link has expired." 410, s)
| case_fault l msg :
    filter (fun x => String.eqb (AffiliateLink.code x) code
                     && AffiliateLink.is_active x) (links s) = [l] ->
    has_expired now l = false ->
    fault = Some msg ->
    track_click_case redirect now fault request code s
      (HttpResponseStatus ("Error processing click: " ++ msg) 500, s)
| case_redirect l url :
    filter (fun x => String.eqb (AffiliateLink.code x) code
                     && AffiliateLink.is_active x) (links s) = [l] ->
    has_expired now l = false ->
    fault = None ->
    track_click_case redirect now fault request code s
      (HttpResponseRedirect url,
       set_clicks (clicks s ++ [click_of_request now request l s])%list s)
| case_raises_after_click l msg :
    filter (fun x => String.eqb (AffiliateLink.code x) code
                     && AffiliateLink.is_active x) (links s) = [l] ->
    has_expired now l = false ->
    fault = None ->
    track_click_case redirect now fault request code s
      (HttpResponseStatus ("Error processing click: " ++ msg) 500,
       set_clicks (clicks s ++ [click_of_request now request l s])%list s).

(** The order of the conversions list: latest first. *)
Definition latest_first (a b : Conversion.t) : Prop :=
  (Conversion.timestamp b <= Conversion.timestamp a)%Z.

(** Primary keys and codes of the links are unique. *)
Definition codes_ok (s : Store) : Prop :=
  NoDup (map AffiliateLink.id (links s))
  /\ NoDup (map AffiliateLink.code (links s)).

(** The orders of the two product lists. *)
Definition rate_desc (a b : Product.t) : Prop :=
  Product.commission_rate b <= Product.commission_rate a.

Definition links_desc (s : Store) (a b : Product.t) : Prop :=
  (links_count s b <= links_count s a)%nat.

(** tracking/admin.py: [verify_conversions] and [unverify_conversions] are
    [queryset.update(verified=...)] on the selected rows. *)
Definition admin_set_verified (selected : list nat) (verified : bool)
    (s : Store) : Store :=
  set_conversions
    (map (fun c =>
            if existsb (Nat.eqb (Conversion.id c)) selected
            then Conversion.mk (Conversion.id c) (Conversion.affiliate_link c)
                   (Conversion.click c) (Conversion.order_id c)
                   (Conversion.amount c) (Conversion.commission_amount c)
                   (Conversion.currency c) (Conversion.timestamp c)
                   verified (Conversion.notes c)
            else c) (conversions s)) s.

(** * Properties *)

(** ** Lemmas on the built-ins *)

Section PyFacts.

Import Py.

Lemma prefix_app (p s : string) :
  prefix p s = true <-> exists b, s = p ++ b.
Proof.
  revert s; induction p as [|c p IH]; intros s; simpl.
  - split; [intros _; now exists s | intros _; now destruct s].
  - destruct s as [|d s]; simpl.
    + split; [discriminate | intros [b Hb]; discriminate].
    + destruct (Ascii.ascii_dec c d) as [->|Hcd].
      * rewrite IH. split; intros [b Hb]; exists b; congruence.
      * split; [discriminate | intros [b Hb]; congruence].
Qed.

Lemma str_in_Contains (p s : string) :
  str_in p s = true <-> Contains p s.
Proof.
  unfold Contains. induction s as [|c s IH]; cbn [str_in].
  - rewrite orb_false_r, prefix_app. split.
    + intros [b Hb]. now exists EmptyString, b.
    + intros [a [b Hab]]. destruct a; simpl in Hab.
      * now exists b.
      * discriminate.
  - rewrite orb_true_iff, IH, prefix_app. split.
    + intros [[b Hb] | [a [b Hab]]].
      * now exists EmptyString, b.
      * exists (String c a), b. simpl. now rewrite Hab.
    + intros [a [b Hab]]. destruct a as [|d a]; simpl in Hab.
      * left. now exists b.
      * right. exists a, b. congruence.
Qed.

Lemma str_in_not_Contains (p s : string) :
  str_in p s = false <-> ~ Contains p s.
Proof.
  rewrite <- str_in_Contains. destruct (str_in p s); split; congruence.
Qed.

Lemma lower_truthy (s : string) : truthy (lower s) = truthy s.
Proof. now destruct s. Qed.

Lemma lower_char_idem (c : ascii) : lower_char (lower_char c) = lower_char c.
Proof.
  destruct c as [[] [] [] [] [] [] [] []]; vm_compute; reflexivity.
Qed.

Lemma lower_idem (s : string) : lower (lower s) = lower s.
Proof.
  induction s as [|c s IH]; simpl; [reflexivity|].
  now rewrite lower_char_idem, IH.
Qed.

Lemma existsb_str_in_false (pats : list string) (s : string) :
  existsb (fun p => str_in p s) pats = false <->
  (forall p, In p pats -> ~ Contains p s).
Proof.
  induction pats as [|q pats IH]; simpl.
  - split; [intros _ p [] | reflexivity].
  - rewrite orb_false_iff, IH, str_in_not_Contains. split.
    + intros [Hq Hr] p [<-|Hp]; auto.
    + intros H; split; [apply H; now left | intros p Hp; apply H; now right].
Qed.

Lemma existsb_str_in_true (pats : list string) (s p : string) :
  In p pats -> Contains p s -> existsb (fun p => str_in p s) pats = true.
Proof.
  intros Hin Hc. apply existsb_exists. exists p. split; [assumption|].
  now apply str_in_Contains.
Qed.

Lemma Contains_truthy (p s : string) :
  truthy p = true -> Contains p (lower s) -> truthy s = true.
Proof.
  intros Hp [a [b Hab]]. rewrite <- lower_truthy, Hab.
  destruct a; simpl; [|reflexivity]. destruct p; [discriminate | reflexivity].
Qed.

End PyFacts.

(** ** Device classification *)

(** C6. Device classification is an ordered, case-insensitive substring
    match, tablet patterns first: a user-agent whose lower-cased form contains
    any tablet pattern (in particular "ipad") is a tablet, whatever mobile
    pattern it also contains; one that contains "android" and no tablet
    pattern is mobile; an absent or empty user-agent is unknown; a non-empty
    user-agent that matches no pattern is desktop; and the result only
    depends on the lower-cased user-agent. *)
Theorem detect_device_type_spec (ua : string) :
  (Py.Contains "ipad" (Py.lower ua) ->
     detect_device_type (Some ua) = tablet) /\
  (forall p, In p tablet_patterns -> Py.Contains p (Py.lower ua) ->
     detect_device_type (Some ua) = tablet) /\
  (Py.Contains "android" (Py.lower ua) ->
   (forall p, In p tablet_patterns -> ~ Py.Contains p (Py.lower ua)) ->
     detect_device_type (Some ua) = mobile) /\
  detect_device_type None = unknown /\
  detect_device_type (Some "") = unknown /\
  (ua <> "" ->
   (forall p, In p (tablet_patterns ++ mobile_patterns)%list ->
      ~ Py.Contains p (Py.lower ua)) ->
     detect_device_type (Some ua) = desktop) /\
  detect_device_type (Some (Py.lower ua)) = detect_device_type (Some ua).
Proof.
  assert (Htab : forall p, In p tablet_patterns ->
            Py.Contains p (Py.lower ua) ->
            detect_device_type (Some ua) = tablet).
  { intros p Hin Hc. unfold detect_device_type.
    assert (Ht : Py.truthy ua = true).
    { apply (Contains_truthy p); [|assumption].
      simpl in Hin. destruct Hin as [<-|[<-|[<-|[]]]]; reflexivity. }
    rewrite Ht. cbn [negb].
    now rewrite (existsb_str_in_true tablet_patterns _ p). }
  repeat split.
  - intros Hc. apply (Htab "ipad"); [simpl; auto | assumption].
  - exact Htab.
  - intros Hc Hnt. unfold detect_device_type.
    rewrite (Contains_truthy "android" ua eq_refl Hc). cbn [negb].
    apply existsb_str_in_false in Hnt. rewrite Hnt.
    now rewrite (existsb_str_in_true mobile_patterns _ "android");
      [| simpl; auto | assumption].
  - intros Hne Hnone. unfold detect_device_type.
    destruct ua as [|c ua']; [congruence|]. cbn [Py.truthy negb].
    assert (H1 : existsb (fun p => Py.str_in p (Py.lower (String c ua')))
                   tablet_patterns = false).
    { apply existsb_str_in_false. intros p Hp. apply Hnone.
      apply in_or_app. now left. }
    assert (H2 : existsb (fun p => Py.str_in p (Py.lower (String c ua')))
                   mobile_patterns = false).
    { apply existsb_str_in_false. intros p Hp. apply Hnone.
      apply in_or_app. now right. }
    now rewrite H1, H2.
  - unfold detect_device_type.
    now rewrite lower_truthy, lower_idem.
Qed.

Lemma detect_device_type_spec_witness :
  detect_device_type
    (Some "Mozilla/5.0 (iPad; CPU OS 13_2 like Mac OS X) Mobile/15E148")
  = tablet.
Proof.
  apply (proj1 (detect_device_type_spec
    "Mozilla/5.0 (iPad; CPU OS 13_2 like Mac OS X) Mobile/15E148")).
  exists "mozilla/5.0 (", "; cpu os 13_2 like mac os x) mobile/15e148".
  reflexivity.
Defined.

(** ** The click endpoint *)

Section ClickFacts.

Lemma filter_andb {A} (f g : A -> bool) (l : list A) :
  filter (fun x => f x && g x) l = filter g (filter f l).
Proof.
  induction l as [|a l IH]; simpl; [reflexivity|].
  destruct (f a); simpl; [destruct (g a)|]; now rewrite IH.
Qed.

Lemma filter_none {A} (f : A -> bool) (l : list A) :
  (forall x, In x l -> f x = false) -> filter f l = [].
Proof.
  induction l as [|a l IH]; simpl; intros H; [reflexivity|].
  rewrite (H a (or_introl eq_refl)). apply IH. intros x Hx. apply H. now right.
Qed.

(** Codes are unique: the rows with the code of [l] are [l] alone. *)
Lemma filter_code_unique (ls : list AffiliateLink.t) (l : AffiliateLink.t) :
  NoDup (map AffiliateLink.code ls) -> In l ls ->
  filter (fun x => String.eqb (AffiliateLink.code x) (AffiliateLink.code l)) ls
  = [l].
Proof.
  induction ls as [|a ls IH]; simpl; intros Hnd Hin; [contradiction|].
  inversion Hnd as [|? ? Hnotin Hnd']; subst.
  destruct Hin as [->|Hin].
  - rewrite String.eqb_refl. f_equal. apply filter_none.
    intros x Hx. apply String.eqb_neq. intros Heq. apply Hnotin.
    rewrite <- Heq. now apply in_map.
  - destruct (String.eqb_spec (AffiliateLink.code a) (AffiliateLink.code l))
      as [Heq|Hneq].
    + exfalso. apply Hnotin. rewrite Heq. now apply in_map.
    + now apply IH.
Qed.

Lemma active_rows_of_code (s : Store) (l : AffiliateLink.t) :
  NoDup (map AffiliateLink.code (links s)) -> In l (links s) ->
  filter (fun x => String.eqb (AffiliateLink.code x) (AffiliateLink.code l)
                   && AffiliateLink.is_active x) (links s)
  = if AffiliateLink.is_active l then [l] else [].
Proof.
  intros Hnd Hin. rewrite filter_andb, (filter_code_unique _ _ Hnd Hin).
  simpl. now destruct (AffiliateLink.is_active l).
Qed.

Lemma get_object_or_404_found (s : Store) (code : string)
      (l : AffiliateLink.t) :
  filter (fun x => String.eqb (AffiliateLink.code x) code
                   && AffiliateLink.is_active x) (links s) = [l] ->
  get_object_or_404 code s = (Ok l, s).
Proof.
  intros H. unfold get_object_or_404, AffiliateLink_get, bind, get_store.
  now rewrite H.
Qed.

Lemma get_object_or_404_missing (s : Store) (code : string) :
  filter (fun x => String.eqb (AffiliateLink.code x) code
                   && AffiliateLink.is_active x) (links s) = [] ->
  get_object_or_404 code s
  = (Raise (Http404 "No AffiliateLink matches the given query."), s).
Proof.
  intros H. unfold get_object_or_404, AffiliateLink_get, bind, get_store.
  now rewrite H.
Qed.

(** What the view answers when no active link has the code. *)
Lemma track_click_no_active_link (redirect : string -> redirect_outcome)
     (now : Z) (fault : option string)
      (request : Request) (code : string) (s : Store) :
  filter (fun x => String.eqb (AffiliateLink.code x) code
                   && AffiliateLink.is_active x) (links s) = [] ->
  track_click redirect now fault request code s
  = (HttpResponseStatus
       "Error processing click: No AffiliateLink matches the given query."
       500, s).
Proof.
  intros H. unfold track_click, track_click_try, bind.
  now rewrite (get_object_or_404_missing _ _ H).
Qed.

Lemma link_product_found (s : Store) (l : AffiliateLink.t) (p : Product.t) :
  find (fun x => Nat.eqb (Product.id x) (AffiliateLink.product l))
       (products s) = Some p ->
  link_product l s = (Ok p, s).
Proof.
  intros H. unfold link_product, bind, get_store. now rewrite H.
Qed.

End ClickFacts.

(** A well-formed code that no active link carries: the resolver lets it
    through and the view answers 500. *)
Lemma click_endpoint_unknown_uuid (redirect : string -> redirect_outcome)
     (now : Z) (fault : option string)
      (request : Request) (code : string) (s : Store) :
  uuid_converter code = true ->
  (forall l, In l (links s) -> AffiliateLink.code l <> code) ->
  click_endpoint redirect now fault request code s
  = (HttpResponseStatus
       "Error processing click: No AffiliateLink matches the given query."
       500, s).
Proof.
  intros Hu Hno. unfold click_endpoint. rewrite Hu.
  apply track_click_no_active_link. apply filter_none. intros x Hx.
  apply andb_false_iff. left. apply String.eqb_neq. now apply Hno.
Qed.

(** C3 (the code departs from the claim). A code that matches no stored
    link should be answered NotFound (404) and never a server error. On
    the code, the well-formed code 00000000-0000-4000-8000-000000000000,
    which no stored link carries, is answered 500: [get_object_or_404]
    raises [Http404], which the clause for [AffiliateLink.DoesNotExist] does
    not catch and the clause for [Exception] does. *)
Theorem click_unknown_code_answers_500 :
  click_endpoint Sample.redirect 0 None Sample.request Sample.unknown_code Sample.store
  = (HttpResponseStatus
       "Error processing click: No AffiliateLink matches the given query."
       500, Sample.store)
  /\ status_code
       (fst (click_endpoint Sample.redirect 0 None Sample.request Sample.unknown_code
               Sample.store)) <> 404%nat.
Proof.
  split; [reflexivity | vm_compute; discriminate].
Qed.

(** C4 is false as stated: on the sample store, a click on the existing
    link whose Click record cannot be written is answered 500 and not the
    redirect to the product's external URL that the precedence rule gives
    when the write succeeds. *)
Lemma click_recording_failure_breaks_redirect :
  fst (track_click Sample.redirect 0 None Sample.request Sample.code Sample.store)
  = HttpResponseRedirect "https://shop.example/widget"
  /\ fst (track_click Sample.redirect 0 (Some "database is locked") Sample.request Sample.code
            Sample.store)
     = HttpResponseStatus "Error processing click: database is locked" 500
  /\ fst (track_click Sample.redirect 0 (Some "database is locked") Sample.request Sample.code
            Sample.store)
     <> fst (track_click Sample.redirect 0 None Sample.request Sample.code Sample.store).
Proof.
  repeat split; vm_compute; discriminate.
Qed.

(** C4, amended. For every click on an existing, active, unexpired link,
    if persisting the Click record fails with message [msg], the failure is
    not swallowed: the visitor is answered 500 with the text
    "Error processing click: msg" in place of the redirect, and nothing is
    stored. *)
Theorem track_click_recording_failure (redirect : string -> redirect_outcome)
     (now : Z) (msg : string)
        (request : Request) (s : Store) (l : AffiliateLink.t) :
  NoDup (map AffiliateLink.code (links s)) ->
  In l (links s) ->
  AffiliateLink.is_active l = true ->
  has_expired now l = false ->
  track_click redirect now (Some msg) request (AffiliateLink.code l) s
  = (HttpResponseStatus ("Error processing click: " ++ msg) 500, s).
Proof.
  intros Hnd Hin Hact Hexp.
  pose proof (active_rows_of_code s l Hnd Hin) as Hrows. rewrite Hact in Hrows.
  unfold track_click, track_click_try, bind.
  rewrite (get_object_or_404_found _ _ _ Hrows), Hexp.
  reflexivity.
Qed.

Lemma track_click_recording_failure_witness :
  track_click Sample.redirect 0 (Some "database is locked") Sample.request Sample.code
    Sample.store
  = (HttpResponseStatus "Error processing click: database is locked" 500,
     Sample.store).
Proof.
  apply (track_click_recording_failure Sample.redirect 0 "database is locked" Sample.request
           Sample.store Sample.link).
  - simpl. constructor; [intros [] | constructor].
  - simpl. left. reflexivity.
  - reflexivity.
  - reflexivity.
Defined.

(** C5 is false as stated: on the sample store whose only link is
    inactive, a click on its code is not answered 410; the answer is the
    500 of an unknown code. *)
Lemma click_inactive_link_is_not_410 :
  In Sample.inactive_link (links Sample.store_inactive)
  /\ AffiliateLink.is_active Sample.inactive_link = false
  /\ status_code
       (fst (click_endpoint Sample.redirect 0 None Sample.request Sample.code
               Sample.store_inactive)) <> 410%nat.
Proof.
  repeat split; [simpl; now left | vm_compute; discriminate].
Qed.

(** C5, amended. For every click on an active link whose expires_at is set
    and in the past, the click endpoint answers 410 (ExpiredError), an
    outcome distinct from NotFound, and records no Click. An inactive link
    is not an expired one for the view: the lookup only sees active links,
    so a click on an inactive link is never answered 410, is not redirected,
    and records no Click either. *)
Theorem track_click_expired_or_inactive (redirect : string -> redirect_outcome)
     (now : Z) (fault : option string)
        (request : Request) (s : Store) (l : AffiliateLink.t) :
  NoDup (map AffiliateLink.code (links s)) ->
  In l (links s) ->
  (AffiliateLink.is_active l = true ->
   (exists t, AffiliateLink.expires_at l = Some t /\ (t < now)%Z) ->
   track_click redirect now fault request (AffiliateLink.code l) s
   = (HttpResponseStatus "This affiliate link has expired." 410, s))
  /\
  (AffiliateLink.is_active l = false ->
   let r := track_click redirect now fault request (AffiliateLink.code l) s in
   status_code (fst r) <> 410%nat /\ status_code (fst r) <> 302%nat
   /\ snd r = s).
Proof.
  intros Hnd Hin.
  pose proof (active_rows_of_code s l Hnd Hin) as Hrows.
  split.
  - intros Hact [t [Ht Hlt]]. rewrite Hact in Hrows.
    unfold track_click, track_click_try, bind.
    rewrite (get_object_or_404_found _ _ _ Hrows).
    unfold has_expired. rewrite Ht.
    apply Z.ltb_lt in Hlt. now rewrite Hlt.
  - intros Hact. rewrite Hact in Hrows.
    rewrite (track_click_no_active_link _ _ _ _ _ _ Hrows). simpl.
    repeat split; discriminate.
Qed.

Lemma track_click_expired_or_inactive_witness :
  track_click Sample.redirect 200 None Sample.request Sample.code Sample.store_expired
  = (HttpResponseStatus "This affiliate link has expired." 410,
     Sample.store_expired).
Proof.
  apply (proj1 (track_click_expired_or_inactive Sample.redirect 200 None Sample.request
                  Sample.store_expired Sample.expired_link
                  ltac:(simpl; constructor; [intros [] | constructor])
                  ltac:(simpl; left; reflexivity))).
  - reflexivity.
  - exists 100%Z. split; [reflexivity | lia].
Defined.

(** What the view answers once the Click row is written: the outcome of
    [redirect] on the target. *)
Lemma track_click_recorded (redirect : string -> redirect_outcome) (now : Z)
      (request : Request) (s : Store) (l : AffiliateLink.t) :
  NoDup (map AffiliateLink.code (links s)) ->
  In l (links s) ->
  AffiliateLink.is_active l = true ->
  has_expired now l = false ->
  track_click redirect now None request (AffiliateLink.code l) s
  = let s' :=
      set_clicks
        (clicks s
         ++ [Click.mk (next_id (map Click.id (clicks s))) (AffiliateLink.id l)
               (get_client_ip request)
               (or_else (HTTP_USER_AGENT request) "")
               (or_else (HTTP_REFERER request) "")
               (detect_device_type
                  (Some (or_else (HTTP_USER_AGENT request) "")))
               now])%list s in
    match redirect_url_of l s' with
    | (Ok url, s'') =>
        match redirect url with
        | Redirected location => (HttpResponseRedirect location, s'')
        | RedirectRaises msg =>
            (HttpResponseStatus ("Error processing click: " ++ msg) 500, s'')
        end
    | (Raise e, s'') => (track_click_except e, s'')
    end.
Proof.
  intros Hnd Hin Hact Hexp.
  pose proof (active_rows_of_code s l Hnd Hin) as Hrows. rewrite Hact in Hrows.
  unfold track_click, track_click_try, bind.
  rewrite (get_object_or_404_found _ _ _ Hrows), Hexp.
  unfold Click_objects_create, bind, get_store, put_store, ret, or_else.
  destruct (HTTP_USER_AGENT request), (HTTP_REFERER request); cbn zeta;
    destruct (redirect_url_of l _) as [[url|e] s'']; try reflexivity;
    destruct (redirect url); reflexivity.
Qed.

(** C7. For every successfully recorded click (the link exists, is active
    and unexpired, the Click row is written, and the link's product is in the
    catalog), the redirect target is chosen by strict precedence: the link's
    landing_url if set, otherwise the product's external_url if set,
    otherwise the internal product detail page, /api/products/ followed by
    the decimal numeral of the product's primary key and a slash. That
    target is what the view hands to [redirect]: the visitor is answered the
    302 that [redirect] builds from it, or, when [redirect] refuses the
    target, a 500 with the reason; in both cases exactly one Click has been
    appended to the store. *)
Theorem track_click_redirect_precedence
        (redirect : string -> redirect_outcome) (now : Z) (request : Request)
        (s : Store) (l : AffiliateLink.t) (p : Product.t) :
  NoDup (map AffiliateLink.code (links s)) ->
  In l (links s) ->
  AffiliateLink.is_active l = true ->
  has_expired now l = false ->
  find (fun x => Nat.eqb (Product.id x) (AffiliateLink.product l)) (products s)
  = Some p ->
  let r := track_click redirect now None request (AffiliateLink.code l) s in
  let pk := NilZero.string_of_uint (Nat.to_uint (Product.id p)) in
  let target :=
    if Py.truthy_opt (AffiliateLink.landing_url l)
    then or_else (AffiliateLink.landing_url l) ""
    else if Py.truthy_opt (Product.external_url p)
    then or_else (Product.external_url p) ""
    else "/api/products/" ++ pk ++ "/" in
  (forall location,
     redirect target = Redirected location ->
     fst r = HttpResponseRedirect location)
  /\ (forall msg,
        redirect target = RedirectRaises msg ->
        fst r = HttpResponseStatus ("Error processing click: " ++ msg) 500)
  /\ Nat.of_uint (Nat.to_uint (Product.id p)) = Product.id p
  /\ (exists c, clicks (snd r) = (clicks s ++ [c])%list
                /\ Click.affiliate_link c = AffiliateLink.id l)
  /\ links (snd r) = links s.
Proof.
  intros Hnd Hin Hact Hexp Hp r pk target. subst r.
  rewrite (track_click_recorded redirect now request s l Hnd Hin Hact Hexp).
  cbv zeta.
  set (s' := set_clicks _ s).
  assert (Hp' : link_product l s' = (Ok p, s'))
    by (apply link_product_found; exact Hp).
  assert (Hurl : redirect_url_of l s' = (Ok target, s')).
  { unfold redirect_url_of, bind, ret, target, pk, Py.str_of_nat.
    destruct (AffiliateLink.landing_url l) as [u|]; simpl Py.truthy_opt.
    - destruct (Py.truthy u) eqn:Hu; [reflexivity|].
      rewrite Hp'. destruct (Py.truthy_opt (Product.external_url p));
        reflexivity.
    - rewrite Hp'. destruct (Py.truthy_opt (Product.external_url p));
        reflexivity. }
  rewrite Hurl.
  split; [|split; [|split; [|split]]].
  - intros location Hr. now rewrite Hr.
  - intros msg Hr. now rewrite Hr.
  - apply DecimalNat.Unsigned.of_to.
  - destruct (redirect target); simpl; eauto.
  - destruct (redirect target); reflexivity.
Qed.

Lemma track_click_redirect_precedence_witness :
  fst (track_click Sample.redirect 0 None Sample.request Sample.code
         Sample.store)
  = HttpResponseRedirect "https://shop.example/widget"
  /\ fst (track_click Sample.redirect 0 None Sample.request Sample.code
            Sample.store_plain)
     = HttpResponseRedirect "/api/products/7/"
  /\ fst (track_click Sample.redirect 0 None Sample.request Sample.code
            Sample.store_ftps)
     = HttpResponseStatus
         "Error processing click: Unsafe redirect to URL: ftps://files.example/widget"
         500.
Proof.
  split; [|split].
  - apply (proj1 (track_click_redirect_precedence Sample.redirect 0
                    Sample.request Sample.store Sample.link Sample.widget
                    ltac:(simpl; constructor; [intros [] | constructor])
                    ltac:(simpl; left; reflexivity)
                    ltac:(reflexivity) ltac:(reflexivity) ltac:(reflexivity))
             "https://shop.example/widget").
    reflexivity.
  - apply (proj1 (track_click_redirect_precedence Sample.redirect 0
                    Sample.request Sample.store_plain Sample.link
                    Sample.plain_widget
                    ltac:(simpl; constructor; [intros [] | constructor])
                    ltac:(simpl; left; reflexivity)
                    ltac:(reflexivity) ltac:(reflexivity) ltac:(reflexivity))
             "/api/products/7/").
    reflexivity.
  - apply (proj1 (proj2 (track_click_redirect_precedence Sample.redirect 0
                    Sample.request Sample.store_ftps Sample.link
                    Sample.ftps_widget
                    ltac:(simpl; constructor; [intros [] | constructor])
                    ltac:(simpl; left; reflexivity)
                    ltac:(reflexivity) ltac:(reflexivity) ltac:(reflexivity)))
             "Unsafe redirect to URL: ftps://files.example/widget").
    reflexivity.
Defined.

(** ** What each request leaves untouched *)

(** A computation keeps a preorder [R] on stores when the store it leaves
    is always [R]-related to the one it started from. *)
Section Keeps.

Variable R : Store -> Store -> Prop.
Hypothesis R_refl : forall s, R s s.
Hypothesis R_trans : forall s1 s2 s3, R s1 s2 -> R s2 s3 -> R s1 s3.

Lemma keeps_ret {A} (a : A) : keeps R (ret a).
Proof. intros s. apply R_refl. Qed.

Lemma keeps_raise {A} (e : exn) : keeps R (@raise A e).
Proof. intros s. apply R_refl. Qed.

Lemma keeps_get_store : keeps R get_store.
Proof. intros s. apply R_refl. Qed.

Lemma keeps_bind {A B} (m : M A) (k : A -> M B) :
  keeps R m -> (forall a, keeps R (k a)) -> keeps R (bind m k).
Proof.
  intros Hm Hk s. unfold bind. specialize (Hm s).
  destruct (m s) as [[a|e] s1]; simpl in *.
  - apply (R_trans _ s1); [assumption | apply Hk].
  - assumption.
Qed.

Lemma keeps_if {A} (b : bool) (m1 m2 : M A) :
  keeps R m1 -> keeps R m2 -> keeps R (if b then m1 else m2).
Proof. now destruct b. Qed.

Lemma keeps_get_object_or_404 (code : string) :
  keeps R (get_object_or_404 code).
Proof.
  intros s. unfold get_object_or_404, AffiliateLink_get, bind, get_store.
  destruct (filter _ (links s)) as [|l [|l' ls]]; simpl; apply R_refl.
Qed.

Lemma keeps_link_product (l : AffiliateLink.t) : keeps R (link_product l).
Proof.
  intros s. unfold link_product, bind, get_store.
  destruct (find _ (products s)); simpl; apply R_refl.
Qed.

Lemma keeps_redirect_url_of (l : AffiliateLink.t) :
  keeps R (redirect_url_of l).
Proof.
  unfold redirect_url_of.
  destruct (AffiliateLink.landing_url l) as [u|].
  - apply keeps_if; [apply keeps_ret|].
    apply keeps_bind; [apply keeps_link_product|].
    intros p. apply keeps_if; apply keeps_ret.
  - apply keeps_bind; [apply keeps_link_product|].
    intros p. apply keeps_if; apply keeps_ret.
Qed.

End Keeps.

Lemma same_but_clicks_refl s : same_but_clicks s s.
Proof. now repeat split. Qed.

Lemma same_but_clicks_trans s1 s2 s3 :
  same_but_clicks s1 s2 -> same_but_clicks s2 s3 -> same_but_clicks s1 s3.
Proof.
  intros (A1 & A2 & A3) (B1 & B2 & B3). repeat split; congruence.
Qed.

Lemma conversions_appended_refl s : conversions_appended s s.
Proof.
  repeat split. exists []. now rewrite app_nil_r.
Qed.

Lemma conversions_appended_trans s1 s2 s3 :
  conversions_appended s1 s2 -> conversions_appended s2 s3 ->
  conversions_appended s1 s3.
Proof.
  intros (A1 & A2 & x1 & A3) (B1 & B2 & x2 & B3).
  repeat split; try congruence.
  exists (x1 ++ x2)%list. now rewrite B3, A3, app_assoc.
Qed.

Section Frames.

Variable py_float : string -> option Q.

Lemma track_click_frame (redirect : string -> redirect_outcome)
     (now : Z) (fault : option string)
      (request : Request) (code : string) (s : Store) :
  same_but_clicks s (snd (track_click redirect now fault request code s)).
Proof.
  assert (H : keeps same_but_clicks
                (track_click_try redirect now fault request code)).
  { unfold track_click_try.
    apply keeps_bind;
      [apply same_but_clicks_trans
      |apply keeps_get_object_or_404, same_but_clicks_refl|].
    intros l. apply keeps_if; [apply keeps_ret, same_but_clicks_refl|].
    apply keeps_bind; [apply same_but_clicks_trans| |].
    - intros st. unfold Click_objects_create. destruct fault; simpl.
      + apply same_but_clicks_refl.
      + now repeat split.
    - intros _. apply keeps_bind;
        [apply same_but_clicks_trans
        |apply keeps_redirect_url_of;
           [exact same_but_clicks_refl | exact same_but_clicks_trans]|].
      intros u. destruct (redirect u);
        [apply keeps_ret | apply keeps_raise]; apply same_but_clicks_refl. }
  specialize (H s). unfold track_click.
  destruct (track_click_try redirect now fault request code s) as [[r|e] s1];
    exact H.
Qed.

Lemma click_endpoint_frame (redirect : string -> redirect_outcome)
     (now : Z) (fault : option string)
      (request : Request) (segment : string) (s : Store) :
  same_but_clicks s (snd (click_endpoint redirect now fault request segment s)).
Proof.
  unfold click_endpoint. destruct (uuid_converter segment).
  - apply track_click_frame.
  - apply same_but_clicks_refl.
Qed.

Lemma keeps_Conversion_objects_create (now : Z) (fault : option string)
      (l : AffiliateLink.t) (a : Q) (order_id notes : jval) :
  keeps conversions_appended
    (Conversion_objects_create now fault l a order_id notes).
Proof.
  unfold Conversion_objects_create.
  apply keeps_bind;
    [apply conversions_appended_trans
    |apply keeps_link_product, conversions_appended_refl|].
  intros p st. destruct fault; simpl.
  - apply conversions_appended_refl.
  - repeat split. eexists. reflexivity.
Qed.

Lemma record_conversion_frame (now : Z) (fault : option string)
      (user : User.t) (data : dict) (code : string) (s : Store) :
  conversions_appended s
    (snd (record_conversion py_float now fault user data code s)).
Proof.
  assert (H : keeps conversions_appended
                (record_conversion_try py_float now fault user data code)).
  { unfold record_conversion_try.
    apply keeps_bind;
      [apply conversions_appended_trans
      |apply keeps_get_object_or_404, conversions_appended_refl|].
    intros l. apply keeps_bind;
      [apply conversions_appended_trans
      |apply keeps_link_product, conversions_appended_refl|].
    intros p. apply keeps_if; [apply keeps_ret, conversions_appended_refl|].
    apply keeps_if; [apply keeps_ret, conversions_appended_refl|].
    apply keeps_bind; [apply conversions_appended_trans| |].
    - unfold jval_float.
      destruct (match dict_get data "amount" with
                | Some v => v | None => JNull end) as [|b|q|t];
        try destruct (py_float t);
        first [apply keeps_ret | apply keeps_raise];
        apply conversions_appended_refl.
    - intros a. apply keeps_if; [apply keeps_ret, conversions_appended_refl|].
      apply keeps_bind;
        [apply conversions_appended_trans
        |apply keeps_Conversion_objects_create|].
      intros c. apply keeps_ret, conversions_appended_refl. }
  specialize (H s). unfold record_conversion.
  destruct (record_conversion_try py_float now fault user data code s)
    as [[r|e] s1]; [exact H | destruct e; exact H].
Qed.

Lemma ProductViewSet_update_frame (user : User.t) (all : option string)
      (pk : nat) (u : ProductUpdate) (s : Store) :
  let s' := snd (ProductViewSet_update user all pk u s) in
  links s' = links s /\ clicks s' = clicks s
  /\ conversions s' = conversions s.
Proof.
  unfold ProductViewSet_update.
  destruct (ProductViewSet_get_object user all pk s); [|now repeat split].
  destruct (check_field (new_price u) price_field validate_price);
    [now repeat split|].
  destruct (check_field (new_commission_rate u) commission_rate_field
              validate_commission_rate);
    [now repeat split|].
  destruct (_ && _); now repeat split.
Qed.

Lemma AffiliateLinkViewSet_create_frame (fresh_code : string)
      (user : User.t) (rq : LinkCreate) (s : Store) :
  let s' := snd (AffiliateLinkViewSet_create fresh_code user rq s) in
  products s' = products s /\ clicks s' = clicks s
  /\ conversions s' = conversions s.
Proof.
  unfold AffiliateLinkViewSet_create.
  destruct (find _ (products s)); [|now repeat split].
  destruct (negb _); [now repeat split|].
  destruct (AffiliateLinkCreateSerializer_validate _ _ s);
    [now repeat split|].
  destruct (negb _); [now repeat split|].
  unfold AffiliateLink_objects_create, bind, get_store, put_store, ret, raise.
  destruct (violates_unique _ _); now repeat split.
Qed.

Lemma AffiliateLinkViewSet_update_frame (user : User.t) (pk : nat)
      (u : LinkUpdate) (s : Store) :
  let s' := snd (AffiliateLinkViewSet_update user pk u s) in
  products s' = products s /\ clicks s' = clicks s
  /\ conversions s' = conversions s.
Proof.
  unfold AffiliateLinkViewSet_update.
  destruct (AffiliateLinkViewSet_get_object user pk s); [|now repeat split].
  destruct (product_field _ s); [now repeat split|].
  destruct (_ && _); [now repeat split|].
  destruct (violates_unique _ _); now repeat split.
Qed.

(** Every request but the deletion of a link keeps the stored conversions
    as they are, and at most appends new ones. *)
Lemma handle_keeps_conversions (e : Event) (s : Store) :
  deletes_history e = false ->
  exists extra,
    conversions (handle py_float e s) = (conversions s ++ extra)%list.
Proof.
  destruct e; simpl; intros Hd; try discriminate.
  - exists []. rewrite app_nil_r. apply click_endpoint_frame.
  - apply record_conversion_frame.
  - exists []. rewrite app_nil_r. apply ProductViewSet_update_frame.
  - exists []. rewrite app_nil_r. apply AffiliateLinkViewSet_create_frame.
  - exists []. rewrite app_nil_r. apply AffiliateLinkViewSet_update_frame.
  - exists []. now rewrite app_nil_r.
Qed.

Lemma run_keeps_conversions (es : list Event) (s : Store) :
  forallb (fun e => negb (deletes_history e)) es = true ->
  exists extra,
    conversions (run py_float es s) = (conversions s ++ extra)%list.
Proof.
  revert s. induction es as [|e es IH]; simpl; intros s H.
  - exists []. now rewrite app_nil_r.
  - apply andb_true_iff in H. destruct H as [He Hes].
    apply negb_true_iff in He.
    destruct (handle_keeps_conversions e s He) as [x1 H1].
    destruct (IH (handle py_float e s) Hes) as [x2 H2].
    exists (x1 ++ x2)%list. unfold run in *. rewrite H2, H1.
    now rewrite app_assoc.
Qed.

End Frames.

(** ** Recording a conversion *)

Lemma writable_data_keys (fields read_only : list string) (data : dict)
      (k : string) :
  In k (map fst (writable_data fields read_only data)) ->
  str_mem k fields && negb (str_mem k read_only) = true.
Proof.
  unfold writable_data. intros H. apply in_map_iff in H.
  destruct H as [[k' v] [Hk Hin]]. simpl in Hk. subst k'.
  apply filter_In in Hin. now destruct Hin.
Qed.

(** The body's commission_amount key is never read by the view. *)
Lemma record_conversion_ignores_commission_amount
      (py_float : string -> option Q) (now : Z) (fault : option string)
      (user : User.t) (data : dict) (code : string) (x : jval) (s : Store) :
  record_conversion py_float now fault user
    (("commission_amount", x) :: data) code s
  = record_conversion py_float now fault user data code s.
Proof.
  unfold record_conversion, record_conversion_try, dict_get_default.
  change (dict_get (("commission_amount", x) :: data) "amount")
    with (dict_get data "amount").
  change (dict_get (("commission_amount", x) :: data) "order_id")
    with (dict_get data "order_id").
  change (dict_get (("commission_amount", x) :: data) "notes")
    with (dict_get data "notes").
  reflexivity.
Qed.

(** The conversion that an authorised, well-formed request creates. *)
Lemma record_conversion_created (py_float : string -> option Q) (now : Z)
      (user : User.t) (data : dict) (s : Store) (l : AffiliateLink.t)
      (p : Product.t) (v : jval) (a : Q) :
  NoDup (map AffiliateLink.code (links s)) ->
  In l (links s) ->
  AffiliateLink.is_active l = true ->
  find (fun x => Nat.eqb (Product.id x) (AffiliateLink.product l)) (products s)
  = Some p ->
  User.id user = Product.merchant p \/ User.is_superuser user = true ->
  dict_get data "amount" = Some v ->
  jval_not (Some v) = false ->
  (forall st, jval_float py_float v st = (Ok a, st)) ->
  0 < a ->
  let c := Conversion.mk (next_id (map Conversion.id (conversions s)))
             (AffiliateLink.id l) None
             (dict_get_default data "order_id" (JStr "")) a
             (a * Product.commission_rate p / 100) None now false
             (dict_get_default data "notes" (JStr "")) in
  record_conversion py_float now None user data (AffiliateLink.code l) s
  = (ApiData c 201, set_conversions (conversions s ++ [c])%list s).
Proof.
  intros Hnd Hin Hact Hp Hauth Hamount Hnot Hfloat Hpos c.
  pose proof (active_rows_of_code s l Hnd Hin) as Hrows. rewrite Hact in Hrows.
  unfold record_conversion, record_conversion_try, bind.
  rewrite (get_object_or_404_found _ _ _ Hrows).
  rewrite (link_product_found _ _ _ Hp).
  assert (Hperm : User.neq user (Product.merchant p)
                  && negb (User.is_superuser user) = false).
  { unfold User.neq. destruct Hauth as [ -> | -> ].
    - now rewrite Nat.eqb_refl.
    - apply andb_false_r. }
  rewrite Hperm, Hamount, Hnot. unfold ret. rewrite Hfloat.
  assert (Hle : Qle_bool a 0 = false).
  { destruct (Qle_bool a 0) eqn:E; [|reflexivity].
    apply Qle_bool_iff in E. exfalso. apply (Qlt_not_le _ _ Hpos E). }
  rewrite Hle. unfold Conversion_objects_create, bind.
  rewrite (link_product_found _ _ _ Hp). reflexivity.
Qed.

(** C1. A conversion created against link L, whose product has
    commission_rate r at that time, carries commission_amount = amount x r /
    100, with verified false; the stored conversion is a snapshot, unchanged
    by every later request that deletes no link, in particular by every edit
    of the product's commission_rate; and the creation request cannot supply
    commission_amount: the view never reads that key, and neither serializer
    lets it through. *)
Theorem conversion_commission_snapshot (py_float : string -> option Q)
        (now : Z) (user : User.t) (data : dict) (s : Store)
        (l : AffiliateLink.t) (p : Product.t) (v : jval) (a : Q) :
  NoDup (map AffiliateLink.code (links s)) ->
  In l (links s) ->
  AffiliateLink.is_active l = true ->
  find (fun x => Nat.eqb (Product.id x) (AffiliateLink.product l)) (products s)
  = Some p ->
  User.id user = Product.merchant p \/ User.is_superuser user = true ->
  dict_get data "amount" = Some v ->
  jval_not (Some v) = false ->
  (forall st, jval_float py_float v st = (Ok a, st)) ->
  0 < a ->
  let r := record_conversion py_float now None user data
             (AffiliateLink.code l) s in
  exists c,
    fst r = ApiData c 201
    /\ conversions (snd r) = (conversions s ++ [c])%list
    /\ Conversion.amount c = a
    /\ Conversion.commission_amount c == a * Product.commission_rate p / 100
    /\ Conversion.verified c = false
    /\ (forall es,
          forallb (fun e => negb (deletes_history e)) es = true ->
          exists extra,
            conversions (run py_float es (snd r))
            = (conversions s ++ [c] ++ extra)%list)
    /\ (forall editor all pk u,
          conversions (snd (ProductViewSet_update editor all pk u (snd r)))
          = (conversions s ++ [c])%list)
    /\ (forall x,
          record_conversion py_float now None user
            (("commission_amount", x) :: data) (AffiliateLink.code l) s = r)
    /\ (forall body,
          ~ In "commission_amount" (ConversionSerializer_validated_keys body)
          /\ ~ In "commission_amount"
                 (ConversionCreateSerializer_validated_keys body)).
Proof.
  intros Hnd Hin Hact Hp Hauth Hamount Hnot Hfloat Hpos r.
  pose proof (record_conversion_created py_float now user data s l p v a
                Hnd Hin Hact Hp Hauth Hamount Hnot Hfloat Hpos) as Hr.
  cbv zeta in Hr. subst r. rewrite Hr.
  eexists. split; [reflexivity|]. cbn [fst snd].
  split; [reflexivity|]. split; [reflexivity|].
  split; [simpl; reflexivity|]. split; [reflexivity|].
  split; [|split; [|split]].
  - intros es Hes.
    match goal with
    | |- exists _, conversions (run _ _ ?st) = _ =>
        destruct (run_keeps_conversions py_float es st Hes) as [extra Hx]
    end.
    exists extra. rewrite Hx. simpl. now rewrite <- app_assoc.
  - intros editor all pk u.
    now rewrite (proj2 (proj2 (ProductViewSet_update_frame editor all pk u
                                 _))).
  - intros x. rewrite record_conversion_ignores_commission_amount. exact Hr.
  - intros body. split; intros H; apply writable_data_keys in H;
      vm_compute in H; discriminate.
Qed.

Lemma conversion_commission_snapshot_witness :
  exists c,
    fst (record_conversion Sample.py_float 5 None Sample.merchant
           [("amount", JNum 50)] Sample.code Sample.store) = ApiData c 201
    /\ Conversion.commission_amount c == 5.
Proof.
  destruct (conversion_commission_snapshot Sample.py_float 5 Sample.merchant
              [("amount", JNum 50)] Sample.store Sample.link Sample.widget
              (JNum 50) 50
              ltac:(simpl; constructor; [intros [] | constructor])
              ltac:(simpl; left; reflexivity)
              ltac:(reflexivity) ltac:(reflexivity)
              ltac:(left; reflexivity) ltac:(reflexivity) ltac:(reflexivity)
              ltac:(reflexivity) ltac:(reflexivity))
    as [c [H1 [_ [_ [H4 _]]]]].
  exists c. split; [exact H1|]. rewrite H4. reflexivity.
Defined.

(** ** The link registry *)

Section LinkRegistry.

Variable py_float : string -> option Q.

Lemma same_pair_spec (a p : nat) (l : AffiliateLink.t) :
  same_pair a p l = true <-> link_pair l = (a, p).
Proof.
  unfold same_pair, link_pair. rewrite andb_true_iff, !Nat.eqb_eq.
  split; [intros [-> ->]; reflexivity | intros H; now inversion H].
Qed.

Lemma existsb_same_pair (a p : nat) (ls : list AffiliateLink.t) :
  existsb (same_pair a p) ls = false <-> ~ In (a, p) (map link_pair ls).
Proof.
  split.
  - intros H Hin. apply in_map_iff in Hin. destruct Hin as [l [Hl Hin]].
    assert (existsb (same_pair a p) ls = true); [|congruence].
    apply existsb_exists. exists l. split; [assumption|].
    now apply same_pair_spec.
  - intros H. destruct (existsb (same_pair a p) ls) eqn:E; [|reflexivity].
    exfalso. apply H. apply existsb_exists in E. destruct E as [l [Hin Hl]].
    apply same_pair_spec in Hl. rewrite <- Hl. now apply in_map.
Qed.

Lemma next_id_fresh (ids : list nat) : ~ In (next_id ids) ids.
Proof.
  intros Hin. unfold next_id in Hin.
  assert (H : Forall (fun k => (k <= list_max ids)%nat) ids)
    by (apply list_max_le; lia).
  rewrite Forall_forall in H. specialize (H _ Hin). lia.
Qed.

Lemma NoDup_snoc {A} (l : list A) (a : A) :
  NoDup l -> ~ In a l -> NoDup (l ++ [a])%list.
Proof.
  intros Hnd Hnot. apply NoDup_app; [assumption | repeat constructor; auto|].
  intros x Hx [<-|[]]. contradiction.
Qed.

Lemma NoDup_map_filter {A B} (f : A -> B) (g : A -> bool) (l : list A) :
  NoDup (map f l) -> NoDup (map f (filter g l)).
Proof.
  induction l as [|a l IH]; simpl; intros H; [constructor|].
  inversion H as [|? ? Hnot Hnd]; subst.
  destruct (g a); simpl; [constructor|]; auto.
  intros Hin. apply Hnot. apply in_map_iff in Hin.
  destruct Hin as [x [Hx Hin]]. apply filter_In in Hin.
  rewrite <- Hx. apply in_map. tauto.
Qed.

Lemma replace_link_absent (l' : AffiliateLink.t)
      (ls : list AffiliateLink.t) :
  ~ In (AffiliateLink.id l') (map AffiliateLink.id ls) ->
  replace_link l' ls = ls.
Proof.
  induction ls as [|a ls IH]; simpl; intros H; [reflexivity|].
  destruct (Nat.eqb_spec (AffiliateLink.id a) (AffiliateLink.id l'))
    as [E|E]; [exfalso; apply H; now left|].
  f_equal. apply IH. intros Hin. apply H. now right.
Qed.

Lemma replace_link_ids (l' : AffiliateLink.t) (ls : list AffiliateLink.t) :
  map AffiliateLink.id (replace_link l' ls) = map AffiliateLink.id ls.
Proof.
  induction ls as [|a ls IH]; simpl; [reflexivity|].
  rewrite IH. f_equal.
  destruct (Nat.eqb_spec (AffiliateLink.id a) (AffiliateLink.id l'));
    congruence.
Qed.

Lemma replace_link_In (l' x : AffiliateLink.t) (ls : list AffiliateLink.t) :
  In x (replace_link l' ls) -> x = l' \/ In x ls.
Proof.
  unfold replace_link. intros H. apply in_map_iff in H.
  destruct H as [y [Hy Hin]].
  destruct (Nat.eqb (AffiliateLink.id y) (AffiliateLink.id l'));
    [left | right]; congruence.
Qed.

Lemma violates_unique_false (l' : AffiliateLink.t)
      (ls : list AffiliateLink.t) :
  violates_unique l' ls = false ->
  forall x, In x ls -> AffiliateLink.id x <> AffiliateLink.id l' ->
            link_pair x <> link_pair l'.
Proof.
  unfold violates_unique. intros H x Hin Hid Hpair.
  assert (E : existsb
                (fun x => negb (Nat.eqb (AffiliateLink.id x)
                                        (AffiliateLink.id l'))
                          && (String.eqb (AffiliateLink.code x)
                                         (AffiliateLink.code l')
                              || same_pair (AffiliateLink.affiliate l')
                                   (AffiliateLink.product l') x)) ls = true);
    [|congruence].
  apply existsb_exists. exists x. split; [assumption|].
  apply andb_true_iff. split.
  - apply negb_true_iff. now apply Nat.eqb_neq.
  - apply orb_true_iff. right. now apply same_pair_spec.
Qed.

Lemma replace_link_pairs (l' : AffiliateLink.t)
      (ls : list AffiliateLink.t) :
  NoDup (map AffiliateLink.id ls) -> NoDup (map link_pair ls) ->
  (forall x, In x ls -> AffiliateLink.id x <> AffiliateLink.id l' ->
             link_pair x <> link_pair l') ->
  NoDup (map link_pair (replace_link l' ls)).
Proof.
  induction ls as [|a ls IH]; simpl; intros Hid Hpair Hother; [constructor|].
  inversion Hid as [|? ? Hid1 Hid2]; subst.
  inversion Hpair as [|? ? Hp1 Hp2]; subst.
  destruct (Nat.eqb_spec (AffiliateLink.id a) (AffiliateLink.id l'))
    as [E|E].
  - fold (replace_link l' ls).
    rewrite replace_link_absent by (now rewrite <- E).
    constructor; [|assumption].
    intros Hin. apply in_map_iff in Hin. destruct Hin as [x [Hx Hin]].
    apply (Hother x); [now right| |assumption].
    intros Hxid. apply Hid1. rewrite E, <- Hxid. now apply in_map.
  - fold (replace_link l' ls). constructor.
    + intros Hin. apply in_map_iff in Hin. destruct Hin as [x [Hx Hin]].
      apply replace_link_In in Hin. destruct Hin as [->|Hin].
      * apply (Hother a); [now left | assumption | now symmetry].
      * apply Hp1. rewrite <- Hx. now apply in_map.
    + apply IH; auto.
Qed.

(** Every request keeps the invariant of the registry. *)
Lemma handle_links_ok (e : Event) (s : Store) :
  links_ok s -> links_ok (handle py_float e s).
Proof.
  intros [Hid Hpair]. unfold links_ok. destruct e; simpl.
  - destruct (click_endpoint_frame redirect now fault request segment s)
      as (_ & -> & _). now split.
  - destruct (record_conversion_frame py_float now fault user data code s)
      as (_ & -> & _). now split.
  - destruct (ProductViewSet_update_frame user all pk u s) as (-> & _).
    now split.
  - unfold AffiliateLinkViewSet_create.
    destruct (find _ (products s)); [|now split].
    destruct (negb _); [now split|].
    unfold AffiliateLinkCreateSerializer_validate.
    destruct (existsb _ (links s)) eqn:Hdup; [now split|].
    destruct (negb _); [now split|].
    unfold AffiliateLink_objects_create, bind, get_store, put_store, ret,
      raise.
    destruct (violates_unique _ _); [now split|]. simpl.
    rewrite !map_app. simpl. split; apply NoDup_snoc; try assumption.
    + apply next_id_fresh.
    + unfold link_pair. simpl. now apply existsb_same_pair.
  - unfold AffiliateLinkViewSet_update.
    destruct (AffiliateLinkViewSet_get_object user pk s); [|now split].
    destruct (product_field _ s); [now split|].
    destruct (_ && _); [now split|].
    destruct (violates_unique _ _) eqn:Hv; [now split|]. simpl.
    split.
    + now rewrite replace_link_ids.
    + apply replace_link_pairs; try assumption.
      now apply violates_unique_false.
  - unfold AffiliateLinkViewSet_destroy.
    destruct (AffiliateLinkViewSet_get_object user pk s); [|now split].
    destruct (_ && _); [now split|]. simpl.
    split; now apply NoDup_map_filter.
  - unfold admin_set_active. simpl. rewrite !map_map.
    split.
    + erewrite map_ext; [exact Hid|]. intros l.
      now destruct (existsb _ selected).
    + erewrite map_ext; [exact Hpair|]. intros l.
      now destruct (existsb _ selected).
Qed.

Lemma run_links_ok (es : list Event) (s : Store) :
  links_ok s -> links_ok (run py_float es s).
Proof.
  revert s. induction es as [|e es IH]; simpl; intros s H; [assumption|].
  apply IH. now apply handle_links_ok.
Qed.

Lemma links_ok_at_most_one (s : Store) (a p : nat) :
  links_ok s -> (List.length (links_of_pair a p s) <= 1)%nat.
Proof.
  intros [_ Hpair]. unfold links_of_pair.
  induction (links s) as [|l ls IH]; simpl; [lia|].
  inversion Hpair as [|? ? Hnot Hnd]; subst.
  destruct (same_pair a p l) eqn:E; [|auto].
  apply same_pair_spec in E. simpl.
  rewrite filter_none; [simpl; lia|].
  intros x Hx. destruct (same_pair a p x) eqn:Ex; [|reflexivity].
  apply same_pair_spec in Ex. exfalso. apply Hnot.
  rewrite E, <- Ex. now apply in_map.
Qed.

End LinkRegistry.

(** A creation request for a pair that already has a link is refused with
    status 400 and changes nothing. *)
Lemma create_refused_when_link_exists (fresh_code : string) (user : User.t)
      (rq : LinkCreate) (s : Store) (l : AffiliateLink.t) :
  In l (links s) ->
  AffiliateLink.affiliate l = User.id user ->
  AffiliateLink.product l = lc_product rq ->
  exists msg,
    AffiliateLinkViewSet_create fresh_code user rq s = (ApiError msg 400, s)
    /\ (forall p,
          find (fun x => Nat.eqb (Product.id x) (lc_product rq)) (products s)
          = Some p ->
          Product.is_active p = true ->
          msg = "You already have an affiliate link for this product.").
Proof.
  intros Hin Ha Hp. unfold AffiliateLinkViewSet_create.
  destruct (find _ (products s)) as [p|];
    [|eexists; split; [reflexivity | discriminate]].
  destruct (Product.is_active p) eqn:Hact; simpl;
    [|eexists; split; [reflexivity|]; intros p' E; inversion E; congruence].
  unfold AffiliateLinkCreateSerializer_validate.
  assert (E : existsb (same_pair (User.id user) (lc_product rq)) (links s)
              = true).
  { apply existsb_exists. exists l. split; [assumption|].
    apply same_pair_spec. unfold link_pair. congruence. }
  rewrite E. eexists. split; reflexivity.
Qed.

(** C2. For every (affiliate, product) pair, at most one AffiliateLink,
    active or inactive, exists at any time: in every store reached from the
    empty one, and from any store whose links are already unique, by any
    sequence of requests. A creation attempt by an affiliate who already has
    a link for the product fails (status 400) and leaves the store unchanged;
    in particular, right after a successful creation, a second attempt by the
    same affiliate for the same product is refused with the duplicate-link
    error ("You already have an affiliate link for this product."). *)
Theorem at_most_one_link_per_pair (py_float : string -> option Q) :
  (forall es a p,
     (List.length (links_of_pair a p (run py_float es empty_store)) <= 1)%nat)
  /\ (forall es s a p,
        links_ok s ->
        (List.length (links_of_pair a p (run py_float es s)) <= 1)%nat)
  /\ (forall fresh_code user rq s l,
        In l (links s) ->
        AffiliateLink.affiliate l = User.id user ->
        AffiliateLink.product l = lc_product rq ->
        exists msg,
          AffiliateLinkViewSet_create fresh_code user rq s
          = (ApiError msg 400, s))
  /\ (forall c1 c2 user rq rq2 s l s',
        AffiliateLinkViewSet_create c1 user rq s = (ApiData l 201, s') ->
        lc_product rq2 = lc_product rq ->
        AffiliateLinkViewSet_create c2 user rq2 s'
        = (ApiError "You already have an affiliate link for this product."
             400, s')).
Proof.
  repeat split.
  - intros es a p. apply links_ok_at_most_one, run_links_ok.
    split; constructor.
  - intros es s a p H. now apply links_ok_at_most_one, run_links_ok.
  - intros fresh_code user rq s l Hin Ha Hp.
    destruct (create_refused_when_link_exists fresh_code user rq s l Hin Ha Hp)
      as [msg [H _]].
    now exists msg.
  - intros c1 c2 user rq rq2 s l s' Hcreate Hsame.
    unfold AffiliateLinkViewSet_create in Hcreate.
    destruct (find _ (products s)) as [p|] eqn:Hfind; [|discriminate].
    destruct (Product.is_active p) eqn:Hact; simpl in Hcreate;
      [|discriminate].
    destruct (AffiliateLinkCreateSerializer_validate _ _ s); [discriminate|].
    destruct (negb (User.is_affiliate user)); [discriminate|].
    unfold AffiliateLink_objects_create, bind, get_store, put_store, ret, raise
      in Hcreate.
    destruct (violates_unique _ (links s)); [discriminate|].
    inversion Hcreate; subst l s'; clear Hcreate.
    match goal with
    | |- AffiliateLinkViewSet_create _ _ _ ?st = _ =>
        destruct (create_refused_when_link_exists c2 user rq2 st
                    (AffiliateLink.mk
                       (next_id (map AffiliateLink.id (links s))) c1
                       (User.id user) (lc_product rq) (lc_custom_slug rq)
                       (lc_landing_url rq) true (lc_expires_at rq)))
          as [msg [Hr Hmsg]]
    end.
    + simpl. apply in_or_app. right. now left.
    + reflexivity.
    + simpl. now symmetry.
    + rewrite Hr. f_equal. f_equal. apply (Hmsg p); [|assumption].
      simpl. now rewrite Hsame.
Qed.

Lemma at_most_one_link_per_pair_witness :
  AffiliateLinkViewSet_create Sample.unknown_code Sample.affiliate
    (mkLinkCreate 7 None None None) Sample.store
  = (ApiError "You already have an affiliate link for this product." 400,
     Sample.store).
Proof.
  apply (proj2 (proj2 (proj2 (at_most_one_link_per_pair Sample.py_float)))
           Sample.code Sample.unknown_code Sample.affiliate
           (mkLinkCreate 7 None None None) (mkLinkCreate 7 None None None)
           (mkStore [Sample.widget] [] [] []) Sample.link Sample.store).
  - reflexivity.
  - reflexivity.
Defined.

(** ** Product statistics *)

Lemma fold_left_Qplus (l : list Q) (a : Q) :
  fold_left Qplus l a == a + fold_right Qplus 0 l.
Proof.
  revert a. induction l as [|x l IH]; simpl; intros a.
  - ring.
  - rewrite IH. ring.
Qed.

Lemma Sum_or_0_Qsum (field : Product.t -> Q) (queryset : list Product.t) :
  Sum_or_0 field queryset == Qsum (map field queryset).
Proof.
  unfold Qsum. rewrite fold_left_Qplus.
  assert (E : fold_right Qplus 0 (map field queryset)
              = Sum_or_0 field queryset).
  { unfold Sum_or_0. induction queryset as [|p ps IH]; simpl; congruence. }
  rewrite E. ring.
Qed.

(** C8 is false as stated: for the merchant of the sample store, whose one
    product costs 50 at a commission rate of 10, the average commission
    rate of the statistics is 10, the mean of the rates, and not 50, the
    summed price divided by the product count. *)
Lemma average_commission_rate_is_not_a_price_average :
  let st := fst (ProductViewSet_stats [] 0 Sample.merchant Sample.store) in
  total_products st = 1%nat
  /\ average_commission_rate st == 10
  /\ ~ average_commission_rate st
       == Sum_or_0 Product.price
            (stats_queryset Sample.merchant Sample.store)
          / inject_Z (Z.of_nat (total_products st)).
Proof.
  repeat split.
  intros H. vm_compute in H. discriminate.
Qed.

(** C8, amended. The "average commission rate" of the product statistics
    divides the summed commission_rate of the user's products by their
    count: it is the explicit mean of commission_rate over them (and 0 when
    there are none). The aggregate that is a price sum is "average price":
    the summed price, not divided by the count. *)
Theorem stats_average_commission_rate_is_mean (cache : StatsCache)
        (now : Z) (user : User.t) (s : Store) :
  cache_get cache now (User.id user) = None ->
  let st := fst (ProductViewSet_stats cache now user s) in
  let queryset := stats_queryset user s in
  total_products st = List.length queryset
  /\ (queryset <> [] ->
      average_commission_rate st == mean (map Product.commission_rate queryset))
  /\ (queryset = [] -> average_commission_rate st == 0)
  /\ average_price st == Qsum (map Product.price queryset).
Proof.
  intros Hmiss st queryset. subst st.
  unfold ProductViewSet_stats. rewrite Hmiss. cbn [fst].
  unfold compute_stats. fold (stats_queryset user s). fold queryset.
  cbn [total_products average_commission_rate average_price].
  split; [reflexivity|]. split; [|split].
  - intros Hne. destruct queryset as [|p ps] eqn:E; [congruence|].
    rewrite <- E. assert (Hpos : (0 <? List.length queryset)%nat = true)
      by (rewrite E; reflexivity).
    rewrite Hpos. unfold mean. rewrite length_map.
    now rewrite Sum_or_0_Qsum.
  - intros ->. reflexivity.
  - apply Sum_or_0_Qsum.
Qed.

Lemma stats_average_commission_rate_is_mean_witness :
  average_commission_rate
    (fst (ProductViewSet_stats [] 0 Sample.merchant Sample.store))
  == mean [10].
Proof.
  apply (proj1 (proj2 (stats_average_commission_rate_is_mean [] 0
                         Sample.merchant Sample.store eq_refl))).
  discriminate.
Defined.

(** ** Listing conversions *)

Lemma insert_desc_perm (c : Conversion.t) (l : list Conversion.t) :
  Permutation (insert_desc c l) (c :: l).
Proof.
  induction l as [|x l IH]; simpl; [reflexivity|].
  destruct (Conversion.timestamp x <? Conversion.timestamp c)%Z;
    [reflexivity|].
  rewrite IH. apply perm_swap.
Qed.

Lemma order_by_timestamp_desc_perm (l : list Conversion.t) :
  Permutation (order_by_timestamp_desc l) l.
Proof.
  induction l as [|c l IH]; simpl; [reflexivity|].
  rewrite insert_desc_perm. now constructor.
Qed.

(** C10. For every authenticated user whose role is neither "affiliate" nor
    "merchant", is_affiliate and is_merchant are both false, so the
    conversions list applies no role-based filter: it is the full table,
    filtered by the query parameters alone and sorted, and without
    parameters it returns every conversion in the system, whoever owns
    it. *)
Theorem conversions_unfiltered_for_other_roles (user : User.t)
        (q : ConversionQuery) (s : Store) :
  User.role user <> "affiliate" ->
  User.role user <> "merchant" ->
  User.is_affiliate user = false
  /\ User.is_merchant user = false
  /\ ConversionViewSet_get_queryset user q s
     = order_by_timestamp_desc (apply_query q (conversions s))
  /\ Permutation (ConversionViewSet_get_queryset user no_query s)
       (conversions s)
  /\ (forall c, In c (conversions s) ->
                In c (ConversionViewSet_get_queryset user no_query s)).
Proof.
  intros Ha Hm.
  assert (Ea : User.is_affiliate user = false)
    by (now apply String.eqb_neq).
  assert (Em : User.is_merchant user = false)
    by (now apply String.eqb_neq).
  assert (Eq : forall q', ConversionViewSet_get_queryset user q' s
               = order_by_timestamp_desc (apply_query q' (conversions s))).
  { intros q'. unfold ConversionViewSet_get_queryset. now rewrite Ea, Em. }
  repeat split; try assumption.
  - apply Eq.
  - rewrite Eq. apply order_by_timestamp_desc_perm.
  - intros c Hin. rewrite Eq.
    apply (Permutation_in c (Permutation_sym
             (order_by_timestamp_desc_perm _))). exact Hin.
Qed.

Lemma conversions_unfiltered_for_other_roles_witness :
  ConversionViewSet_get_queryset Sample.staff no_query Sample.store_converted
  = [Sample.conversion]
  /\ ConversionViewSet_get_queryset
       (User.mk 9 "mallory" "affiliate" false) no_query Sample.store_converted
     = [].
Proof.
  split; [|reflexivity].
  rewrite (proj1 (proj2 (proj2 (conversions_unfiltered_for_other_roles
                                  Sample.staff no_query Sample.store_converted
                                  ltac:(discriminate) ltac:(discriminate))))).
  reflexivity.
Defined.

(** * Further properties of the views *)

(** ** The client address *)

Lemma before_comma_split (s : string) :
  exists rest,
    s = Py.before_comma s ++ rest
    /\ (rest = "" \/ exists r, rest = String ","%char r)
    /\ Py.str_in "," (Py.before_comma s) = false.
Proof.
  induction s as [|c s IH]; simpl.
  - exists "". repeat split; auto.
  - destruct (Ascii.eqb_spec c ","%char) as [->|Hc].
    + exists (String ","%char s). repeat split; eauto.
    + destruct IH as [rest [Hs [Hrest Hin]]]. exists rest.
      split; [simpl; now rewrite <- Hs|]. split; [assumption|].
      cbn [Py.str_in]. rewrite Hin, orb_false_r.
      cbn [prefix]. destruct (Ascii.ascii_dec ","%char c) as [E|E];
        [congruence|].
      reflexivity.
Qed.

(** The address of the visitor is the part of a non-empty X-Forwarded-For
    header before its first comma, whatever REMOTE_ADDR says: it has no comma
    and is not trimmed, and it is the empty string when the header starts
    with a comma. Without the header, or with an empty one, it is
    REMOTE_ADDR. *)
Theorem get_client_ip_forwarded_first (request : Request) :
  (forall xff,
     HTTP_X_FORWARDED_FOR request = Some xff -> xff <> "" ->
     exists ip rest,
       get_client_ip request = Some ip
       /\ xff = ip ++ rest
       /\ (rest = "" \/ exists r, rest = String ","%char r)
       /\ ~ Py.Contains "," ip)
  /\ (forall r,
        HTTP_X_FORWARDED_FOR request = Some (String ","%char r) ->
        get_client_ip request = Some "")
  /\ (HTTP_X_FORWARDED_FOR request = None
      \/ HTTP_X_FORWARDED_FOR request = Some "" ->
      get_client_ip request = REMOTE_ADDR request).
Proof.
  unfold get_client_ip. repeat split.
  - intros xff Hx Hne. rewrite Hx. simpl.
    destruct xff as [|c xff]; [congruence|]. cbn [Py.truthy option_map].
    destruct (before_comma_split (String c xff)) as [rest [Hs [Hrest Hin]]].
    exists (Py.before_comma (String c xff)), rest.
    repeat split; try assumption.
    now apply str_in_not_Contains.
  - intros r Hx. now rewrite Hx.
  - intros [Hx|Hx]; now rewrite Hx.
Qed.

Lemma get_client_ip_forwarded_first_witness :
  exists ip rest,
    get_client_ip
      (mkRequest (Some "198.51.100.7, 10.0.0.1") (Some "10.0.0.2") None None)
    = Some ip
    /\ "198.51.100.7, 10.0.0.1" = ip ++ rest
    /\ (rest = "" \/ exists r, rest = String ","%char r)
    /\ ~ Py.Contains "," ip.
Proof.
  apply (proj1 (get_client_ip_forwarded_first
                  (mkRequest (Some "198.51.100.7, 10.0.0.1")
                     (Some "10.0.0.2") None None))
           "198.51.100.7, 10.0.0.1" eq_refl).
  discriminate.
Defined.

(** ** The decision table of the device classification *)

Lemma existsb_str_in_iff (pats : list string) (s : string) :
  existsb (fun p => Py.str_in p s) pats = true <->
  exists p, In p pats /\ Py.Contains p s.
Proof.
  rewrite existsb_exists. split; intros [p [Hin Hp]]; exists p;
    (split; [assumption|]); now apply str_in_Contains.
Qed.

(** The classification is unknown exactly for an absent or empty
    user-agent. For a non-empty one it is tablet exactly when a tablet
    pattern occurs in its lower-cased form, mobile exactly when no tablet
    pattern and some mobile pattern occurs, and desktop exactly when no
    pattern occurs. *)
Theorem detect_device_type_table (o : option string) :
  (detect_device_type o = unknown <-> o = None \/ o = Some "")
  /\ (forall ua, o = Some ua -> ua <> "" ->
        let hit pats := exists p, In p pats /\ Py.Contains p (Py.lower ua) in
        (detect_device_type o = tablet <-> hit tablet_patterns)
        /\ (detect_device_type o = mobile <->
            ~ hit tablet_patterns /\ hit mobile_patterns)
        /\ (detect_device_type o = desktop <->
            ~ hit tablet_patterns /\ ~ hit mobile_patterns)).
Proof.
  assert (Hcases : forall ua, ua <> "" ->
            detect_device_type (Some ua)
            = if existsb (fun p => Py.str_in p (Py.lower ua)) tablet_patterns
              then tablet
              else if existsb (fun p => Py.str_in p (Py.lower ua))
                        mobile_patterns
              then mobile else desktop).
  { intros ua Hne. unfold detect_device_type. destruct ua; [congruence|].
    reflexivity. }
  split.
  - split.
    + destruct o as [ua|]; [|now left]. intros H. right.
      destruct ua as [|c ua]; [reflexivity|]. exfalso.
      rewrite Hcases in H by discriminate.
      destruct (existsb _ tablet_patterns); [discriminate|].
      destruct (existsb _ mobile_patterns); discriminate.
    + intros [->| ->]; reflexivity.
  - intros ua -> Hne hit. subst hit. rewrite (Hcases ua Hne).
    rewrite <- !existsb_str_in_iff.
    destruct (existsb _ tablet_patterns), (existsb _ mobile_patterns);
      repeat split; intros; try discriminate; try tauto;
      try (intros E; discriminate);
      match goal with
      | H : _ /\ _ |- _ => destruct H; congruence
      end.
Qed.

Lemma detect_device_type_table_witness :
  detect_device_type (Some "Mozilla/5.0 (X11; Linux x86_64) Firefox/120.0")
  = desktop.
Proof.
  apply (proj2 (proj2 (proj2 (detect_device_type_table
           (Some "Mozilla/5.0 (X11; Linux x86_64) Firefox/120.0"))
           "Mozilla/5.0 (X11; Linux x86_64) Firefox/120.0" eq_refl
           ltac:(discriminate)))).
  split; intros H; apply existsb_str_in_iff in H; vm_compute in H;
    discriminate.
Defined.

(** ** The cases of the click view *)

Lemma redirect_url_of_cases (l : AffiliateLink.t) (s : Store) :
  (exists url, redirect_url_of l s = (Ok url, s))
  \/ redirect_url_of l s = (Raise Product_DoesNotExist, s).
Proof.
  unfold redirect_url_of, link_product, bind, get_store, ret, raise.
  destruct (AffiliateLink.landing_url l) as [u|];
    [destruct (Py.truthy u); [left; eauto|]|];
    (destruct (find _ (products s)) as [p|]; [|now right]);
    destruct (Py.truthy_opt (Product.external_url p)); left; eauto.
Qed.

Lemma track_click_cases (redirect : string -> redirect_outcome)
     (now : Z) (fault : option string) (request : Request)
      (code : string) (s : Store) :
  track_click_case redirect now fault request code s
    (track_click redirect now fault request code s).
Proof.
  unfold track_click, track_click_try, bind.
  unfold get_object_or_404 at 1. unfold AffiliateLink_get, bind, get_store.
  destruct (filter _ (links s)) as [|l [|l' ls]] eqn:Hrows.
  - apply case_unresolved. intros l. rewrite Hrows. discriminate.
  - cbn [raise ret]. destruct (has_expired now l) eqn:Hexp.
    + now apply (case_expired _ _ _ _ _ _ l).
    + unfold Click_objects_create. destruct fault as [msg|].
      * now apply (case_fault _ _ _ _ _ _ l msg).
      * unfold bind, get_store, put_store, ret.
        fold (or_else (HTTP_USER_AGENT request) "").
        fold (or_else (HTTP_REFERER request) "").
        fold (click_of_request now request l s).
        destruct (redirect_url_of_cases l
                    (set_clicks
                       (clicks s ++ [click_of_request now request l s])%list s))
          as [[url Hu] | Hu]; rewrite Hu.
        -- destruct (redirect url) as [location|msg].
           ++ now apply (case_redirect _ _ _ _ _ _ l location).
           ++ now apply (case_raises_after_click _ _ _ _ _ _ l msg).
        -- now apply (case_raises_after_click _ _ _ _ _ _ l
                        "Product matching query does not exist.").
  - apply case_unresolved. intros l0. rewrite Hrows. discriminate.
Qed.

(** The click view answers 302, 410 or 500 and nothing else: the 404 of
    its handler for [AffiliateLink.DoesNotExist] is never returned, whatever
    the request, the code and the store. *)
Theorem track_click_never_404 (redirect : string -> redirect_outcome)
     (now : Z) (fault : option string)
        (request : Request) (code : string) (s : Store) :
  let st := status_code (fst (track_click redirect now fault request code s)) in
  (st = 302 \/ st = 410 \/ st = 500)%nat /\ st <> 404%nat.
Proof.
  destruct (track_click_cases redirect now fault request code s); cbn;
    (split; [tauto | discriminate]).
Qed.

(** The expiry test is strict: while the current time has not passed
    expires_at (the instant expires_at included), and for a link with no
    expires_at, the click view never answers 410. *)
Theorem track_click_valid_until_deadline (redirect : string -> redirect_outcome)
     (now : Z) (fault : option string)
        (request : Request) (code : string) (s : Store) :
  (forall l t,
     In l (links s) -> AffiliateLink.code l = code ->
     AffiliateLink.is_active l = true ->
     AffiliateLink.expires_at l = Some t -> (now <= t)%Z) ->
  status_code (fst (track_click redirect now fault request code s)) <> 410%nat.
Proof.
  intros Hdeadline.
  destruct (track_click_cases redirect now fault request code s)
    as [body Hno | l Hrows Hexp | l msg Hrows Hexp Hf | l url Hrows Hexp Hf
        | l Hrows Hexp Hf]; cbn; try discriminate.
  exfalso.
  assert (Hin : In l (filter (fun x => String.eqb (AffiliateLink.code x) code
                                       && AffiliateLink.is_active x) (links s)))
    by (rewrite Hrows; now left).
  apply filter_In in Hin. destruct Hin as [Hin Hl].
  apply andb_true_iff in Hl. destruct Hl as [Hcode Hact].
  apply String.eqb_eq in Hcode.
  unfold has_expired in Hexp.
  destruct (AffiliateLink.expires_at l) as [t|] eqn:Ht; [|discriminate].
  apply Z.ltb_lt in Hexp.
  specialize (Hdeadline l t Hin Hcode Hact Ht). lia.
Qed.

Lemma track_click_valid_until_deadline_witness :
  status_code
    (fst (track_click Sample.redirect 100 None Sample.request Sample.code
            Sample.store_expired)) <> 410%nat.
Proof.
  apply (track_click_valid_until_deadline Sample.redirect 100 None Sample.request Sample.code
           Sample.store_expired).
  intros l t [<-|[]] _ _ Ht. simpl in Ht. inversion Ht. lia.
Defined.

(** Every redirect goes with exactly one new Click: it is appended to the
    stored clicks, belongs to an active link that carries the code, and holds
    the request's address, user-agent, referrer, the device type
    [detect_device_type] gives that user-agent, and the current time. A 410
    answer, and any answer to a request whose insert fails, leaves the store
    as it was. *)
Theorem track_click_redirect_records_click (redirect : string -> redirect_outcome)
     (now : Z) (fault : option string)
        (request : Request) (code : string) (s : Store) :
  let r := track_click redirect now fault request code s in
  (forall url,
     fst r = HttpResponseRedirect url ->
     exists l c,
       In l (links s) /\ AffiliateLink.code l = code
       /\ AffiliateLink.is_active l = true
       /\ clicks (snd r) = (clicks s ++ [c])%list
       /\ Click.affiliate_link c = AffiliateLink.id l
       /\ Click.ip_address c = get_client_ip request
       /\ Click.user_agent c = or_else (HTTP_USER_AGENT request) ""
       /\ Click.referrer c = or_else (HTTP_REFERER request) ""
       /\ Click.device_type c = detect_device_type (Some (Click.user_agent c))
       /\ Click.timestamp c = now)
  /\ (status_code (fst r) = 410%nat -> snd r = s)
  /\ (fault <> None -> snd r = s).
Proof.
  destruct (track_click_cases redirect now fault request code s)
    as [body Hno | l Hrows Hexp | l msg Hrows Hexp Hf | l url Hrows Hexp Hf
        | l Hrows Hexp Hf]; cbn [fst snd];
    (split; [|split]); try discriminate; try reflexivity;
    try (intros; congruence); try (cbn; discriminate).
  intros url' _.
  assert (Hin : In l (filter (fun x => String.eqb (AffiliateLink.code x) code
                                       && AffiliateLink.is_active x) (links s)))
    by (rewrite Hrows; now left).
  apply filter_In in Hin. destruct Hin as [Hin Hl].
  apply andb_true_iff in Hl. destruct Hl as [Hcode Hact].
  apply String.eqb_eq in Hcode.
  exists l, (click_of_request now request l s). repeat split; assumption.
Qed.

Lemma track_click_redirect_records_click_witness :
  exists l c,
    In l (links Sample.store) /\ AffiliateLink.code l = Sample.code
    /\ AffiliateLink.is_active l = true
    /\ clicks (snd (track_click Sample.redirect 0 None Sample.request Sample.code
                      Sample.store)) = (clicks Sample.store ++ [c])%list
    /\ Click.affiliate_link c = AffiliateLink.id l
    /\ Click.ip_address c = get_client_ip Sample.request
    /\ Click.user_agent c = or_else (HTTP_USER_AGENT Sample.request) ""
    /\ Click.referrer c = or_else (HTTP_REFERER Sample.request) ""
    /\ Click.device_type c = detect_device_type (Some (Click.user_agent c))
    /\ Click.timestamp c = 0%Z.
Proof.
  apply (proj1 (track_click_redirect_records_click Sample.redirect 0 None Sample.request
                  Sample.code Sample.store)
           "https://shop.example/widget").
  reflexivity.
Defined.

(** ** The cases of the conversion view *)

Lemma get_object_or_404_raises (code : string) (s s' : Store) (e : exn) :
  get_object_or_404 code s = (Raise e, s') ->
  e <> AffiliateLink_DoesNotExist /\ s' = s.
Proof.
  unfold get_object_or_404, AffiliateLink_get, bind, get_store, raise, ret.
  destruct (filter _ (links s)) as [|l [|l' ls]]; intros H; inversion H;
    split; congruence.
Qed.

Lemma get_object_or_404_returns (code : string) (s s' : Store)
      (l : AffiliateLink.t) :
  get_object_or_404 code s = (Ok l, s') ->
  s' = s /\ In l (links s) /\ AffiliateLink.code l = code
  /\ AffiliateLink.is_active l = true.
Proof.
  unfold get_object_or_404, AffiliateLink_get, bind, get_store, raise, ret.
  destruct (filter _ (links s)) as [|l0 [|l' ls]] eqn:Hrows; intros H;
    inversion H; subst l0; clear H.
  split; [congruence|].
  assert (Hin : In l (filter (fun x => String.eqb (AffiliateLink.code x) code
                                       && AffiliateLink.is_active x) (links s)))
    by (rewrite Hrows; now left).
  apply filter_In in Hin. destruct Hin as [Hin Hl].
  apply andb_true_iff in Hl. destruct Hl as [Hcode Hact].
  apply String.eqb_eq in Hcode. subst s'. repeat split; assumption.
Qed.

Lemma link_product_raises (l : AffiliateLink.t) (s s' : Store) (e : exn) :
  link_product l s = (Raise e, s') -> e = Product_DoesNotExist /\ s' = s.
Proof.
  unfold link_product, bind, get_store, raise, ret.
  destruct (find _ (products s)); intros H; inversion H; auto.
Qed.

Lemma link_product_returns (l : AffiliateLink.t) (s s' : Store)
      (p : Product.t) :
  link_product l s = (Ok p, s') ->
  s' = s
  /\ find (fun x => Nat.eqb (Product.id x) (AffiliateLink.product l))
          (products s) = Some p.
Proof.
  unfold link_product, bind, get_store, raise, ret.
  destruct (find _ (products s)); intros H; inversion H; auto.
Qed.

Lemma jval_float_raises (py_float : string -> option Q) (v : jval) (s s' : Store) (e : exn) :
  jval_float py_float v s = (Raise e, s') ->
  e <> AffiliateLink_DoesNotExist /\ s' = s.
Proof.
  unfold jval_float, raise, ret. destruct v as [|b|q|t];
    try destruct (py_float t); intros H; inversion H; split; congruence.
Qed.

Lemma Conversion_objects_create_raises (now : Z) (fault : option string)
      (l : AffiliateLink.t) (a : Q) (order_id notes : jval) (s s' : Store)
      (e : exn) :
  Conversion_objects_create now fault l a order_id notes s = (Raise e, s') ->
  e <> AffiliateLink_DoesNotExist /\ s' = s.
Proof.
  unfold Conversion_objects_create, bind.
  destruct (link_product l s) as [[p|e0] s1] eqn:Hp.
  - apply link_product_returns in Hp. destruct Hp as [-> _].
    destruct fault; unfold raise, get_store, put_store, ret; intros H;
      inversion H; split; congruence.
  - apply link_product_raises in Hp. destruct Hp as [-> ->].
    intros H; inversion H; split; congruence.
Qed.

Lemma record_conversion_except_500 (e : exn) (s : Store) :
  e <> AffiliateLink_DoesNotExist ->
  match e with
  | AffiliateLink_DoesNotExist =>
      (@ApiError Conversion.t "Invalid affiliate link" 404, s)
  | _ => (ApiError ("Error recording conversion: " ++ exn_str e) 500, s)
  end = (ApiError ("Error recording conversion: " ++ exn_str e) 500, s).
Proof. destruct e; congruence. Qed.

(** The conversion view answers 201, 400, 403 or 500 and nothing else: as
    in the click view, the 404 of the handler for
    [AffiliateLink.DoesNotExist] is never returned, and a code that no active
    link carries is answered 500 with nothing stored. *)
Theorem record_conversion_never_404 (py_float : string -> option Q)
        (now : Z) (fault : option string)
        (user : User.t) (data : dict) (code : string) (s : Store) :
  let r := record_conversion py_float now fault user data code s in
  ((api_status (fst r) = 201 \/ api_status (fst r) = 400
    \/ api_status (fst r) = 403 \/ api_status (fst r) = 500)%nat
   /\ api_status (fst r) <> 404%nat)
  /\ ((forall l, In l (links s) -> AffiliateLink.code l = code ->
                 AffiliateLink.is_active l = false) ->
      r = (ApiError
             "Error recording conversion: No AffiliateLink matches the given query."
             500, s)).
Proof.
  cbv zeta. split.
  - assert (H : let st := api_status
                    (fst (record_conversion py_float now fault user data
                            code s)) in
                (st = 201 \/ st = 400 \/ st = 403 \/ st = 500)%nat);
      [|cbv zeta in H; split; [exact H | intros E; rewrite E in H;
          destruct H as [H|[H|[H|H]]]; discriminate]].
    cbv zeta. unfold record_conversion, record_conversion_try, bind.
    destruct (get_object_or_404 code s) as [[l|e] s1] eqn:E1.
    + destruct (link_product l s1) as [[p|e] s2] eqn:E2.
      * destruct (_ && _); [cbn; tauto|].
        destruct (jval_not _); [cbn; tauto|].
        destruct (jval_float _ _ s2) as [[a|e] s3] eqn:E3.
        -- destruct (Qle_bool a 0); [cbn; tauto|].
           destruct (Conversion_objects_create _ _ _ _ _ _ s3)
             as [[c|e] s4] eqn:E4; [cbn; tauto|].
           apply Conversion_objects_create_raises in E4.
           rewrite record_conversion_except_500 by apply E4. cbn; tauto.
        -- apply jval_float_raises in E3.
           rewrite record_conversion_except_500 by apply E3. cbn; tauto.
      * apply link_product_raises in E2. destruct E2 as [-> _]. cbn; tauto.
    + apply get_object_or_404_raises in E1.
      rewrite record_conversion_except_500 by apply E1. cbn; tauto.
  - intros Hinactive. unfold record_conversion, record_conversion_try, bind.
    rewrite (get_object_or_404_missing s code); [reflexivity|].
    apply filter_none. intros x Hx.
    destruct (String.eqb_spec (AffiliateLink.code x) code) as [E|E];
      [|reflexivity].
    now rewrite (Hinactive x Hx E).
Qed.

Lemma record_conversion_never_404_witness :
  record_conversion Sample.py_float 0 None Sample.merchant [("amount", JNum 50)]
    Sample.code Sample.store_inactive
  = (ApiError
       "Error recording conversion: No AffiliateLink matches the given query."
       500, Sample.store_inactive).
Proof.
  apply (proj2 (record_conversion_never_404 Sample.py_float 0 None Sample.merchant
                  [("amount", JNum 50)] Sample.code Sample.store_inactive)).
  intros l [<-|[]] _. reflexivity.
Defined.

(** Only the merchant who owns the link's product, or a superuser, records
    a conversion: anybody else is answered 403 and nothing is stored,
    whatever the body holds; the owner test comes before the test of the
    amount. *)
Theorem record_conversion_forbidden (py_float : string -> option Q)
        (now : Z) (fault : option string)
        (user : User.t) (data : dict) (s : Store) (l : AffiliateLink.t)
        (p : Product.t) :
  NoDup (map AffiliateLink.code (links s)) ->
  In l (links s) ->
  AffiliateLink.is_active l = true ->
  find (fun x => Nat.eqb (Product.id x) (AffiliateLink.product l)) (products s)
  = Some p ->
  User.id user <> Product.merchant p ->
  User.is_superuser user = false ->
  record_conversion py_float now fault user data (AffiliateLink.code l) s
  = (ApiError "Only the product merchant can record conversions" 403, s).
Proof.
  intros Hnd Hin Hact Hp Hother Hsu.
  pose proof (active_rows_of_code s l Hnd Hin) as Hrows. rewrite Hact in Hrows.
  unfold record_conversion, record_conversion_try, bind.
  rewrite (get_object_or_404_found _ _ _ Hrows).
  rewrite (link_product_found _ _ _ Hp).
  unfold User.neq. rewrite Hsu.
  apply Nat.eqb_neq in Hother. now rewrite Hother.
Qed.

Lemma record_conversion_forbidden_witness :
  record_conversion Sample.py_float 0 None Sample.affiliate [("amount", JNum 50)]
    Sample.code Sample.store
  = (ApiError "Only the product merchant can record conversions" 403,
     Sample.store).
Proof.
  apply (record_conversion_forbidden Sample.py_float 0 None Sample.affiliate
           [("amount", JNum 50)] Sample.store Sample.link Sample.widget).
  - simpl. constructor; [intros [] | constructor].
  - simpl. left. reflexivity.
  - reflexivity.
  - reflexivity.
  - simpl. lia.
  - reflexivity.
Defined.



(** ** The lists of conversions and clicks *)

Lemma In_filter_opt {A B} (o : option B) (f : B -> A -> bool) (l : list A)
      (c : A) :
  In c (match o with Some b => filter (f b) l | None => l end) <->
  In c l /\ (forall b, o = Some b -> f b c = true).
Proof.
  destruct o as [b|].
  - rewrite filter_In. split.
    + intros [H1 H2]. split; [assumption|]. intros b' E.
      inversion E; subst. assumption.
    + intros [H1 H2]. auto.
  - split; [intros H; split; [assumption | discriminate] | tauto].
Qed.

Lemma apply_query_In (q : ConversionQuery) (qs : list Conversion.t)
      (c : Conversion.t) :
  In c (apply_query q qs) <->
  In c qs
  /\ (forall pk, q_affiliate_link q = Some pk ->
                 Conversion.affiliate_link c = pk)
  /\ (forall v, q_verified q = Some v ->
                Conversion.verified c = String.eqb (Py.lower v) "true")
  /\ (forall d, q_start_date q = Some d -> (d <= Conversion.timestamp c)%Z)
  /\ (forall d, q_end_date q = Some d -> (Conversion.timestamp c <= d)%Z).
Proof.
  unfold apply_query. cbv zeta.
  rewrite (In_filter_opt (q_end_date q)
             (fun d c => (Conversion.timestamp c <=? d)%Z)).
  rewrite (In_filter_opt (q_start_date q)
             (fun d c => (d <=? Conversion.timestamp c)%Z)).
  rewrite (In_filter_opt (q_verified q)
             (fun v c => Bool.eqb (Conversion.verified c)
                           (String.eqb (Py.lower v) "true"))).
  rewrite (In_filter_opt (q_affiliate_link q)
             (fun pk c => Nat.eqb (Conversion.affiliate_link c) pk)).
  split.
  - intros ((((H0 & H1) & H2) & H3) & H4). repeat split; try assumption.
    + intros pk E. apply Nat.eqb_eq. now apply H1.
    + intros v E. apply Bool.eqb_true_iff. now apply H2.
    + intros d E. apply Z.leb_le. now apply H3.
    + intros d E. apply Z.leb_le. now apply H4.
  - intros (H0 & H1 & H2 & H3 & H4). repeat split; try assumption.
    + intros pk E. apply Nat.eqb_eq. now apply H1.
    + intros v E. apply Bool.eqb_true_iff. now apply H2.
    + intros d E. apply Z.leb_le. now apply H3.
    + intros d E. apply Z.leb_le. now apply H4.
Qed.

Lemma order_by_timestamp_desc_In (l : list Conversion.t) (c : Conversion.t) :
  In c (order_by_timestamp_desc l) <-> In c l.
Proof.
  split; apply Permutation_in;
    [|apply Permutation_sym]; apply order_by_timestamp_desc_perm.
Qed.

(** The conversions list is scoped by role: every conversion an affiliate
    gets is stored and belongs to one of their own links; every conversion a
    merchant gets belongs to a link on one of their own products. *)
Theorem conversions_list_scoped (user : User.t) (q : ConversionQuery)
        (s : Store) (c : Conversion.t) :
  In c (ConversionViewSet_get_queryset user q s) ->
  In c (conversions s)
  /\ (User.is_affiliate user = true ->
      exists l, In l (links s)
                /\ AffiliateLink.id l = Conversion.affiliate_link c
                /\ AffiliateLink.affiliate l = User.id user)
  /\ (User.is_merchant user = true ->
      exists l p, In l (links s) /\ In p (products s)
                  /\ AffiliateLink.id l = Conversion.affiliate_link c
                  /\ Product.id p = AffiliateLink.product l
                  /\ Product.merchant p = User.id user).
Proof.
  unfold ConversionViewSet_get_queryset. rewrite order_by_timestamp_desc_In.
  rewrite apply_query_In. intros [Hin _].
  destruct (User.is_affiliate user) eqn:Ea.
  - assert (Em : User.is_merchant user = false).
    { unfold User.is_affiliate, User.is_merchant in *.
      apply String.eqb_eq in Ea. rewrite Ea. reflexivity. }
    apply filter_In in Hin. destruct Hin as [Hin Hown].
    split; [assumption|]. split; [|congruence]. intros _.
    unfold conversion_of_affiliate in Hown.
    destruct (find _ (links s)) as [l|] eqn:Hl; [|discriminate].
    apply find_some in Hl. destruct Hl as [Hl Hid].
    exists l. repeat split; [assumption | | ]; now apply Nat.eqb_eq.
  - destruct (User.is_merchant user) eqn:Em.
    + apply filter_In in Hin. destruct Hin as [Hin Hown].
      split; [assumption|]. split; [discriminate|]. intros _.
      unfold conversion_of_merchant in Hown.
      destruct (find _ (links s)) as [l|] eqn:Hl; [|discriminate].
      destruct (find _ (products s)) as [p|] eqn:Hp; [|discriminate].
      apply find_some in Hl. destruct Hl as [Hl Hid].
      apply find_some in Hp. destruct Hp as [Hp Hpid].
      exists l, p. repeat split; try assumption; now apply Nat.eqb_eq.
    + split; [assumption|]. split; discriminate.
Qed.

Lemma conversions_list_scoped_witness :
  In Sample.conversion (conversions Sample.store_converted)
  /\ exists l, In l (links Sample.store_converted)
               /\ AffiliateLink.id l
                  = Conversion.affiliate_link Sample.conversion
               /\ AffiliateLink.affiliate l = User.id Sample.affiliate.
Proof.
  destruct (conversions_list_scoped Sample.affiliate no_query
              Sample.store_converted Sample.conversion
              ltac:(simpl; left; reflexivity)) as [H1 [H2 _]].
  split; [exact H1 | exact (H2 eq_refl)].
Defined.

(** For a caller whose list is not scoped by role, the conversions list
    returns exactly the stored conversions that pass every filter of the
    query string. The verified parameter is compared, lower-cased, with
    "true": any other text, "1" or "yes" included, selects the unverified
    conversions. *)
Theorem conversions_list_filters (user : User.t) (q : ConversionQuery)
        (s : Store) (c : Conversion.t) :
  User.is_affiliate user = false ->
  User.is_merchant user = false ->
  (In c (ConversionViewSet_get_queryset user q s) <->
   In c (conversions s)
   /\ (forall pk, q_affiliate_link q = Some pk ->
                  Conversion.affiliate_link c = pk)
   /\ (forall v, q_verified q = Some v ->
                 Conversion.verified c = String.eqb (Py.lower v) "true")
   /\ (forall d, q_start_date q = Some d -> (d <= Conversion.timestamp c)%Z)
   /\ (forall d, q_end_date q = Some d -> (Conversion.timestamp c <= d)%Z))
  /\ (forall v, q_verified q = Some v -> Py.lower v <> "true" ->
      In c (ConversionViewSet_get_queryset user q s) ->
      Conversion.verified c = false).
Proof.
  intros Ea Em.
  assert (Hiff : In c (ConversionViewSet_get_queryset user q s) <->
                 In c (apply_query q (conversions s))).
  { unfold ConversionViewSet_get_queryset. rewrite Ea, Em.
    apply order_by_timestamp_desc_In. }
  rewrite apply_query_In in Hiff. split; [exact Hiff|].
  intros v Hv Hne Hin. apply Hiff in Hin.
  destruct Hin as (_ & _ & Hver & _). rewrite (Hver v Hv).
  now apply String.eqb_neq.
Qed.

Lemma conversions_list_filters_witness :
  In Sample.conversion
     (ConversionViewSet_get_queryset Sample.staff
        (mkConversionQuery None (Some "1") None None) Sample.store_converted)
  /\ Conversion.verified Sample.conversion = false.
Proof.
  pose (q := mkConversionQuery None (Some "1") None None).
  destruct (conversions_list_filters Sample.staff q Sample.store_converted
              Sample.conversion eq_refl eq_refl) as [H1 H2].
  assert (Hin : In Sample.conversion
                   (ConversionViewSet_get_queryset Sample.staff q
                      Sample.store_converted)).
  { apply H1. split; [simpl; left; reflexivity|].
    repeat split; intros ? E; inversion E; subst; reflexivity. }
  split; [exact Hin|].
  apply (H2 "1" eq_refl ltac:(discriminate) Hin).
Defined.

Lemma insert_desc_HdRel (x c : Conversion.t) (l : list Conversion.t) :
  latest_first x c -> HdRel latest_first x l ->
  HdRel latest_first x (insert_desc c l).
Proof.
  intros Hxc Hx. destruct l as [|y l]; simpl; [now constructor|].
  destruct (Conversion.timestamp y <? Conversion.timestamp c)%Z;
    constructor; [assumption | now inversion Hx].
Qed.

Lemma insert_desc_Sorted (c : Conversion.t) (l : list Conversion.t) :
  Sorted latest_first l -> Sorted latest_first (insert_desc c l).
Proof.
  induction l as [|x l IH]; simpl; intros Hs; [repeat constructor|].
  inversion Hs as [|? ? Hs' Hhd]; subst.
  destruct (Conversion.timestamp x <? Conversion.timestamp c)%Z eqn:E.
  - constructor; [assumption|]. constructor. unfold latest_first.
    apply Z.ltb_lt in E. lia.
  - constructor; [now apply IH|]. apply insert_desc_HdRel; [|assumption].
    unfold latest_first. apply Z.ltb_ge in E. exact E.
Qed.

(** The conversions list comes latest first: whatever the caller and the
    filters, no conversion is followed by a more recent one. *)
Theorem conversions_list_latest_first (user : User.t) (q : ConversionQuery)
        (s : Store) :
  StronglySorted latest_first (ConversionViewSet_get_queryset user q s).
Proof.
  apply Sorted_StronglySorted.
  - intros a b c Hab Hbc. unfold latest_first in *. lia.
  - unfold ConversionViewSet_get_queryset.
    induction (apply_query q _) as [|c l IH]; simpl; [constructor|].
    now apply insert_desc_Sorted.
Qed.

Lemma insert_before_perm {A} (before : A -> A -> bool) (c : A) (l : list A) :
  Permutation (insert_before before c l) (c :: l).
Proof.
  induction l as [|x l IH]; simpl; [reflexivity|].
  destruct (before c x); [reflexivity|].
  rewrite IH. apply perm_swap.
Qed.

Lemma order_by_perm {A} (before : A -> A -> bool) (l : list A) :
  Permutation (order_by before l) l.
Proof.
  induction l as [|c l IH]; simpl; [reflexivity|].
  rewrite insert_before_perm. now constructor.
Qed.

Lemma order_by_In {A} (before : A -> A -> bool) (l : list A) (c : A) :
  In c (order_by before l) <-> In c l.
Proof.
  split; apply Permutation_in; [|apply Permutation_sym]; apply order_by_perm.
Qed.

(** The clicks list is scoped for affiliates only: every click an affiliate
    gets is on one of their own links, while any other caller, a merchant
    included, gets every click in the system when the query string has no
    filter. *)
Theorem clicks_list_scope (user : User.t) (q : ClickQuery) (s : Store) :
  (forall c, In c (ClickViewSet_get_queryset user q s) -> In c (clicks s))
  /\ (User.is_affiliate user = true ->
      forall c, In c (ClickViewSet_get_queryset user q s) ->
      exists l, In l (links s)
                /\ AffiliateLink.id l = Click.affiliate_link c
                /\ AffiliateLink.affiliate l = User.id user)
  /\ (User.is_affiliate user = false ->
      Permutation (ClickViewSet_get_queryset user no_click_query s)
                  (clicks s)).
Proof.
  assert (Hsub : forall c, In c (ClickViewSet_get_queryset user q s) ->
            In c (if User.is_affiliate user
                  then filter (click_of_affiliate s (User.id user)) (clicks s)
                  else clicks s)).
  { intros c. unfold ClickViewSet_get_queryset. rewrite order_by_In.
    destruct (cq_affiliate_link q), (cq_start_date q), (cq_end_date q);
      rewrite ?filter_In; tauto. }
  split; [|split].
  - intros c Hc. apply Hsub in Hc.
    destruct (User.is_affiliate user); [|assumption].
    now apply filter_In in Hc.
  - intros Ea c Hc. apply Hsub in Hc. rewrite Ea in Hc.
    apply filter_In in Hc. destruct Hc as [_ Hown].
    unfold click_of_affiliate in Hown.
    destruct (find _ (links s)) as [l|] eqn:Hl; [|discriminate].
    apply find_some in Hl. destruct Hl as [Hl Hid].
    exists l. repeat split; [assumption | | ]; now apply Nat.eqb_eq.
  - intros Ea. unfold ClickViewSet_get_queryset. rewrite Ea. simpl.
    apply order_by_perm.
Qed.

Lemma clicks_list_scope_witness :
  Permutation
    (ClickViewSet_get_queryset Sample.merchant no_click_query
       (snd (track_click Sample.redirect 0 None Sample.request Sample.code Sample.store)))
    (clicks (snd (track_click Sample.redirect 0 None Sample.request Sample.code
                    Sample.store))).
Proof.
  apply (proj2 (proj2 (clicks_list_scope Sample.merchant no_click_query
                         (snd (track_click Sample.redirect 0 None Sample.request Sample.code
                                 Sample.store))))).
  reflexivity.
Defined.

(** ** Creating, editing and deleting links *)

Lemma violates_unique_fresh_code (l : AffiliateLink.t)
      (ls : list AffiliateLink.t) :
  violates_unique l ls = false ->
  ~ In (AffiliateLink.id l) (map AffiliateLink.id ls) ->
  forall x, In x ls -> AffiliateLink.code x <> AffiliateLink.code l.
Proof.
  unfold violates_unique. intros Hv Hnew x Hx Hcode.
  assert (E : existsb
                (fun x0 =>
                   negb (Nat.eqb (AffiliateLink.id x0) (AffiliateLink.id l))
                   && (String.eqb (AffiliateLink.code x0)
                                  (AffiliateLink.code l)
                       || same_pair (AffiliateLink.affiliate l)
                            (AffiliateLink.product l) x0)) ls = true);
    [|congruence].
  apply existsb_exists. exists x. split; [assumption|].
  apply andb_true_iff. split.
  - apply negb_true_iff, Nat.eqb_neq. intros E. apply Hnew.
    rewrite <- E. now apply in_map.
  - apply orb_true_iff. left. now apply String.eqb_eq.
Qed.

(** A link is created only for an affiliate, on an active product of the
    catalog for which the affiliate has no link yet, and under a code no
    stored link carries; the new link is appended, active, owned by the
    caller, on the requested product, with a fresh primary key, and nothing
    else changes. *)
Theorem link_creation_requirements (fresh_code : string) (user : User.t)
        (rq : LinkCreate) (s s' : Store) (l : AffiliateLink.t) (st : nat) :
  AffiliateLinkViewSet_create fresh_code user rq s = (ApiData l st, s') ->
  st = 201%nat
  /\ User.is_affiliate user = true
  /\ (exists p, In p (products s) /\ Product.id p = lc_product rq
                /\ Product.is_active p = true)
  /\ (forall x, In x (links s) ->
                ~ (AffiliateLink.affiliate x = User.id user
                   /\ AffiliateLink.product x = lc_product rq))
  /\ (forall x, In x (links s) -> AffiliateLink.code x <> fresh_code)
  /\ s' = set_links (links s ++ [l])%list s
  /\ l = AffiliateLink.mk (next_id (map AffiliateLink.id (links s)))
           fresh_code (User.id user) (lc_product rq) (lc_custom_slug rq)
           (lc_landing_url rq) true (lc_expires_at rq)
  /\ ~ In (AffiliateLink.id l) (map AffiliateLink.id (links s)).
Proof.
  unfold AffiliateLinkViewSet_create.
  destruct (find _ (products s)) as [p|] eqn:Hfind; [|discriminate].
  destruct (Product.is_active p) eqn:Hact; simpl; [|discriminate].
  unfold AffiliateLinkCreateSerializer_validate.
  destruct (existsb _ (links s)) eqn:Hdup; [discriminate|].
  destruct (User.is_affiliate user) eqn:Ha; simpl; [|discriminate].
  unfold AffiliateLink_objects_create, bind, get_store, put_store, ret, raise.
  destruct (violates_unique _ (links s)) eqn:Hv; [discriminate|].
  intros H. inversion H; subst; clear H.
  apply find_some in Hfind. destruct Hfind as [Hp Hid].
  apply Nat.eqb_eq in Hid.
  split; [reflexivity|]. split; [reflexivity|].
  split; [exists p; auto|]. split; [|split; [|split; [|split]]].
  - intros x Hx [Hxa Hxp]. apply (proj1 (existsb_same_pair _ _ _) Hdup).
    apply in_map_iff. exists x. split; [|assumption].
    unfold link_pair. congruence.
  - intros x Hx.
    apply (violates_unique_fresh_code _ _ Hv
             (next_id_fresh (map AffiliateLink.id (links s))) x Hx).
  - reflexivity.
  - reflexivity.
  - apply next_id_fresh.
Qed.

Lemma link_creation_requirements_witness :
  User.is_affiliate Sample.affiliate = true
  /\ Sample.store
     = set_links (links (mkStore [Sample.widget] [] [] []) ++ [Sample.link])%list
         (mkStore [Sample.widget] [] [] []).
Proof.
  destruct (link_creation_requirements Sample.code Sample.affiliate
              (mkLinkCreate 7 None None None)
              (mkStore [Sample.widget] [] [] []) Sample.store Sample.link 201
              eq_refl) as (_ & H1 & _ & _ & _ & H2 & _).
  split; [exact H1 | exact H2].
Defined.

(** Nobody but an affiliate creates a link, and the store is unchanged for
    any other caller: the request is answered 400 when the serializer rejects
    the body, and otherwise breaks on the role test of [perform_create],
    whose [permissions.PermissionDenied] does not exist: the answer is a 500,
    not a 403. *)
Theorem only_affiliates_create_links (fresh_code : string) (user : User.t)
        (rq : LinkCreate) (s : Store) :
  User.is_affiliate user = false ->
  exists msg st,
    AffiliateLinkViewSet_create fresh_code user rq s = (ApiError msg st, s)
    /\ (st = 400 \/ st = 500)%nat
    /\ (forall p,
          find (fun x => Nat.eqb (Product.id x) (lc_product rq)) (products s)
          = Some p ->
          Product.is_active p = true ->
          (forall x, In x (links s) ->
                     ~ (AffiliateLink.affiliate x = User.id user
                        /\ AffiliateLink.product x = lc_product rq)) ->
          msg = no_PermissionDenied /\ st = 500%nat).
Proof.
  intros Ha. unfold AffiliateLinkViewSet_create.
  destruct (find _ (products s)) as [p|];
    [|do 2 eexists; split; [reflexivity|]; split; [now left | discriminate]].
  destruct (Product.is_active p) eqn:Hact; cbn [negb];
    [|do 2 eexists; split; [reflexivity|]; split; [now left|];
      intros p' E; inversion E; congruence].
  unfold AffiliateLinkCreateSerializer_validate.
  destruct (existsb _ (links s)) eqn:Hdup.
  - do 2 eexists. split; [reflexivity|]. split; [now left|].
    intros p' _ _ Hnone. exfalso.
    apply existsb_exists in Hdup. destruct Hdup as [x [Hx Hpair]].
    apply same_pair_spec in Hpair. unfold link_pair in Hpair.
    inversion Hpair. apply (Hnone x Hx). auto.
  - rewrite Ha. cbn [negb]. do 2 eexists. split; [reflexivity|].
    split; [now right | auto].
Qed.

Lemma only_affiliates_create_links_witness :
  exists msg st,
    AffiliateLinkViewSet_create Sample.code Sample.merchant
      (mkLinkCreate 7 None None None) (mkStore [Sample.widget] [] [] [])
    = (ApiError msg st, mkStore [Sample.widget] [] [] [])
    /\ (st = 400 \/ st = 500)%nat
    /\ msg = no_PermissionDenied /\ st = 500%nat.
Proof.
  destruct (only_affiliates_create_links Sample.code Sample.merchant
              (mkLinkCreate 7 None None None)
              (mkStore [Sample.widget] [] [] []) eq_refl)
    as (msg & st & H1 & H2 & H3).
  exists msg, st. split; [exact H1|]. split; [exact H2|].
  apply (H3 Sample.widget eq_refl eq_refl). intros x [].
Defined.

Lemma find_none_filter {A} (f g : A -> bool) (l : list A) :
  (forall x, In x l -> f x = true -> g x = false) ->
  find f (filter g l) = None.
Proof.
  intros H. destruct (find f (filter g l)) as [x|] eqn:E; [|reflexivity].
  apply find_some in E. destruct E as [Hin Hf].
  apply filter_In in Hin. destruct Hin as [Hin Hg].
  rewrite (H x Hin Hf) in Hg. discriminate.
Qed.

(** A link is edited and deleted only by its owner or a superuser: for any
    other caller, both requests leave the store unchanged; an affiliate, who
    cannot even see the link, is answered 404; for any other caller the
    owner test breaks on [permissions.PermissionDenied], which does not
    exist, and the answer is a 500, not a 403 (an edit whose body names a
    product that is not stored is refused before, with a 400). *)
Theorem links_protected_from_others (user : User.t) (pk : nat)
        (u : LinkUpdate) (s : Store) (l : AffiliateLink.t) :
  In l (links s) ->
  AffiliateLink.id l = pk ->
  (forall x, In x (links s) -> AffiliateLink.id x = pk ->
             AffiliateLink.affiliate x <> User.id user) ->
  User.is_superuser user = false ->
  let st := if User.is_affiliate user then 404%nat else 500%nat in
  snd (AffiliateLinkViewSet_update user pk u s) = s
  /\ api_status (fst (AffiliateLinkViewSet_update user pk u s))
     = (if User.is_affiliate user then 404%nat
        else match product_field (lu_product u) s with
             | Some _ => 400%nat
             | None => 500%nat
             end)
  /\ (User.is_affiliate user = false ->
      product_field (lu_product u) s = None ->
      fst (AffiliateLinkViewSet_update user pk u s)
      = ApiError no_PermissionDenied 500)
  /\ snd (AffiliateLinkViewSet_destroy user pk s) = s
  /\ api_status (fst (AffiliateLinkViewSet_destroy user pk s)) = st
  /\ (User.is_affiliate user = false ->
      fst (AffiliateLinkViewSet_destroy user pk s)
      = ApiError no_PermissionDenied 500).
Proof.
  intros Hin Hid Hother Hsu.
  unfold AffiliateLinkViewSet_update, AffiliateLinkViewSet_destroy,
    AffiliateLinkViewSet_get_object.
  destruct (User.is_affiliate user) eqn:Ha.
  - rewrite find_none_filter; [now repeat split|].
    intros x Hx Hxid. apply Nat.eqb_eq in Hxid.
    apply Nat.eqb_neq. now apply Hother.
  - destruct (find _ (links s)) as [x|] eqn:Hfind.
    + apply find_some in Hfind. destruct Hfind as [Hx Hxid].
      apply Nat.eqb_eq in Hxid.
      pose proof (Hother x Hx Hxid) as Hne. apply Nat.eqb_neq in Hne.
      rewrite Hne, Hsu. cbn [negb andb].
      destruct (product_field (lu_product u) s); repeat split;
        intros; discriminate.
    + exfalso. apply (find_none _ _ Hfind) in Hin.
      apply Nat.eqb_neq in Hin. contradiction.
Qed.

Lemma links_protected_from_others_witness :
  AffiliateLinkViewSet_destroy Sample.merchant 1 Sample.store
  = (ApiError no_PermissionDenied 500, Sample.store)
  /\ AffiliateLinkViewSet_update Sample.merchant 1
       (mkLinkUpdate None None None None (Some false) None) Sample.store
     = (ApiError no_PermissionDenied 500, Sample.store).
Proof.
  destruct (links_protected_from_others Sample.merchant 1
              (mkLinkUpdate None None None None (Some false) None)
              Sample.store Sample.link
              ltac:(simpl; left; reflexivity) ltac:(reflexivity)
              ltac:(intros x [<-|[]] _; simpl; lia)
              ltac:(reflexivity)) as (H1 & _ & H2 & H3 & _ & H4).
  split; apply injective_projections; cbn [fst snd];
    auto using H1, H3.
Defined.

(** ** Codes and primary keys through the requests *)

Lemma replace_link_codes (l' : AffiliateLink.t) (ls : list AffiliateLink.t) :
  (forall x, In x ls -> AffiliateLink.id x = AffiliateLink.id l' ->
             AffiliateLink.code x = AffiliateLink.code l') ->
  map AffiliateLink.code (replace_link l' ls) = map AffiliateLink.code ls.
Proof.
  induction ls as [|a ls IH]; simpl; intros H; [reflexivity|].
  rewrite IH by (intros x Hx; apply H; now right). f_equal.
  destruct (Nat.eqb_spec (AffiliateLink.id a) (AffiliateLink.id l'))
    as [E|E]; [|reflexivity].
  symmetry. apply H; [now left | assumption].
Qed.

Lemma NoDup_map_inj_on {A B} (f : A -> B) (l : list A) (x y : A) :
  NoDup (map f l) -> In x l -> In y l -> f x = f y -> x = y.
Proof.
  induction l as [|a l IH]; simpl; intros Hnd Hx Hy E; [contradiction|].
  inversion Hnd as [|? ? Hnot Hnd']; subst.
  destruct Hx as [->|Hx], Hy as [->|Hy]; auto.
  - exfalso. apply Hnot. rewrite E. now apply in_map.
  - exfalso. apply Hnot. rewrite <- E. now apply in_map.
Qed.

Lemma get_object_In (user : User.t) (pk : nat) (s : Store)
      (l : AffiliateLink.t) :
  AffiliateLinkViewSet_get_object user pk s = Some l ->
  In l (links s) /\ AffiliateLink.id l = pk.
Proof.
  unfold AffiliateLinkViewSet_get_object. intros H.
  apply find_some in H. destruct H as [Hin Hid].
  apply Nat.eqb_eq in Hid. split; [|assumption].
  destruct (User.is_affiliate user); [|assumption].
  now apply filter_In in Hin.
Qed.

Lemma handle_codes_ok (py_float : string -> option Q) (e : Event)
      (s : Store) :
  codes_ok s -> codes_ok (handle py_float e s).
Proof.
  intros [Hid Hcode]. unfold codes_ok. destruct e; simpl.
  - destruct (click_endpoint_frame redirect now fault request segment s)
      as (_ & -> & _). now split.
  - destruct (record_conversion_frame py_float now fault user data code s)
      as (_ & -> & _). now split.
  - destruct (ProductViewSet_update_frame user all pk u s) as (-> & _).
    now split.
  - unfold AffiliateLinkViewSet_create.
    destruct (find _ (products s)); [|now split].
    destruct (negb _); [now split|].
    destruct (AffiliateLinkCreateSerializer_validate _ _ s); [now split|].
    destruct (negb _); [now split|].
    unfold AffiliateLink_objects_create, bind, get_store, put_store, ret,
      raise.
    destruct (violates_unique _ _) eqn:Hv; [now split|]. simpl.
    rewrite !map_app. simpl. split; apply NoDup_snoc; try assumption.
    + apply next_id_fresh.
    + intros Hin. apply in_map_iff in Hin. destruct Hin as [x [Hx Hin]].
      apply (violates_unique_fresh_code _ _ Hv
               (next_id_fresh (map AffiliateLink.id (links s))) x Hin).
      exact Hx.
  - unfold AffiliateLinkViewSet_update.
    destruct (AffiliateLinkViewSet_get_object user pk s) as [l|] eqn:Hget;
      [|now split].
    destruct (product_field _ s); [now split|].
    destruct (_ && _); [now split|].
    destruct (violates_unique _ _); [now split|]. simpl.
    apply get_object_In in Hget. destruct Hget as [Hl Hlid].
    rewrite replace_link_ids. split; [assumption|].
    rewrite replace_link_codes; [assumption|].
    intros x Hx Hxid. simpl in *.
    assert (x = l) by (apply (NoDup_map_inj_on AffiliateLink.id (links s));
                       auto).
    subst x. reflexivity.
  - unfold AffiliateLinkViewSet_destroy.
    destruct (AffiliateLinkViewSet_get_object user pk s); [|now split].
    destruct (_ && _); [now split|]. simpl.
    split; now apply NoDup_map_filter.
  - unfold admin_set_active. simpl. rewrite !map_map.
    split.
    + erewrite map_ext; [exact Hid|]. intros l.
      now destruct (existsb _ selected).
    + erewrite map_ext; [exact Hcode|]. intros l.
      now destruct (existsb _ selected).
Qed.

(** Where the links of the store come from after one request: each has the
    key and the code of a link that was stored, or is new, under a key and
    a code no stored link has. *)
Lemma handle_links_origin (py_float : string -> option Q) (e : Event)
      (s : Store) (l' : AffiliateLink.t) :
  In l' (links (handle py_float e s)) ->
  (exists l, In l (links s)
             /\ AffiliateLink.id l = AffiliateLink.id l'
             /\ AffiliateLink.code l = AffiliateLink.code l')
  \/ (~ In (AffiliateLink.id l') (map AffiliateLink.id (links s))
      /\ ~ In (AffiliateLink.code l') (map AffiliateLink.code (links s))).
Proof.
  assert (Hsame : In l' (links s) ->
                  exists l, In l (links s)
                            /\ AffiliateLink.id l = AffiliateLink.id l'
                            /\ AffiliateLink.code l = AffiliateLink.code l')
    by (intros H; exists l'; auto).
  destruct e; simpl.
  - destruct (click_endpoint_frame redirect now fault request segment s)
      as (_ & -> & _). auto.
  - destruct (record_conversion_frame py_float now fault user data code s)
      as (_ & -> & _). auto.
  - destruct (ProductViewSet_update_frame user all pk u s) as (-> & _). auto.
  - unfold AffiliateLinkViewSet_create.
    destruct (find _ (products s)); [|auto].
    destruct (negb _); [auto|].
    destruct (AffiliateLinkCreateSerializer_validate _ _ s); [auto|].
    destruct (negb _); [auto|].
    unfold AffiliateLink_objects_create, bind, get_store, put_store, ret,
      raise.
    destruct (violates_unique _ _) eqn:Hv; [auto|]. simpl.
    intros Hin. apply in_app_or in Hin. destruct Hin as [Hin|[<-|[]]];
      [auto|]. right. simpl. split.
    + apply next_id_fresh.
    + intros Hin. apply in_map_iff in Hin. destruct Hin as [x [Hx Hin]].
      apply (violates_unique_fresh_code _ _ Hv
               (next_id_fresh (map AffiliateLink.id (links s))) x Hin).
      exact Hx.
  - unfold AffiliateLinkViewSet_update.
    destruct (AffiliateLinkViewSet_get_object user pk s) as [l|] eqn:Hget;
      [|auto].
    destruct (product_field _ s); [auto|].
    destruct (_ && _); [auto|].
    destruct (violates_unique _ _); [auto|]. simpl.
    apply get_object_In in Hget. destruct Hget as [Hl Hlid].
    unfold replace_link. intros Hin. apply in_map_iff in Hin.
    destruct Hin as [x [Hx Hin]].
    destruct (Nat.eqb (AffiliateLink.id x) _); [|subst x; auto].
    left. exists l. subst l'. auto.
  - unfold AffiliateLinkViewSet_destroy.
    destruct (AffiliateLinkViewSet_get_object user pk s); [|auto].
    destruct (_ && _); [auto|]. simpl.
    intros Hin. apply filter_In in Hin. destruct Hin as [Hin _]. auto.
  - unfold admin_set_active. simpl. intros Hin. apply in_map_iff in Hin.
    destruct Hin as [x [Hx Hin]]. left. exists x.
    destruct (existsb _ selected); subst l'; auto.
Qed.

(** No request changes the code or the primary key of a stored link: after
    a request, a link carries the key of a link that was stored exactly
    when it carries its code. A new link only enters under an unused code
    and a fresh key. Hence, from any store where they are unique, the codes
    and the primary keys of the links stay unique through every sequence of
    requests, so a code resolves to at most one link. *)
Theorem codes_stay_unique (py_float : string -> option Q) (es : list Event) :
  (forall e s l l',
     codes_ok s ->
     In l (links s) ->
     In l' (links (handle py_float e s)) ->
     (AffiliateLink.id l' = AffiliateLink.id l
      <-> AffiliateLink.code l' = AffiliateLink.code l))
  /\ (forall e s l',
        In l' (links (handle py_float e s)) ->
        (In (AffiliateLink.id l') (map AffiliateLink.id (links s))
         <-> In (AffiliateLink.code l') (map AffiliateLink.code (links s))))
  /\ (forall s, codes_ok s -> codes_ok (run py_float es s))
  /\ (forall s code,
        codes_ok s ->
        (List.length
           (filter (fun l => String.eqb (AffiliateLink.code l) code)
                   (links (run py_float es s))) <= 1)%nat).
Proof.
  assert (Hrun : forall s, codes_ok s -> codes_ok (run py_float es s)).
  { induction es as [|e es IH]; simpl; intros s H; [assumption|].
    apply IH. now apply handle_codes_ok. }
  split; [|split; [|split]].
  - intros e s l l' [Hids Hcodes] Hl Hl'.
    destruct (handle_links_origin py_float e s l' Hl')
      as [[l0 (Hl0 & Hid0 & Hcode0)] | [Hnid Hncode]].
    + split; intros E.
      * assert (l0 = l)
          by (apply (NoDup_map_inj_on AffiliateLink.id (links s)); auto;
              congruence).
        congruence.
      * assert (l0 = l)
          by (apply (NoDup_map_inj_on AffiliateLink.code (links s)); auto;
              congruence).
        congruence.
    + split; intros E; exfalso.
      * apply Hnid. rewrite E. now apply in_map.
      * apply Hncode. rewrite E. now apply in_map.
  - intros e s l' Hl'.
    destruct (handle_links_origin py_float e s l' Hl')
      as [[l0 (Hl0 & Hid0 & Hcode0)] | [Hnid Hncode]].
    + split; intros _.
      * rewrite <- Hcode0. now apply in_map.
      * rewrite <- Hid0. now apply in_map.
    + split; intros H; contradiction.
  - exact Hrun.
  - intros s code Hok. destruct (Hrun s Hok) as [_ Hcodes].
    induction (links (run py_float es s)) as [|l ls IH]; simpl; [lia|].
    inversion Hcodes as [|? ? Hnot Hnd]; subst.
    destruct (String.eqb_spec (AffiliateLink.code l) code) as [E|E];
      [|auto].
    simpl. rewrite filter_none; [simpl; lia|].
    intros x Hx. apply String.eqb_neq. intros Ex. apply Hnot.
    rewrite E, <- Ex. now apply in_map.
Qed.

Lemma codes_stay_unique_witness :
  codes_ok
    (run Sample.py_float
       [EvLinkCreate Sample.code Sample.affiliate
          (mkLinkCreate 7 None None None);
        EvLinkUpdate Sample.affiliate 1
          (mkLinkUpdate None None None None (Some false) None)]
       (mkStore [Sample.widget] [] [] []))
  /\ (forall l',
        In l' (links (handle Sample.py_float
                        (EvLinkUpdate Sample.affiliate 1
                           (mkLinkUpdate None None None None (Some false)
                              None))
                        Sample.store)) ->
        (AffiliateLink.id l' = 1%nat
         <-> AffiliateLink.code l' = Sample.code)).
Proof.
  destruct (codes_stay_unique Sample.py_float
              [EvLinkCreate Sample.code Sample.affiliate
                 (mkLinkCreate 7 None None None);
               EvLinkUpdate Sample.affiliate 1
                 (mkLinkUpdate None None None None (Some false) None)])
    as (Hkeep & _ & Hrun & _).
  split.
  - apply Hrun. split; constructor.
  - intros l' Hl'.
    apply (Hkeep (EvLinkUpdate Sample.affiliate 1
                    (mkLinkUpdate None None None None (Some false) None))
             Sample.store Sample.link l');
      [split; simpl; (constructor; [intros [] | constructor])
      | simpl; left; reflexivity
      | exact Hl'].
Defined.

(** ** The admin actions on links *)

Lemma admin_set_active_links (selected : list nat) (active : bool)
      (s : Store) (x : AffiliateLink.t) :
  In x (links (admin_set_active selected active s)) ->
  exists l, In l (links s)
            /\ AffiliateLink.id x = AffiliateLink.id l
            /\ AffiliateLink.code x = AffiliateLink.code l
            /\ AffiliateLink.is_active x
               = if existsb (Nat.eqb (AffiliateLink.id l)) selected
                 then active else AffiliateLink.is_active l.
Proof.
  unfold admin_set_active. simpl. intros H. apply in_map_iff in H.
  destruct H as [l [Hx Hl]]. exists l. split; [assumption|].
  destruct (existsb _ selected); subst x; simpl; auto.
Qed.

(** Deactivating a link in the admin stops its code from resolving: a later
    click on that code is not redirected and records nothing. The two
    actions only touch the active flag of the selected rows, and applying
    one after the other is the same as applying the last one, so activating
    what was deactivated restores links that were active. *)
Theorem admin_deactivation_stops_clicks (redirect : string -> redirect_outcome)
     (now : Z) (fault : option string)
        (request : Request) (s : Store) (l : AffiliateLink.t)
        (selected : list nat) :
  NoDup (map AffiliateLink.code (links s)) ->
  In l (links s) ->
  In (AffiliateLink.id l) selected ->
  let s1 := admin_set_active selected false s in
  let r := track_click redirect now fault request (AffiliateLink.code l) s1 in
  status_code (fst r) <> 302%nat
  /\ snd r = s1
  /\ (forall b1 b2,
        admin_set_active selected b2 (admin_set_active selected b1 s)
        = admin_set_active selected b2 s)
  /\ ((forall x, In x (links s) ->
                 In (AffiliateLink.id x) selected ->
                 AffiliateLink.is_active x = true) ->
      admin_set_active selected true s1 = s).
Proof.
  intros Hnd Hin Hsel s1 r.
  assert (Hcomp : forall b1 b2,
            admin_set_active selected b2 (admin_set_active selected b1 s)
            = admin_set_active selected b2 s).
  { intros b1 b2. unfold admin_set_active, set_links. simpl. f_equal.
    rewrite map_map. apply map_ext. intros x.
    destruct (existsb (Nat.eqb (AffiliateLink.id x)) selected) eqn:E; simpl;
      now rewrite E. }
  assert (Hr : r = (HttpResponseStatus
                      "Error processing click: No AffiliateLink matches the given query."
                      500, s1)).
  { subst r. apply track_click_no_active_link. apply filter_none.
    intros x Hx. apply admin_set_active_links in Hx.
    destruct Hx as [y [Hy [_ [Hcode Hact]]]].
    destruct (String.eqb_spec (AffiliateLink.code x) (AffiliateLink.code l))
      as [E|E]; [|reflexivity].
    assert (y = l).
    { apply (NoDup_map_inj_on AffiliateLink.code (links s)); auto.
      congruence. }
    subst y. rewrite Hact.
    assert (Hb : existsb (Nat.eqb (AffiliateLink.id l)) selected = true).
    { apply existsb_exists. exists (AffiliateLink.id l).
      split; [assumption | apply Nat.eqb_refl]. }
    now rewrite Hb. }
  rewrite Hr. cbn [fst snd status_code].
  split; [discriminate|]. split; [reflexivity|]. split; [exact Hcomp|].
  intros Hactive. subst s1. rewrite Hcomp.
  unfold admin_set_active, set_links. destruct s as [ps ls cs vs]. simpl in *.
  f_equal. rewrite <- (map_id ls) at 2. apply map_ext_in. intros x Hx.
  destruct (existsb (Nat.eqb (AffiliateLink.id x)) selected) eqn:E;
    [|reflexivity].
  apply existsb_exists in E. destruct E as [n [Hn En]].
  apply Nat.eqb_eq in En. subst n.
  rewrite <- (Hactive x Hx Hn). now destruct x.
Qed.

Lemma admin_deactivation_stops_clicks_witness :
  status_code
    (fst (track_click Sample.redirect 0 None Sample.request Sample.code
            (admin_set_active [1%nat] false Sample.store))) <> 302%nat.
Proof.
  apply (admin_deactivation_stops_clicks Sample.redirect 0 None Sample.request Sample.store
           Sample.link [1%nat]
           ltac:(simpl; constructor; [intros [] | constructor])
           ltac:(simpl; left; reflexivity)
           ltac:(simpl; left; reflexivity)).
Defined.

(** ** The bounds of the catalog *)

Lemma price_field_passes (o : option Q) :
  check_field o price_field validate_price = None ->
  forall v, o = Some v -> 0 < v.
Proof.
  intros H v ->. unfold check_field, price_field in H.
  destruct (Qlt_le_dec v float_0_01) as [Hlt|Hle]; [discriminate|].
  apply (Qlt_le_trans _ float_0_01); [reflexivity | assumption].
Qed.

Lemma commission_rate_field_passes (o : option Q) :
  check_field o commission_rate_field validate_commission_rate = None ->
  forall v, o = Some v -> 0 <= v /\ v <= 100.
Proof.
  intros H v ->. unfold check_field, commission_rate_field in H.
  destruct (Qlt_le_dec v 0); [discriminate|].
  destruct (Qlt_le_dec 100 v); [discriminate|]. auto.
Qed.

Lemma ProductViewSet_get_object_In (user : User.t) (all : option string)
      (pk : nat) (s : Store) (p : Product.t) :
  ProductViewSet_get_object user all pk s = Some p -> In p (products s).
Proof.
  unfold ProductViewSet_get_object. intros H. apply find_some in H.
  destruct H as [Hin _]. destruct (_ && _); [|assumption].
  now apply filter_In in Hin.
Qed.

Lemma ProductViewSet_update_valid (user : User.t) (all : option string)
      (pk : nat) (u : ProductUpdate) (s : Store) :
  products_valid s ->
  products_valid (snd (ProductViewSet_update user all pk u s)).
Proof.
  unfold products_valid, ProductViewSet_update. intros Hv.
  destruct (ProductViewSet_get_object user all pk s) as [p|] eqn:Hfind;
    [|assumption].
  destruct (check_field (new_price u) price_field validate_price) eqn:Hprice;
    [assumption|].
  destruct (check_field (new_commission_rate u) commission_rate_field
              validate_commission_rate) eqn:Hrate; [assumption|].
  destruct (_ && _); [assumption|]. simpl.
  apply ProductViewSet_get_object_In in Hfind.
  rewrite Forall_forall in Hv.
  apply Forall_forall. intros x Hx. apply in_map_iff in Hx.
  destruct Hx as [y [Hy Hin]].
  destruct (Nat.eqb (Product.id y) pk); [|subst x; now apply Hv].
  subst x. destruct (Hv p Hfind) as (Hp1 & Hp2 & Hp3).
  unfold product_valid, apply_update. simpl.
  pose proof (price_field_passes _ Hprice) as Hnp.
  pose proof (commission_rate_field_passes _ Hrate) as Hnr.
  destruct (new_price u) as [v|], (new_commission_rate u) as [w|]; simpl;
    repeat split; try assumption;
    try (apply (Hnp v eq_refl)); try (apply (Hnr w eq_refl)).
Qed.

(** The bounds of a product survive every request: once every stored
    product has a positive price and a commission rate between 0 and 100,
    this holds after any sequence of requests. An edit of a product the
    caller can reach is answered 400 and changes nothing when its price is
    at most 0.01 (the limit of the field is the double 0.01, a little above
    the decimal) or its rate is outside 0..100, and this before the owner
    is tested. A merchant who gives no [all] parameter cannot reach a
    product of somebody else: the edit is answered 404 and changes
    nothing. *)
Theorem product_bounds_preserved (py_float : string -> option Q)
        (es : list Event) (s : Store) :
  products_valid s ->
  products_valid (run py_float es s)
  /\ (forall user all pk u p v,
        ProductViewSet_get_object user all pk s = Some p ->
        (new_price u = Some v /\ v <= 1 # 100)
        \/ (new_commission_rate u = Some v /\ (v < 0 \/ 100 < v)) ->
        snd (ProductViewSet_update user all pk u s) = s
        /\ api_status (fst (ProductViewSet_update user all pk u s)) = 400%nat)
  /\ (forall user pk u,
        User.is_merchant user = true ->
        (forall x, In x (products s) -> Product.id x = pk ->
                   Product.merchant x <> User.id user) ->
        ProductViewSet_update user None pk u s = (ApiError "Not found." 404, s)).
Proof.
  intros Hv. split; [|split].
  - revert s Hv. induction es as [|e es IH]; simpl; intros s Hv;
      [assumption|].
    apply IH. unfold products_valid in *. destruct e; simpl.
    + destruct (click_endpoint_frame redirect now fault request segment s)
        as (-> & _). assumption.
    + destruct (record_conversion_frame py_float now fault user data code s)
        as (-> & _). assumption.
    + now apply ProductViewSet_update_valid.
    + destruct (AffiliateLinkViewSet_create_frame fresh_code user rq s)
        as (-> & _). assumption.
    + destruct (AffiliateLinkViewSet_update_frame user pk u s)
        as (-> & _). assumption.
    + unfold AffiliateLinkViewSet_destroy.
      destruct (AffiliateLinkViewSet_get_object user pk s); [|assumption].
      destruct (_ && _); assumption.
    + assumption.
  - intros user all pk u p v Hfind Hbad. unfold ProductViewSet_update.
    rewrite Hfind. destruct Hbad as [[Hp Hle] | [Hr Hout]].
    + rewrite Hp. unfold check_field, price_field.
      destruct (Qlt_le_dec v float_0_01) as [Hlt|Hge]; [now split|].
      exfalso. apply (Qle_not_lt _ _ (Qle_trans _ _ _ Hge Hle)). reflexivity.
    + destruct (check_field (new_price u) price_field validate_price);
        [now split|].
      rewrite Hr. unfold check_field, commission_rate_field.
      destruct (Qlt_le_dec v 0) as [Hlt|Hge]; [now split|].
      destruct (Qlt_le_dec 100 v) as [Hlt|Hle]; [now split|].
      exfalso. destruct Hout as [Hout|Hout].
      * apply (Qlt_not_le _ _ Hout Hge).
      * apply (Qlt_not_le _ _ Hout Hle).
  - intros user pk u Hm Hother.
    unfold ProductViewSet_update, ProductViewSet_get_object.
    rewrite Hm. cbn [Py.truthy_opt negb andb].
    rewrite find_none_filter; [reflexivity|].
    intros x Hx Hid. apply Nat.eqb_eq in Hid.
    apply Nat.eqb_neq. now apply Hother.
Qed.

Lemma product_bounds_preserved_witness :
  products_valid
    (run Sample.py_float
       [EvProductUpdate Sample.merchant None 7
          (mkProductUpdate None None (Some 25) None None)] Sample.store)
  /\ api_status
       (fst (ProductViewSet_update Sample.merchant None 7
               (mkProductUpdate None (Some (1 # 100)) None None None)
               Sample.store)) = 400%nat.
Proof.
  assert (Hv : products_valid Sample.store).
  { constructor; [|constructor].
    unfold product_valid. simpl. repeat split; reflexivity || discriminate. }
  split.
  - apply (product_bounds_preserved Sample.py_float
             [EvProductUpdate Sample.merchant None 7
                (mkProductUpdate None None (Some 25) None None)]
             Sample.store Hv).
  - apply (proj1 (proj2 (product_bounds_preserved Sample.py_float []
                           Sample.store Hv))
             Sample.merchant None 7%nat
             (mkProductUpdate None (Some (1 # 100)) None None None)
             Sample.widget (1 # 100) eq_refl).
    left. split; [reflexivity | discriminate].
Defined.

(** The commission of a product within its bounds lies between 0 and the
    price: it is 0 at rate 0 and the whole price at rate 100. *)
Theorem product_commission_amount_bounds (p : Product.t) :
  product_valid p ->
  0 <= Product.commission_amount p
  /\ Product.commission_amount p <= Product.price p
  /\ (Product.commission_rate p == 0 -> Product.commission_amount p == 0)
  /\ (Product.commission_rate p == 100 ->
      Product.commission_amount p == Product.price p).
Proof.
  intros (Hp & Hr0 & Hr100). unfold Product.commission_amount.
  set (x := Product.price p) in *. set (r := Product.commission_rate p) in *.
  assert (E : x * r / 100 == x * r * (1 # 100)) by (unfold Qdiv; reflexivity).
  rewrite E. repeat split.
  - nra.
  - nra.
  - intros H0. rewrite H0. ring.
  - intros H1. rewrite H1. ring.
Qed.

Lemma product_commission_amount_bounds_witness :
  0 <= Product.commission_amount Sample.widget
  /\ Product.commission_amount Sample.widget <= Product.price Sample.widget.
Proof.
  destruct (product_commission_amount_bounds Sample.widget) as (H1 & H2 & _).
  - unfold product_valid. simpl. repeat split; reflexivity || discriminate.
  - split; [exact H1 | exact H2].
Defined.

(** ** The statistics and their cache *)

Lemma cache_get_set_same (cache : StatsCache) (now later : Z) (uid : nat)
      (value : Stats) (timeout : Z) :
  cache_get (cache_set cache now uid value timeout) later uid
  = if (now + timeout <=? later)%Z then None else Some value.
Proof.
  unfold cache_get, cache_set. simpl. now rewrite Nat.eqb_refl.
Qed.

Lemma find_filter_other (cache : StatsCache) (uid other : nat) :
  other <> uid ->
  find (fun kv => Nat.eqb (fst kv) other)
       (filter (fun kv => negb (Nat.eqb (fst kv) uid)) cache)
  = find (fun kv => Nat.eqb (fst kv) other) cache.
Proof.
  intros Hne. induction cache as [|kv cache IH]; simpl; [reflexivity|].
  destruct (Nat.eqb (fst kv) uid) eqn:Eu; simpl.
  - apply Nat.eqb_eq in Eu.
    assert (E : Nat.eqb (fst kv) other = false)
      by (apply Nat.eqb_neq; congruence).
    now rewrite E.
  - destruct (Nat.eqb (fst kv) other); [reflexivity | exact IH].
Qed.

Lemma cache_get_set_other (cache : StatsCache) (now later : Z)
      (uid other : nat) (value : Stats) (timeout : Z) :
  other <> uid ->
  cache_get (cache_set cache now uid value timeout) later other
  = cache_get cache later other.
Proof.
  intros Hne. unfold cache_get, cache_set. simpl.
  assert (E : Nat.eqb uid other = false) by (apply Nat.eqb_neq; congruence).
  rewrite E. now rewrite find_filter_other.
Qed.

(** Statistics are served from the cache for 30 minutes. A call that finds
    no valid entry computes the figures of the catalog of that moment; for
    the next 1800 seconds every call of that user returns these figures
    whatever the catalog has become, and leaves the cache as it is; from
    1800 seconds on the entry has expired and the figures are computed
    anew. A call that finds a valid entry returns it and leaves the cache
    as it is. A call never changes what another user reads from the
    cache. *)
Theorem stats_served_from_cache (cache : StatsCache) (now : Z)
        (user : User.t) (s1 : Store) :
  let r := ProductViewSet_stats cache now user s1 in
  (cache_get cache now (User.id user) = None ->
   fst r = compute_stats user s1
   /\ (forall later s2,
         (now <= later < now + 1800)%Z ->
         ProductViewSet_stats (snd r) later user s2 = (fst r, snd r))
   /\ (forall later s2,
         (now + 1800 <= later)%Z ->
         fst (ProductViewSet_stats (snd r) later user s2)
         = compute_stats user s2))
  /\ (forall st, cache_get cache now (User.id user) = Some st ->
                 r = (st, cache))
  /\ (forall other later,
        User.id other <> User.id user ->
        cache_get (snd r) later (User.id other)
        = cache_get cache later (User.id other)).
Proof.
  unfold ProductViewSet_stats.
  destruct (cache_get cache now (User.id user)) as [st|] eqn:Hget;
    cbn [fst snd].
  - split; [discriminate|]. split.
    + intros st' E. now inversion E.
    + reflexivity.
  - split; [|split].
    + intros _. split; [reflexivity|]. split.
      * intros later s2 [Hlo Hhi]. rewrite cache_get_set_same.
        assert (E : (now + 1800 <=? later)%Z = false)
          by (apply Z.leb_gt; exact Hhi).
        now rewrite E.
      * intros later s2 Hexp. rewrite cache_get_set_same.
        assert (E : (now + 1800 <=? later)%Z = true)
          by (apply Z.leb_le; exact Hexp).
        now rewrite E.
    + discriminate.
    + intros other later Hne. now apply cache_get_set_other.
Qed.

Lemma stats_served_from_cache_witness :
  total_products
    (fst (ProductViewSet_stats [] 0 Sample.merchant Sample.store)) = 1%nat
  /\ total_products
       (fst (ProductViewSet_stats
               (snd (ProductViewSet_stats [] 0 Sample.merchant Sample.store))
               1799 Sample.merchant empty_store)) = 1%nat
  /\ total_products
       (fst (ProductViewSet_stats
               (snd (ProductViewSet_stats [] 0 Sample.merchant Sample.store))
               1800 Sample.merchant empty_store)) = 0%nat.
Proof.
  destruct (stats_served_from_cache [] 0 Sample.merchant Sample.store)
    as (Hmiss & _).
  destruct (Hmiss eq_refl) as (H1 & H2 & H3).
  split; [now rewrite H1|]. split.
  - rewrite (H2 1799%Z empty_store); [now rewrite H1 | lia].
  - now rewrite (H3 1800%Z empty_store); [|lia].
Defined.

Lemma filter_length_bound {A} (f : A -> bool) (l : list A) :
  (List.length (filter f l) <= List.length l)%nat.
Proof.
  induction l as [|a l IH]; simpl; [lia|]. destruct (f a); simpl; lia.
Qed.

Lemma filter_idem {A} (f : A -> bool) (l : list A) :
  filter f (filter f l) = filter f l.
Proof.
  induction l as [|a l IH]; simpl; [reflexivity|].
  destruct (f a) eqn:E; simpl; [rewrite E|]; now rewrite IH.
Qed.

(** In the computed statistics the active products never outnumber the
    products, and for a caller who is not a merchant the two counters are
    equal: the figures then range over the active products only. *)
Theorem stats_counters (user : User.t) (s : Store) :
  let st := compute_stats user s in
  (active_products st <= total_products st)%nat
  /\ (total_products st <= List.length (products s))%nat
  /\ (User.is_merchant user = false ->
      active_products st = total_products st
      /\ total_products st
         = List.length (filter Product.is_active (products s))).
Proof.
  unfold compute_stats. cbn [active_products total_products].
  split; [apply filter_length_bound|]. split.
  - destruct (User.is_merchant user); apply filter_length_bound.
  - intros ->. now rewrite filter_idem.
Qed.

Lemma stats_counters_witness :
  active_products (compute_stats Sample.affiliate Sample.store)
  = total_products (compute_stats Sample.affiliate Sample.store).
Proof.
  apply (proj2 (proj2 (stats_counters Sample.affiliate Sample.store))).
  reflexivity.
Defined.

(** ** The counters of a product *)

Lemma filter_orb_disjoint {A} (f g : A -> bool) (l : list A) :
  (forall x, f x = true -> g x = false) ->
  List.length (filter (fun x => f x || g x) l)
  = (List.length (filter f l) + List.length (filter g l))%nat.
Proof.
  intros H. induction l as [|a l IH]; simpl; [reflexivity|].
  destruct (f a) eqn:Ef; simpl.
  - rewrite (H a Ef). simpl. lia.
  - destruct (g a); simpl; lia.
Qed.

Lemma count_per_link {A} (key : A -> nat) (items : list A)
      (ls : list AffiliateLink.t) :
  NoDup (map AffiliateLink.id ls) ->
  list_sum (map (fun l => List.length
                            (filter (fun c => Nat.eqb (key c)
                                                (AffiliateLink.id l)) items))
                ls)
  = List.length
      (filter (fun c => existsb (fun l => Nat.eqb (key c) (AffiliateLink.id l))
                                ls) items).
Proof.
  induction ls as [|l ls IH]; simpl; intros Hnd.
  - induction items as [|c items IHi]; simpl; auto.
  - inversion Hnd as [|? ? Hnot Hnd']; subst.
    rewrite IH by assumption.
    rewrite (filter_orb_disjoint
               (fun c => Nat.eqb (key c) (AffiliateLink.id l))
               (fun c => existsb (fun l0 => Nat.eqb (key c)
                                              (AffiliateLink.id l0)) ls));
      [reflexivity|].
    intros c Hc. apply Nat.eqb_eq in Hc.
    destruct (existsb _ ls) eqn:E; [|reflexivity].
    apply existsb_exists in E. destruct E as [l0 [Hl0 Hk]].
    apply Nat.eqb_eq in Hk. exfalso. apply Hnot.
    rewrite <- Hc, Hk. now apply in_map.
Qed.

(** With unique primary keys on links, the totals of a product count each
    stored row once: total conversions is the number of stored conversions
    whose link targets the product, and total clicks the number of such
    clicks; the link count is the number of links on the product. *)
Theorem product_totals_count_rows (s : Store) (p : Product.t) :
  NoDup (map AffiliateLink.id (links s)) ->
  get_total_conversions s p
  = List.length
      (filter (fun c => targets_product s p (Conversion.affiliate_link c))
              (conversions s))
  /\ get_total_clicks s p
     = List.length
         (filter (fun c => targets_product s p (Click.affiliate_link c))
                 (clicks s))
  /\ (get_total_conversions s p <= List.length (conversions s))%nat
  /\ (get_total_clicks s p <= List.length (clicks s))%nat.
Proof.
  intros Hnd.
  assert (Hnd' : NoDup (map AffiliateLink.id (affiliate_links_of s p)))
    by (now apply NoDup_map_filter).
  assert (H1 : get_total_conversions s p
               = List.length
                   (filter (fun c => targets_product s p
                                       (Conversion.affiliate_link c))
                           (conversions s))).
  { unfold get_total_conversions, conversions_of, targets_product.
    now apply (count_per_link Conversion.affiliate_link). }
  assert (H2 : get_total_clicks s p
               = List.length
                   (filter (fun c => targets_product s p
                                       (Click.affiliate_link c))
                           (clicks s))).
  { unfold get_total_clicks, clicks_of, targets_product.
    now apply (count_per_link Click.affiliate_link). }
  split; [exact H1|]. split; [exact H2|].
  rewrite H1, H2. split; apply filter_length_bound.
Qed.

Lemma product_totals_count_rows_witness :
  get_total_conversions Sample.store_converted Sample.widget
  = List.length
      (filter (fun c => targets_product Sample.store_converted Sample.widget
                          (Conversion.affiliate_link c))
              (conversions Sample.store_converted)).
Proof.
  apply (proj1 (product_totals_count_rows Sample.store_converted
                  Sample.widget
                  ltac:(simpl; constructor; [intros [] | constructor]))).
Defined.

(** ** Sorted lists of products *)

Lemma insert_before_HdRel {A} (before : A -> A -> bool) (R : A -> A -> Prop)
      (x c : A) (l : list A) :
  R x c -> HdRel R x l -> HdRel R x (insert_before before c l).
Proof.
  intros Hxc Hx. destruct l as [|y l]; simpl; [now constructor|].
  destruct (before c y); constructor; [assumption | now inversion Hx].
Qed.

Lemma order_by_Sorted {A} (before : A -> A -> bool) (R : A -> A -> Prop)
      (l : list A) :
  (forall c x, before c x = true -> R c x) ->
  (forall c x, before c x = false -> R x c) ->
  Sorted R (order_by before l).
Proof.
  intros Ht Hf. induction l as [|c l IH]; simpl; [constructor|].
  induction IH as [|x l' Hs IHs Hhd]; simpl; [repeat constructor|].
  destruct (before c x) eqn:E.
  - constructor; [now constructor|]. constructor. now apply Ht.
  - constructor; [assumption|].
    apply insert_before_HdRel; [now apply Hf | assumption].
Qed.

Lemma StronglySorted_app_cross {A} (R : A -> A -> Prop) (l1 l2 : list A) :
  StronglySorted R (l1 ++ l2)%list ->
  forall a b, In a l1 -> In b l2 -> R a b.
Proof.
  induction l1 as [|x l1 IH]; simpl; intros Hs a b Ha Hb; [contradiction|].
  inversion Hs as [|? ? Hs' Hall]; subst.
  destruct Ha as [->|Ha].
  - rewrite Forall_forall in Hall. apply Hall. apply in_or_app. now right.
  - now apply IH.
Qed.

Lemma firstn_incl {A} (n : nat) (l : list A) (x : A) :
  In x (firstn n l) -> In x l.
Proof.
  intros H. rewrite <- (firstn_skipn n l). apply in_or_app. now left.
Qed.

(** The high-commission list holds exactly the active products whose rate
    is at least the threshold, 15 when the request gives none, by decreasing
    rate. *)
Theorem high_commission_list (min_rate : option Q) (s : Store) :
  (forall p,
     In p (ProductViewSet_high_commission min_rate s) <->
     In p (products s) /\ Product.is_active p = true
     /\ or_else min_rate 15 <= Product.commission_rate p)
  /\ StronglySorted rate_desc (ProductViewSet_high_commission min_rate s).
Proof.
  unfold ProductViewSet_high_commission. split.
  - intros p. rewrite order_by_In, filter_In, andb_true_iff, Qle_bool_iff.
    tauto.
  - apply Sorted_StronglySorted.
    + intros a b c Hab Hbc. unfold rate_desc in *.
      apply (Qle_trans _ _ _ Hbc Hab).
    + apply order_by_Sorted; unfold rate_before, rate_desc; intros c x;
        destruct (Qlt_le_dec _ _) as [Hlt|Hle]; try discriminate; intros _.
      * now apply Qlt_le_weak.
      * assumption.
Qed.

(** On a cache miss the popular list holds at most ten products, all
    active and in the catalog, by decreasing number of links, and no active
    product left out has more links than one that is listed. On a hit the
    cached list is returned as it is, whatever the catalog has become. *)
Theorem popular_list (s : Store) :
  let r := fst (ProductViewSet_popular None s) in
  (List.length r <= 10)%nat
  /\ (forall p, In p r -> In p (products s) /\ Product.is_active p = true)
  /\ StronglySorted (links_desc s) r
  /\ (forall p q, In p r -> In q (products s) -> Product.is_active q = true ->
                  ~ In q r -> (links_count s q <= links_count s p)%nat)
  /\ (forall cached s2,
        ProductViewSet_popular (Some cached) s2 = (cached, Some cached))
  /\ (forall s2, ProductViewSet_popular (snd (ProductViewSet_popular None s)) s2
                 = (r, Some r)).
Proof.
  cbn [ProductViewSet_popular fst snd].
  set (sorted := order_by (popular_before s)
                   (filter Product.is_active (products s))).
  assert (Hs : StronglySorted (links_desc s) sorted).
  { apply Sorted_StronglySorted.
    - intros a b c Hab Hbc. unfold links_desc in *. lia.
    - apply order_by_Sorted; unfold popular_before, links_desc; intros c x H.
      + apply Nat.ltb_lt in H. lia.
      + apply Nat.ltb_ge in H. exact H. }
  assert (Hin : forall p, In p sorted <->
                          In p (products s) /\ Product.is_active p = true).
  { intros p. unfold sorted. now rewrite order_by_In, filter_In. }
  rewrite <- (firstn_skipn 10 sorted) in Hs.
  split; [apply firstn_le_length|]. split; [|split; [|split; [|split]]].
  - intros p Hp. apply Hin. apply (firstn_incl 10). exact Hp.
  - clear Hin. revert Hs. generalize (firstn 10 sorted), (skipn 10 sorted).
    intros l1 l2. induction l1 as [|x l1 IH]; simpl; intros Hs;
      [constructor|].
    inversion Hs as [|? ? Hs' Hall]; subst. constructor; [now apply IH|].
    rewrite Forall_forall in *. intros y Hy. apply Hall.
    apply in_or_app. now left.
  - intros p q Hp Hq Hact Hnot.
    assert (Hqs : In q sorted) by (apply Hin; auto).
    rewrite <- (firstn_skipn 10 sorted) in Hqs.
    apply in_app_or in Hqs. destruct Hqs as [Hq1|Hq2]; [contradiction|].
    apply (StronglySorted_app_cross _ _ _ Hs p q Hp Hq2).
  - reflexivity.
  - reflexivity.
Qed.

Lemma high_commission_list_witness :
  In Sample.widget (ProductViewSet_high_commission (Some 5) Sample.store)
  /\ ~ In Sample.widget (ProductViewSet_high_commission None Sample.store).
Proof.
  split.
  - apply (proj2 (proj1 (high_commission_list (Some 5) Sample.store)
                    Sample.widget)).
    split; [simpl; left; reflexivity|]. split; [reflexivity|].
    simpl. discriminate.
  - intros H.
    apply (proj1 (proj1 (high_commission_list None Sample.store)
                    Sample.widget)) in H.
    destruct H as (_ & _ & H). simpl in H. apply H. reflexivity.
Defined.

Lemma popular_list_witness :
  In Sample.widget (products Sample.store)
  /\ Product.is_active Sample.widget = true.
Proof.
  apply (proj1 (proj2 (popular_list Sample.store)) Sample.widget).
  simpl. left. reflexivity.
Defined.

(** ** Roles *)

(** Registration accepts exactly the roles "affiliate" and "merchant",
    case-sensitively, and returns the value unchanged. Any other role is
    refused by the choice field, with the message that quotes the value;
    a body without a role is refused as well. The method [validate_role]
    would refuse the same values with the list of the valid roles, but it
    only runs on a value the field has accepted, so its message is never
    the answer. An accepted role makes exactly one of is_affiliate and
    is_merchant true, and no user has both. *)
Theorem registration_accepts_the_two_roles (value : string) :
  (UserCreateSerializer_role (Some value) = inl value <->
   value = "affiliate" \/ value = "merchant")
  /\ (value <> "affiliate" -> value <> "merchant" ->
      UserCreateSerializer_role (Some value)
      = inr (Py.dquote ++ value ++ Py.dquote ++ " is not a valid choice.")
      /\ validate_role value
         = inr "Role must be one of: affiliate, merchant")
  /\ UserCreateSerializer_role None = inr "This field is required."
  /\ (forall data,
        UserCreateSerializer_role data
        <> inr "Role must be one of: affiliate, merchant")
  /\ (forall u, User.role u = value ->
        User.is_affiliate u && User.is_merchant u = false
        /\ (UserCreateSerializer_role (Some value) = inl value ->
            xorb (User.is_affiliate u) (User.is_merchant u) = true)).
Proof.
  assert (Hmem : forall v,
             str_mem v (map fst ROLE_CHOICES)
             = String.eqb v "affiliate" || String.eqb v "merchant").
  { intros v. unfold str_mem. cbn [map fst ROLE_CHOICES existsb].
    now rewrite orb_false_r. }
  assert (Hv : forall v,
             validate_role v
             = if String.eqb v "affiliate" || String.eqb v "merchant"
               then inl v
               else inr "Role must be one of: affiliate, merchant").
  { intros v. unfold validate_role. rewrite Hmem.
    destruct (String.eqb v "affiliate" || String.eqb v "merchant");
      reflexivity. }
  assert (Hr : forall v,
             UserCreateSerializer_role (Some v)
             = if String.eqb v "affiliate" || String.eqb v "merchant"
               then inl v
               else inr (Py.dquote ++ v ++ Py.dquote
                         ++ " is not a valid choice.")).
  { intros v. unfold UserCreateSerializer_role, role_field.
    rewrite Hmem.
    destruct (String.eqb v "affiliate" || String.eqb v "merchant") eqn:E;
      [|reflexivity].
    now rewrite Hv, E. }
  split; [|split; [|split; [|split]]].
  - rewrite Hr.
    destruct (String.eqb_spec value "affiliate") as [Ea|Ea];
      destruct (String.eqb_spec value "merchant") as [Em|Em]; cbn [orb];
      split; intros H; auto; try discriminate.
    destruct H; contradiction.
  - intros Ha Hm. rewrite Hr, Hv.
    apply String.eqb_neq in Ha, Hm. now rewrite Ha, Hm.
  - reflexivity.
  - intros [v|]; [|discriminate]. rewrite Hr.
    destruct (String.eqb v "affiliate" || String.eqb v "merchant");
      discriminate.
  - intros u Hu. unfold User.is_affiliate, User.is_merchant.
    rewrite Hu, Hr.
    destruct (String.eqb_spec value "affiliate") as [Ea|Ea];
      destruct (String.eqb_spec value "merchant") as [Em|Em]; cbn [orb];
      split; try reflexivity; try (intros H; discriminate).
    all: exfalso; rewrite Ea in Em; discriminate.
Qed.

Lemma registration_accepts_the_two_roles_witness :
  UserCreateSerializer_role (Some "Affiliate")
  = inr (Py.dquote ++ "Affiliate" ++ Py.dquote ++ " is not a valid choice.")
  /\ UserCreateSerializer_role (Some "affiliate") = inl "affiliate".
Proof.
  split.
  - apply (proj1 (proj2 (registration_accepts_the_two_roles "Affiliate")));
      discriminate.
  - apply (proj1 (registration_accepts_the_two_roles "affiliate")).
    left. reflexivity.
Defined.

(** ** The two ways to create a conversion *)

(** The two creation paths disagree on who may record a conversion. Take
    an active link, a positive amount, and a caller who neither owns the
    product nor is a superuser: the conversion endpoint answers 403. The
    REST collection, when the click of the body is absent or stored, lets a
    caller who is not a merchant, an affiliate included, through to the
    save, and stops a merchant with the uncaught [AttributeError] of its
    [raise], a 500 and not a 403. A click key that is not stored is refused
    with a 400 for whoever asks. *)
Theorem conversion_paths_disagree (py_float : string -> option Q) (now : Z)
        (fault : option string) (user : User.t) (data : dict)
        (rq : ConversionCreate) (s : Store) (l : AffiliateLink.t)
        (p : Product.t) :
  codes_ok s ->
  In l (links s) ->
  AffiliateLink.is_active l = true ->
  find (fun x => Nat.eqb (Product.id x) (AffiliateLink.product l)) (products s)
  = Some p ->
  cc_affiliate_link rq = AffiliateLink.id l ->
  0 < cc_amount rq ->
  User.id user <> Product.merchant p ->
  User.is_superuser user = false ->
  let click_stored :=
    forall k, cc_click rq = Some k ->
              exists c, In c (clicks s) /\ Click.id c = k in
  record_conversion py_float now fault user data (AffiliateLink.code l) s
  = (ApiError "Only the product merchant can record conversions" 403, s)
  /\ (click_stored -> User.is_merchant user = false ->
      ConversionViewSet_create_refusal user rq s = None)
  /\ (click_stored -> User.is_merchant user = true ->
      ConversionViewSet_create_refusal user rq s
      = Some (Raised500 no_PermissionDenied))
  /\ (forall k, cc_click rq = Some k ->
                (forall c, In c (clicks s) -> Click.id c <> k) ->
                ConversionViewSet_create_refusal user rq s
                = Some (Refused400 [("click", invalid_pk k)])).
Proof.
  intros [Hids Hcodes] Hin Hact Hp Hrq Hpos Hother Hsu click_stored.
  assert (Hfind : find (fun x => Nat.eqb (AffiliateLink.id x)
                                   (cc_affiliate_link rq)) (links s)
                  = Some l).
  { destruct (find _ (links s)) as [x|] eqn:E.
    - apply find_some in E. destruct E as [Hx Hxid].
      apply Nat.eqb_eq in Hxid. f_equal.
      apply (NoDup_map_inj_on AffiliateLink.id (links s)); auto.
      congruence.
    - exfalso. apply (find_none _ _ E) in Hin.
      apply Nat.eqb_neq in Hin. congruence. }
  assert (Hlink : affiliate_link_field (cc_affiliate_link rq) s = inl l).
  { unfold affiliate_link_field, validate_affiliate_link.
    now rewrite Hfind, Hact. }
  assert (Hamount : validate_amount (cc_amount rq) = None).
  { unfold validate_amount.
    destruct (Qle_bool (cc_amount rq) 0) eqn:E; [|reflexivity].
    apply Qle_bool_iff in E. exfalso. apply (Qlt_not_le _ _ Hpos E). }
  assert (Hclick : click_stored -> click_field (cc_click rq) s = None).
  { intros Hst. unfold click_field.
    destruct (cc_click rq) as [k|]; [|reflexivity].
    destruct (Hst k eq_refl) as [c [Hc Hk]].
    assert (E : existsb (fun c => Nat.eqb (Click.id c) k) (clicks s) = true).
    { apply existsb_exists. exists c. split; [exact Hc|].
      now apply Nat.eqb_eq. }
    now rewrite E. }
  split; [|split; [|split]].
  - pose proof (active_rows_of_code s l Hcodes Hin) as Hrows.
    rewrite Hact in Hrows.
    unfold record_conversion, record_conversion_try, bind.
    rewrite (get_object_or_404_found _ _ _ Hrows).
    rewrite (link_product_found _ _ _ Hp).
    unfold User.neq. rewrite Hsu.
    apply Nat.eqb_neq in Hother. now rewrite Hother.
  - intros Hst Hm.
    unfold ConversionViewSet_create_refusal, ConversionCreateSerializer_errors.
    rewrite Hlink, (Hclick Hst), Hamount, Hm. reflexivity.
  - intros Hst Hm.
    unfold ConversionViewSet_create_refusal, ConversionCreateSerializer_errors.
    rewrite Hlink, (Hclick Hst), Hamount, Hm. cbn [app].
    rewrite Hp. unfold User.neq.
    apply Nat.eqb_neq in Hother. now rewrite Hother.
  - intros k Hk Hnone.
    assert (E : existsb (fun c => Nat.eqb (Click.id c) k) (clicks s) = false).
    { destruct (existsb _ (clicks s)) eqn:E; [|reflexivity].
      apply existsb_exists in E. destruct E as [c [Hc Hid]].
      apply Nat.eqb_eq in Hid. exfalso. now apply (Hnone c). }
    assert (Hc : click_field (cc_click rq) s = Some (invalid_pk k)).
    { unfold click_field. now rewrite Hk, E. }
    unfold ConversionViewSet_create_refusal, ConversionCreateSerializer_errors.
    rewrite Hlink, Hc, Hamount. reflexivity.
Qed.

Lemma conversion_paths_disagree_witness :
  record_conversion Sample.py_float 0 None Sample.affiliate
    [("amount", JNum 50)] Sample.code Sample.store
  = (ApiError "Only the product merchant can record conversions" 403,
     Sample.store)
  /\ ConversionViewSet_create_refusal Sample.affiliate
       (mkConversionCreate 1 None "A-1" 50 None "") Sample.store = None
  /\ ConversionViewSet_create_refusal Sample.affiliate
       (mkConversionCreate 1 (Some 4%nat) "A-1" 50 None "") Sample.store
     = Some (Refused400
               [("click", "Invalid pk " ++ Py.dquote ++ "4" ++ Py.dquote
                          ++ " - object does not exist.")]).
Proof.
  destruct (conversion_paths_disagree Sample.py_float 0 None Sample.affiliate
              [("amount", JNum 50)]
              (mkConversionCreate 1 None "A-1" 50 None "") Sample.store
              Sample.link Sample.widget
              ltac:(split; simpl; (constructor; [intros [] | constructor]))
              ltac:(simpl; left; reflexivity)
              ltac:(reflexivity) ltac:(reflexivity) ltac:(reflexivity)
              ltac:(reflexivity) ltac:(simpl; lia) ltac:(reflexivity))
    as (H1 & H2 & _).
  destruct (conversion_paths_disagree Sample.py_float 0 None Sample.affiliate
              [("amount", JNum 50)]
              (mkConversionCreate 1 (Some 4%nat) "A-1" 50 None "")
              Sample.store Sample.link Sample.widget
              ltac:(split; simpl; (constructor; [intros [] | constructor]))
              ltac:(simpl; left; reflexivity)
              ltac:(reflexivity) ltac:(reflexivity) ltac:(reflexivity)
              ltac:(reflexivity) ltac:(simpl; lia) ltac:(reflexivity))
    as (_ & _ & _ & H4).
  split; [exact H1|]. split.
  - apply H2; [intros k Hk; discriminate | reflexivity].
  - apply (H4 4%nat eq_refl). intros c [].
Defined.

(** ** The codes the resolver lets through *)

Lemma is_hex_lower (c : ascii) : is_hex c = true -> Py.lower_char c = c.
Proof.
  destruct c as [[] [] [] [] [] [] [] []]; vm_compute; congruence.
Qed.

Lemma hex_run_shape (n : nat) (s r : string) :
  hex_run n s = Some r ->
  exists pre, s = pre ++ r /\ String.length pre = n /\ Py.lower pre = pre.
Proof.
  revert s. induction n as [|n IH]; simpl; intros s H.
  - inversion H. exists "". auto.
  - destruct s as [|c s]; [discriminate|].
    destruct (is_hex c) eqn:Hc; [|discriminate].
    destruct (IH s H) as [pre [Hs [Hlen Hlow]]].
    exists (String c pre). simpl. rewrite Hs at 1.
    rewrite Hlen, Hlow, (is_hex_lower c Hc). auto.
Qed.

Lemma dash_shape (s r : string) :
  dash s = Some r -> s = "-" ++ r.
Proof.
  destruct s as [|c s]; simpl; [discriminate|].
  destruct (Ascii.eqb_spec c "-"%char) as [->|]; [|discriminate].
  intros H. now inversion H.
Qed.

Lemma lower_app (a b : string) : Py.lower (a ++ b) = Py.lower a ++ Py.lower b.
Proof.
  induction a as [|c a IH]; simpl; [reflexivity|]. now rewrite IH.
Qed.

Lemma length_app_string (a b : string) :
  String.length (a ++ b) = (String.length a + String.length b)%nat.
Proof.
  induction a as [|c a IH]; simpl; [reflexivity|]. now rewrite IH.
Qed.

(** The resolver only passes a code of 36 characters that is its own
    lower-case form: any other segment, such as a UUID written with capital
    hex digits, is answered 404 without reaching the view, and the store is
    unchanged. *)
Theorem resolver_passes_canonical_codes (redirect : string -> redirect_outcome)
     (now : Z) (fault : option string)
        (request : Request) (segment : string) (s : Store) :
  (uuid_converter segment = true ->
   String.length segment = 36%nat /\ Py.lower segment = segment)
  /\ (String.length segment <> 36%nat \/ Py.lower segment <> segment ->
      click_endpoint redirect now fault request segment s
      = (HttpResponseStatus "Not Found" 404, s)).
Proof.
  assert (Hshape : uuid_converter segment = true ->
            String.length segment = 36%nat /\ Py.lower segment = segment).
  { unfold uuid_converter, and_then. intros H.
    destruct (hex_run 8 segment) as [r1|] eqn:E1; [|discriminate].
    destruct (dash r1) as [r2|] eqn:E2; [|discriminate].
    destruct (hex_run 4 r2) as [r3|] eqn:E3; [|discriminate].
    destruct (dash r3) as [r4|] eqn:E4; [|discriminate].
    destruct (hex_run 4 r4) as [r5|] eqn:E5; [|discriminate].
    destruct (dash r5) as [r6|] eqn:E6; [|discriminate].
    destruct (hex_run 4 r6) as [r7|] eqn:E7; [|discriminate].
    destruct (dash r7) as [r8|] eqn:E8; [|discriminate].
    destruct (hex_run 12 r8) as [r9|] eqn:E9; [|discriminate].
    destruct r9; [|discriminate].
    apply hex_run_shape in E1, E3, E5, E7, E9.
    apply dash_shape in E2, E4, E6, E8.
    destruct E1 as (p1 & -> & L1 & W1). destruct E3 as (p3 & -> & L3 & W3).
    destruct E5 as (p5 & -> & L5 & W5). destruct E7 as (p7 & -> & L7 & W7).
    destruct E9 as (p9 & -> & L9 & W9). subst r1 r3 r5 r7.
    rewrite !length_app_string, !lower_app, L1, L3, L5, L7, L9,
      W1, W3, W5, W7, W9.
    split; reflexivity. }
  split; [exact Hshape|].
  intros Hbad. unfold click_endpoint.
  destruct (uuid_converter segment) eqn:E; [|reflexivity].
  destruct (Hshape eq_refl) as [Hl Hw]. destruct Hbad; contradiction.
Qed.

Lemma resolver_passes_canonical_codes_witness :
  click_endpoint Sample.redirect 0 None Sample.request "123E4567-E89B-42D3-A456-426614174000"
    Sample.store
  = (HttpResponseStatus "Not Found" 404, Sample.store).
Proof.
  apply (proj2 (resolver_passes_canonical_codes Sample.redirect 0 None Sample.request
                  "123E4567-E89B-42D3-A456-426614174000" Sample.store)).
  right. discriminate.
Defined.

(** ** The admin actions on conversions *)

(** Verifying or unverifying conversions in the admin only sets the
    verified flag of the selected rows: every conversion keeps its place, its
    link, its amount and its commission_amount, the other rows are untouched,
    and so are products, links and clicks. After verifying, the selected
    conversions are the ones the list returns under verified=true for a
    caller whose list is not scoped by role. *)
Theorem admin_verification_only_sets_the_flag (selected : list nat)
        (verified : bool) (s : Store) :
  let s' := admin_set_verified selected verified s in
  products s' = products s /\ links s' = links s /\ clicks s' = clicks s
  /\ map Conversion.id (conversions s') = map Conversion.id (conversions s)
  /\ map Conversion.amount (conversions s')
     = map Conversion.amount (conversions s)
  /\ map Conversion.commission_amount (conversions s')
     = map Conversion.commission_amount (conversions s)
  /\ map Conversion.affiliate_link (conversions s')
     = map Conversion.affiliate_link (conversions s)
  /\ (forall c, In c (conversions s) ->
                ~ In (Conversion.id c) selected -> In c (conversions s'))
  /\ (forall c', In c' (conversions s') ->
                 In (Conversion.id c') selected ->
                 Conversion.verified c' = verified)
  /\ (forall user c',
        User.is_affiliate user = false -> User.is_merchant user = false ->
        verified = true ->
        In c' (conversions s') -> In (Conversion.id c') selected ->
        In c' (ConversionViewSet_get_queryset user
                 (mkConversionQuery None (Some "true") None None) s')).
Proof.
  assert (Hsel : forall c', In c' (conversions
                                     (admin_set_verified selected verified s)) ->
                 In (Conversion.id c') selected ->
                 Conversion.verified c' = verified).
  { intros c' Hin Hid. unfold admin_set_verified in Hin. simpl in Hin.
    apply in_map_iff in Hin. destruct Hin as [c [Hc _]].
    destruct (existsb (Nat.eqb (Conversion.id c)) selected) eqn:E.
    - subst c'. reflexivity.
    - subst c'. exfalso.
      assert (existsb (Nat.eqb (Conversion.id c)) selected = true);
        [|congruence].
      apply existsb_exists. exists (Conversion.id c).
      split; [assumption | apply Nat.eqb_refl]. }
  cbv zeta. unfold admin_set_verified at 1 2 3 4 5 6 7 8. simpl.
  rewrite !map_map.
  repeat (split; [first [reflexivity
                        | apply map_ext; intros c;
                          now destruct (existsb _ selected)] |]).
  split; [|split].
  - intros c Hin Hnot. apply in_map_iff. exists c. split; [|assumption].
    destruct (existsb (Nat.eqb (Conversion.id c)) selected) eqn:E;
      [|reflexivity].
    exfalso. apply Hnot. apply existsb_exists in E.
    destruct E as [n [Hn En]]. apply Nat.eqb_eq in En. now subst n.
  - exact Hsel.
  - intros user c' Ea Em Hv Hin Hid.
    unfold ConversionViewSet_get_queryset. rewrite Ea, Em.
    apply order_by_timestamp_desc_In, apply_query_In.
    split; [exact Hin|]. repeat split; try discriminate.
    intros v E. inversion E; subst v. simpl.
    rewrite (Hsel c' Hin Hid). exact Hv.
Qed.

Lemma admin_verification_only_sets_the_flag_witness :
  In (Conversion.mk 1 1 None (JStr "A-1001") 50 5 None 10%Z true (JStr ""))
     (ConversionViewSet_get_queryset Sample.staff
        (mkConversionQuery None (Some "true") None None)
        (admin_set_verified [1%nat] true Sample.store_converted)).
Proof.
  apply (proj2 (proj2 (proj2 (proj2 (proj2 (proj2 (proj2 (proj2 (proj2
           (admin_verification_only_sets_the_flag [1%nat] true
              Sample.store_converted))))))))) Sample.staff).
  - reflexivity.
  - reflexivity.
  - reflexivity.
  - simpl. left. reflexivity.
  - simpl. left. reflexivity.
Defined.
